(** * pod-doctor: the diagnostic engine

    A shallow embedding of the diagnostic engine of pod-doctor
    (package [analyzer], package [domain] and the scan filter of package
    [cmd]) together with the properties of its specification.

    Go strings are byte sequences; they are modelled by [string], whose
    characters are the 8-bit [ascii] values, so [String.length] is Go's
    [len].  Go maps are [gmap]s, slices are lists, [int32] counters are
    [Z].  Calls into the cluster API are fields of a [Client] record that
    return a [result]: a value or an error. *)

From Stdlib Require Import ZArith String Ascii List Permutation Sorted Lia.
From stdpp Require Import base tactics option list strings gmap pretty.

Local Open Scope Z_scope.

(* ===================================================================== *)
(** * Package domain                                                      *)
(* ===================================================================== *)

Module domain.

(** [type PodStatus string] with its thirteen constants. *)
Inductive PodStatus :=
| StatusHealthy | StatusCrashLoop | StatusImagePull | StatusPending
| StatusOOMKilled | StatusEvicted | StatusError | StatusTerminating
| StatusUnknown | StatusNotReady | StatusInitializing
| StatusCreateError | StatusConfigError.

(** The string value of each constant. *)
Definition PodStatus_label (s : PodStatus) : string :=
  match s with
  | StatusHealthy => "Healthy"
  | StatusCrashLoop => "CrashLoopBackOff"
  | StatusImagePull => "ImagePullBackOff"
  | StatusPending => "Pending"
  | StatusOOMKilled => "OOMKilled"
  | StatusEvicted => "Evicted"
  | StatusError => "Error"
  | StatusTerminating => "Terminating"
  | StatusUnknown => "Unknown"
  | StatusNotReady => "NotReady"
  | StatusInitializing => "Initializing"
  | StatusCreateError => "CreateContainerError"
  | StatusConfigError => "CreateContainerConfigError"
  end.

#[global] Instance PodStatus_eq_dec : EqDecision PodStatus.
Proof. solve_decision. Defined.

(** [type Severity string]. *)
Inductive Severity := SeverityCritical | SeverityWarning | SeverityInfo.

Definition Severity_label (s : Severity) : string :=
  match s with
  | SeverityCritical => "critical"
  | SeverityWarning => "warning"
  | SeverityInfo => "info"
  end.

#[global] Instance Severity_eq_dec : EqDecision Severity.
Proof. solve_decision. Defined.

(** [type Issue struct].  A nil [Details] map reads like the empty one. *)
Record Issue := mkIssue {
  Severity_of : Severity;
  Category : string;
  Title : string;
  Description : string;
  Details : gmap string string;
}.

Definition IsCritical (i : Issue) : bool :=
  bool_decide (Severity_of i = SeverityCritical).

(** [type Recommendation struct]; an absent [Command] is the empty string. *)
Record Recommendation := mkRec {
  Priority : Z;
  RTitle : string;
  RDescription : string;
  Command : string;
}.

(** [type NodeHealth struct]. *)
Record NodeHealth := mkNodeHealth {
  NHName : string;
  NHReady : bool;
  MemoryPressure : bool;
  DiskPressure : bool;
  PIDPressure : bool;
  NetworkUnavail : bool;
}.

(** [time.Time] is only ever rendered: once by the probe analyzer with the
    layout 15:04:05 and once by the event analyzer with the layout
    2006-01-02 15:04:05.  A time is kept as these two renderings. *)
Record GoTime := mkGoTime {
  clock_text : string;
  stamp_text : string;
}.

(** [type EventInfo struct]. *)
Record EventInfo := mkEvent {
  EType : string;
  EReason : string;
  EMessage : string;
  ECount : Z;
  FirstSeen : GoTime;
  LastSeen : GoTime;
  ESource : string;
}.

(** [type PodInfo struct]: the fields the recommendation engine reads
    ([Name], [Namespace], [Node]) and the scalar fields copied from the
    pod.  [Age], [Containers] and [Labels] are filled for display only and
    are left out. *)
Record PodInfo := mkPodInfo {
  PName : string;
  PNamespace : string;
  PNode : string;
  PPhase : string;
  PIP : string;
  PRestarts : Z;
}.

(** [type Diagnosis struct].  The [Logs] and [Resources] pointers are never
    assigned by the engine and stay nil; they are left out. *)
Record Diagnosis := mkDiagnosis {
  DPod : PodInfo;
  Status : PodStatus;
  Issues : list Issue;
  Events : list EventInfo;
  Node : option NodeHealth;
  Recommendations : list Recommendation;
  DiagnosedAt : GoTime;
}.

(** [NewDiagnosis]; the clock reading of [time.Now()] is an argument. *)
Definition NewDiagnosis (pod : PodInfo) (now : GoTime) : Diagnosis :=
  {| DPod := pod; Status := StatusUnknown; Issues := []; Events := [];
     Node := None; Recommendations := []; DiagnosedAt := now |}.

(** [AddIssue]. *)
Definition AddIssue (d : Diagnosis) (issue : Issue) : Diagnosis :=
  {| DPod := DPod d; Status := Status d; Issues := Issues d ++ [issue];
     Events := Events d; Node := Node d;
     Recommendations := Recommendations d; DiagnosedAt := DiagnosedAt d |}.

(** [HasCriticalIssues]. *)
Definition HasCriticalIssues (d : Diagnosis) : bool :=
  existsb IsCritical (Issues d).

(** [IsHealthy]: [len(d.Issues) == 0 && d.Status == StatusHealthy]. *)
Definition IsHealthy (d : Diagnosis) : bool :=
  (Nat.eqb (length (Issues d)) 0) && bool_decide (Status d = StatusHealthy).

End domain.

Import domain.

(* ===================================================================== *)
(** * The cluster objects read by the engine (k8s.io/api/core/v1)         *)
(* ===================================================================== *)

Module corev1.

Record ContainerStateWaiting := mkWaiting {
  WReason : string;
  WMessage : string;
}.

Record ContainerStateTerminated := mkTerminated {
  ExitCode : Z;
  TReason : string;
  TMessage : string;
}.

(** [ContainerState]: each member is a pointer, nil when absent.  Of
    [ContainerStateRunning] only its presence is read. *)
Record ContainerState := mkState {
  Waiting : option ContainerStateWaiting;
  Running : option unit;
  Terminated : option ContainerStateTerminated;
}.

Record ContainerStatus := mkContainerStatus {
  CSName : string;
  State : ContainerState;
  LastTerminationState : ContainerState;
  Ready : bool;
  RestartCount : Z;
  CSImage : string;
}.

Record PodCondition := mkCondition {
  CType : string;
  CStatus : string;
  CReason : string;
  CMessage : string;
}.

Record Probe := mkProbe {
  InitialDelaySeconds : Z;
  TimeoutSeconds : Z;
  PeriodSeconds : Z;
  FailureThreshold : Z;
}.

(** [resource.Quantity]: its value, counted in units of 10^-9 (the finest
    scale a parsed quantity keeps), and its canonical rendering. *)
Record Quantity := mkQuantity {
  nano : Z;
  QString : string;
}.

Definition QIsZero (q : Quantity) : bool := nano q =? 0.
Definition QCmp (q r : Quantity) : Z :=
  match nano q ?= nano r with Lt => -1 | Eq => 0 | Gt => 1 end.

(** [ResourceList.Cpu()], [.Memory()]: the entry of the map, or a zero
    quantity when the name is absent; never nil. *)
Definition zeroQuantity : Quantity := mkQuantity 0 "0".
Definition Cpu (l : gmap string Quantity) : Quantity :=
  default zeroQuantity (l !! "cpu").
Definition Memory (l : gmap string Quantity) : Quantity :=
  default zeroQuantity (l !! "memory").

Record ResourceRequirements := mkResources {
  Limits : gmap string Quantity;
  Requests : gmap string Quantity;
}.

Record Container := mkContainer {
  CName : string;
  Image : string;
  Resources : ResourceRequirements;
  LivenessProbe : option Probe;
  ReadinessProbe : option Probe;
  StartupProbe : option Probe;
}.

(** [Pod], flattened: metadata, spec and status fields the engine reads. *)
Record Pod := mkPod {
  Name : string;
  Namespace : string;
  DeletionTimestamp : option GoTime;
  NodeName : string;
  Containers : list Container;
  InitContainers : list Container;
  Phase : string;
  Reason : string;
  Message : string;
  PodIP : string;
  Conditions : list PodCondition;
  ContainerStatuses : list ContainerStatus;
  InitContainerStatuses : list ContainerStatus;
}.

End corev1.

Import corev1.

(* ===================================================================== *)
(** * Package kubernetes: the client                                      *)
(* ===================================================================== *)

(** A Go [(value, error)] return of a call that yields no value on error. *)
Inductive result (A : Type) :=
| Ok (a : A)
| Err (e : string).
Arguments Ok {A} a.
Arguments Err {A} e.

Definition is_err {A} (r : result A) : bool :=
  match r with Ok _ => false | Err _ => true end.

(** The answers of the cluster during one diagnosis. *)
Record Client := mkClient {
  GetPod : string -> string -> result Pod;
  GetPodLogs : string -> string -> string -> Z -> bool -> result string;
  GetPodEvents : string -> string -> result (list EventInfo);
  GetNodeHealth : string -> result NodeHealth;
}.

(** [ExtractPodInfo], on the fields of [PodInfo] kept here. *)
Definition ExtractPodInfo (pod : Pod) : PodInfo :=
  {| PName := Name pod;
     PNamespace := Namespace pod;
     PNode := NodeName pod;
     PPhase := Phase pod;
     PIP := PodIP pod;
     PRestarts := fold_left (fun acc cs => acc + RestartCount cs)
                            (ContainerStatuses pod) 0 |}.

(* ===================================================================== *)
(** * Package analyzer: the status classifier                             *)
(* ===================================================================== *)

(** The [switch cs.State.Waiting.Reason] of [detectPodStatus]; [None] when
    no case applies and control falls out of the switch. *)
Definition waitingStatus (reason : string) : option PodStatus :=
  if String.eqb reason "CrashLoopBackOff" then Some StatusCrashLoop
  else if String.eqb reason "ImagePullBackOff" || String.eqb reason "ErrImagePull"
       then Some StatusImagePull
  else if String.eqb reason "CreateContainerError" then Some StatusCreateError
  else if String.eqb reason "CreateContainerConfigError" then Some StatusConfigError
  else None.

(** One iteration of the loop over [pod.Status.ContainerStatuses]: the
    status it returns, or [None] when the loop goes on. *)
Definition containerVerdict (cs : ContainerStatus) : option PodStatus :=
  let oom :=
    match Terminated (LastTerminationState cs) with
    | Some t => if String.eqb (TReason t) "OOMKilled"
                then Some StatusOOMKilled else None
    | None => None
    end in
  match Waiting (State cs) with
  | Some w =>
      match waitingStatus (WReason w) with
      | Some s => Some s
      | None => oom
      end
  | None => oom
  end.

Fixpoint scanContainerStatuses (css : list ContainerStatus) : option PodStatus :=
  match css with
  | [] => None
  | cs :: rest =>
      match containerVerdict cs with
      | Some s => Some s
      | None => scanContainerStatuses rest
      end
  end.

(** The inner loop of the [PodRunning] case. *)
Fixpoint allReady (css : list ContainerStatus) : bool :=
  match css with
  | [] => true
  | cs :: rest => if negb (Ready cs) then false else allReady rest
  end.

(** [detectPodStatus]. *)
Definition detectPodStatus (pod : Pod) : PodStatus :=
  match DeletionTimestamp pod with
  | Some _ => StatusTerminating
  | None =>
      match scanContainerStatuses (ContainerStatuses pod) with
      | Some s => s
      | None =>
          if String.eqb (Phase pod) "Pending" then StatusPending
          else if String.eqb (Phase pod) "Failed" then
            if String.eqb (Reason pod) "Evicted" then StatusEvicted
            else StatusError
          else if String.eqb (Phase pod) "Running" then
            if allReady (ContainerStatuses pod) then StatusHealthy
            else StatusNotReady
          else if String.eqb (Phase pod) "Succeeded" then StatusHealthy
          else StatusUnknown
      end
  end.

(* ===================================================================== *)
(** * Strings                                                             *)
(* ===================================================================== *)

Definition byte (c : ascii) : N := N_of_ascii c.

(** [strings.Contains]. *)
Fixpoint Contains (s sub : string) : bool :=
  String.prefix sub s ||
  match s with
  | EmptyString => false
  | String _ rest => Contains rest sub
  end.

(** [strings.Split(s, "\n")]: the pieces between line feeds; a string
    without line feed is its only piece. *)
Fixpoint Split (s : string) : list string :=
  match s with
  | EmptyString => [EmptyString]
  | String c rest =>
      if (byte c =? 10)%N then EmptyString :: Split rest
      else match Split rest with
           | piece :: pieces => String c piece :: pieces
           | [] => [String c EmptyString]
           end
  end.

(** The one-byte white space of [unicode.IsSpace]: tab, line feed, vertical
    tab, form feed, carriage return, space. *)
Definition asciiSpace (x : N) : bool :=
  ((9 <=? x) && (x <=? 13) || (x =? 32))%N.

(** The two-byte white space: U+0085 and U+00A0. *)
Definition space2 (x y : N) : bool :=
  ((x =? 194) && ((y =? 133) || (y =? 160)))%N.

(** The three-byte white space: U+1680, U+2000 to U+200A, U+2028, U+2029,
    U+202F, U+205F and U+3000. *)
Definition space3 (x y z : N) : bool :=
  ((x =? 225) && (y =? 154) && (z =? 128)
   || (x =? 226) && (y =? 128)
        && ((128 <=? z) && (z <=? 138) || (z =? 168) || (z =? 169) || (z =? 175))
   || (x =? 226) && (y =? 129) && (z =? 159)
   || (x =? 227) && (y =? 128) && (z =? 128))%N.

(** [strings.TrimSpace(line)] is the empty string: the UTF-8 decoding of the line from
    the left meets white space only. *)
Fixpoint isBlank (s : string) : bool :=
  match s with
  | EmptyString => true
  | String a r1 =>
      if asciiSpace (byte a) then isBlank r1
      else match r1 with
           | EmptyString => false
           | String b r2 =>
               if space2 (byte a) (byte b) then isBlank r2
               else match r2 with
                    | EmptyString => false
                    | String c r3 =>
                        if space3 (byte a) (byte b) (byte c) then isBlank r3
                        else false
                    end
           end
  end.

(** [truncateLine].  [line[:maxLen-3]] is the first [maxLen-3] bytes; the
    slice bound is in range whenever [3 <= maxLen], and the analyzer calls
    it with 200. *)
Definition truncateLine (line : string) (maxLen : nat) : string :=
  if (String.length line <=? maxLen)%nat then line
  else String.substring 0 (maxLen - 3) line +:+ "...".

(* ===================================================================== *)
(** * Regular expressions (package regexp, as used by the log patterns)   *)
(* ===================================================================== *)

Module regexp.

(** The fragment of the syntax the pattern table uses, over bytes. *)
Inductive Regexp :=
| Fail0
| Eps
| Lit (c : ascii)
| Cat (r s : Regexp)
| Alt (r s : Regexp)
| Star (r : Regexp).

Fixpoint nullable (r : Regexp) : bool :=
  match r with
  | Fail0 => false
  | Eps => true
  | Lit _ => false
  | Cat r s => nullable r && nullable s
  | Alt r s => nullable r || nullable s
  | Star _ => true
  end.

Definition cat (r s : Regexp) : Regexp :=
  match r, s with
  | Fail0, _ => Fail0
  | _, Fail0 => Fail0
  | Eps, _ => s
  | _, _ => Cat r s
  end.

Definition alt (r s : Regexp) : Regexp :=
  match r, s with
  | Fail0, _ => s
  | _, Fail0 => r
  | _, _ => Alt r s
  end.

(** The Brzozowski derivative: what is left to match after byte [c]. *)
Fixpoint deriv (c : ascii) (r : Regexp) : Regexp :=
  match r with
  | Fail0 => Fail0
  | Eps => Fail0
  | Lit d => if Ascii.eqb c d then Eps else Fail0
  | Cat r s =>
      if nullable r then alt (cat (deriv c r) s) (deriv c s)
      else cat (deriv c r) s
  | Alt r s => alt (deriv c r) (deriv c s)
  | Star r => cat (deriv c r) (Star r)
  end.

(** Some prefix of [s] is in the language of [r]. *)
Fixpoint matchesPrefix (r : Regexp) (s : string) : bool :=
  nullable r ||
  match s with
  | EmptyString => false
  | String c rest => matchesPrefix (deriv c r) rest
  end.

(** [Regexp.MatchString]: some substring of [s] is in the language. *)
Fixpoint MatchString (r : Regexp) (s : string) : bool :=
  matchesPrefix r s ||
  match s with
  | EmptyString => false
  | String _ rest => MatchString r rest
  end.

(** The bytes of a string in sequence. *)
Fixpoint bytes (s : string) : Regexp :=
  match s with
  | EmptyString => Eps
  | String c rest => cat (Lit c) (bytes rest)
  end.

(** A literal character under the flag [(?i)]: a letter matches both of
    its cases; k also matches U+212A and s also matches U+017F, their
    remaining simple case folds, in their UTF-8 encodings. *)
Definition foldLit (c : ascii) : Regexp :=
  let x := byte c in
  let lower := if ((65 <=? x) && (x <=? 90))%N then (x + 32)%N else x in
  if ((97 <=? lower) && (lower <=? 122))%N then
    let both := Alt (Lit (ascii_of_N (lower - 32))) (Lit (ascii_of_N lower)) in
    if (lower =? 107)%N then
      Alt both (bytes (String (ascii_of_N 226) (String (ascii_of_N 132)
                        (String (ascii_of_N 170) EmptyString))))
    else if (lower =? 115)%N then
      Alt both (bytes (String (ascii_of_N 197) (String (ascii_of_N 191)
                        EmptyString)))
    else both
  else Lit c.

(** A literal word under [(?i)]. *)
Fixpoint word (s : string) : Regexp :=
  match s with
  | EmptyString => Eps
  | String c rest => cat (foldLit c) (word rest)
  end.

(** The class [\s]: tab, line feed, form feed, carriage return, space. *)
Definition space : Regexp :=
  Alt (Lit (ascii_of_N 9)) (Alt (Lit (ascii_of_N 10)) (Alt (Lit (ascii_of_N 12))
    (Alt (Lit (ascii_of_N 13)) (Lit (ascii_of_N 32))))).

(** [\s*] and [(r)?]. *)
Definition spaces : Regexp := Star space.
Definition opt (r : Regexp) : Regexp := Alt r Eps.

(** Concatenation of a list of pieces. *)
Definition seq (rs : list Regexp) : Regexp := fold_right Cat Eps rs.

(** The language of an expression: the byte strings it denotes. *)
Inductive Language : Regexp -> string -> Prop :=
| L_eps : Language Eps EmptyString
| L_lit c : Language (Lit c) (String c EmptyString)
| L_cat r s u v : Language r u -> Language s v -> Language (Cat r s) (u +:+ v)
| L_alt_l r s u : Language r u -> Language (Alt r s) u
| L_alt_r r s u : Language s u -> Language (Alt r s) u
| L_star_nil r : Language (Star r) EmptyString
| L_star_more r u v :
    Language r u -> Language (Star r) v -> Language (Star r) (u +:+ v).

End regexp.

(* ===================================================================== *)
(** * Package analyzer: the log analyzer                                  *)
(* ===================================================================== *)

Record errorPattern := mkPattern {
  Pattern : regexp.Regexp;
  PTitle : string;
  PDescription : string;
  PSeverity : Severity;
}.

Record LogAnalyzer := mkLogAnalyzer {
  patterns : list errorPattern;
}.

(** The two entries of the table that share the title Connection refused:
    the patterns (?i)connection\s*refused and (?i)ECONNREFUSED. *)
Definition connectionRefused : errorPattern :=
  mkPattern (regexp.seq [regexp.word "connection"; regexp.spaces;
                         regexp.word "refused"])
    "Connection refused" "Cannot connect to a service" SeverityWarning.
Definition econnrefused : errorPattern :=
  mkPattern (regexp.word "ECONNREFUSED")
    "Connection refused" "TCP connection refused" SeverityWarning.

(** [NewLogAnalyzer]: the seventeen patterns, each compiled with [(?i)]. *)
Definition NewLogAnalyzer : LogAnalyzer :=
  let w := regexp.word in
  let s := regexp.spaces in
  let seq := regexp.seq in
  {| patterns := [
    (* (?i)panic: *)
    mkPattern (w "panic:") "Panic detected" "Application panicked" SeverityCritical;
    (* (?i)fatal\s*(error)?: *)
    mkPattern (seq [w "fatal"; s; regexp.opt (w "error"); w ":"])
      "Fatal error" "Fatal error occurred" SeverityCritical;
    (* (?i)out\s*of\s*memory *)
    mkPattern (seq [w "out"; s; w "of"; s; w "memory"])
      "Out of memory" "Application ran out of memory" SeverityCritical;
    (* (?i)killed *)
    mkPattern (w "killed") "Process killed" "Process was killed" SeverityWarning;
    (* (?i)connection\s*refused *)
    connectionRefused;
    (* (?i)ECONNREFUSED *)
    econnrefused;
    (* (?i)permission\s*denied *)
    mkPattern (seq [w "permission"; s; w "denied"])
      "Permission denied" "Insufficient permissions" SeverityWarning;
    (* (?i)access\s*denied *)
    mkPattern (seq [w "access"; s; w "denied"])
      "Access denied" "Access was denied" SeverityWarning;
    (* (?i)no\s*such\s*file *)
    mkPattern (seq [w "no"; s; w "such"; s; w "file"])
      "File not found" "Required file not found" SeverityWarning;
    (* (?i)timeout|timed?\s*out *)
    mkPattern (regexp.Alt (w "timeout")
                 (seq [w "time"; regexp.opt (w "d"); s; w "out"]))
      "Timeout" "Operation timed out" SeverityWarning;
    (* (?i)deadline\s*exceeded *)
    mkPattern (seq [w "deadline"; s; w "exceeded"])
      "Deadline exceeded" "Operation deadline was exceeded" SeverityWarning;
    (* (?i)certificate\s*(verify|validation)\s*failed *)
    mkPattern (seq [w "certificate"; s;
                    regexp.Alt (w "verify") (w "validation"); s; w "failed"])
      "Certificate error" "TLS certificate validation failed" SeverityWarning;
    (* (?i)authentication\s*failed *)
    mkPattern (seq [w "authentication"; s; w "failed"])
      "Auth failed" "Authentication failed" SeverityWarning;
    (* (?i)unauthorized *)
    mkPattern (w "unauthorized")
      "Unauthorized" "Unauthorized access attempt" SeverityWarning;
    (* (?i)segmentation\s*fault *)
    mkPattern (seq [w "segmentation"; s; w "fault"])
      "Segfault" "Segmentation fault occurred" SeverityCritical;
    (* (?i)stack\s*overflow *)
    mkPattern (seq [w "stack"; s; w "overflow"])
      "Stack overflow" "Stack overflow error" SeverityCritical;
    (* (?i)null\s*pointer *)
    mkPattern (seq [w "null"; s; w "pointer"])
      "Null pointer" "Null pointer exception" SeverityCritical
  ] |}.

(** The inner loop over the patterns for one line: every pattern that
    matches appends the truncated line under its title. *)
Definition recordLine (ps : list errorPattern) (matched : gmap string (list string))
    (line : string) : gmap string (list string) :=
  fold_left
    (fun m p =>
       if regexp.MatchString (Pattern p) line
       then <[PTitle p := default [] (m !! PTitle p) ++ [truncateLine line 200]]> m
       else m)
    ps matched.

(** The loop over the lines; blank lines are skipped. *)
Definition matchLines (ps : list errorPattern) (lines : list string)
  : gmap string (list string) :=
  fold_left
    (fun m line => if isBlank line then m else recordLine ps m line)
    lines ∅.

(** The body of the emission loop for one pattern.  [matches[0]] exists:
    a title is entered in the map only by appending a line to it. *)
Definition patternIssue (containerName : string)
    (matched : gmap string (list string)) (p : errorPattern) : list Issue :=
  match matched !! PTitle p with
  | Some matches =>
      let details : gmap string string :=
        <["sample_match" := default EmptyString (head matches)]>
          (<["match_count" := pretty (length matches)]>
             (<["container" := containerName]> ∅)) in
      let details :=
        if (1 <? length matches)%nat
        then <["additional_matches" :=
                 pretty (length matches - 1)%nat +:+ " more occurrences"]> details
        else details in
      [ {| Severity_of := PSeverity p;
           Category := "logs";
           Title := "[" +:+ containerName +:+ "] " +:+ PTitle p;
           Description := PDescription p;
           Details := details |} ]
  | None => []
  end.

(** [analyzeContainerLogs]: the issues and the error of the Go pair. *)
Definition analyzeContainerLogs (l : LogAnalyzer) (client : Client)
    (namespace podName containerName : string) (previous : bool)
  : list Issue * option string :=
  match GetPodLogs client namespace podName containerName 100 previous with
  | Err e => ([], Some e)
  | Ok logs =>
      if String.eqb logs EmptyString then ([], None)
      else
        let matched := matchLines (patterns l) (Split logs) in
        (flat_map (patternIssue containerName matched) (patterns l), None)
  end.

(** The body of the loop of [LogAnalyzer.Analyze] for one container: when
    reading the current logs fails, the previous logs are read and the
    error of that second call is dropped. *)
Definition containerLogIssues (l : LogAnalyzer) (pod : Pod) (client : Client)
    (container : Container) : list Issue :=
  let (containerIssues, err) :=
    analyzeContainerLogs l client (Namespace pod) (Name pod)
                         (CName container) false in
  match err with
  | Some _ =>
      fst (analyzeContainerLogs l client (Namespace pod) (Name pod)
                                (CName container) true)
  | None => containerIssues
  end.

(** [LogAnalyzer.Analyze]. *)
Definition LogAnalyze (l : LogAnalyzer) (pod : Pod) (client : Client)
  : list Issue * option string :=
  (fold_left
     (fun issues container => issues ++ containerLogIssues l pod client container)
     (Containers pod) [],
   None).

(* ===================================================================== *)
(** * Package analyzer: the analyzers over the pod object                 *)
(* ===================================================================== *)

(** The [Analyzer] interface: [Name] and [Analyze], which returns the Go
    pair of issues and error. *)
Record Analyzer := mkAnalyzer {
  AName : string;
  Analyze : Pod -> Client -> list Issue * option string;
}.

(** The test [p != nil] of a pointer. *)
Definition notNil {A} (p : option A) : bool :=
  match p with Some _ => true | None => false end.

(** A Go map literal. *)
Definition mapOf (entries : list (string * string)) : gmap string string :=
  list_to_map entries.

(** The constants of k8s.io/api/core/v1 the analyzers compare with. *)
Definition PodPending : string := "Pending".
Definition PodRunning : string := "Running".
Definition PodSucceeded : string := "Succeeded".
Definition PodFailed : string := "Failed".
Definition PodScheduled : string := "PodScheduled".
Definition PodReady : string := "Ready".
Definition ContainersReady : string := "ContainersReady".
Definition ConditionFalse : string := "False".

(** ** StatusAnalyzer *)

(** The waiting-state switch of [StatusAnalyzer.analyzeContainerStatus]. *)
Definition waitingIssues (cs : ContainerStatus) (waiting : ContainerStateWaiting)
  : list Issue :=
  let reason := WReason waiting in
  if String.eqb reason "CrashLoopBackOff" then
    [ {| Severity_of := SeverityCritical; Category := "container";
         Title := "Container " +:+ CSName cs +:+ " in CrashLoopBackOff";
         Description := "Container is repeatedly crashing after starting";
         Details := mapOf [("container", CSName cs); ("reason", reason);
                           ("message", WMessage waiting);
                           ("restart_count", pretty (RestartCount cs))] |} ]
  else if String.eqb reason "ImagePullBackOff" || String.eqb reason "ErrImagePull" then
    [ {| Severity_of := SeverityCritical; Category := "container";
         Title := "Cannot pull image for " +:+ CSName cs;
         Description := WMessage waiting;
         Details := mapOf [("container", CSName cs); ("reason", reason);
                           ("image", CSImage cs)] |} ]
  else if String.eqb reason "CreateContainerConfigError" then
    [ {| Severity_of := SeverityCritical; Category := "container";
         Title := "Config error for " +:+ CSName cs;
         Description := WMessage waiting;
         Details := mapOf [("container", CSName cs); ("reason", reason)] |} ]
  else if String.eqb reason "CreateContainerError" then
    [ {| Severity_of := SeverityCritical; Category := "container";
         Title := "Cannot create container " +:+ CSName cs;
         Description := WMessage waiting;
         Details := mapOf [("container", CSName cs); ("reason", reason)] |} ]
  else if negb (String.eqb reason EmptyString)
          && negb (String.eqb reason "ContainerCreating")
          && negb (String.eqb reason "PodInitializing") then
    [ {| Severity_of := SeverityWarning; Category := "container";
         Title := "Container " +:+ CSName cs +:+ " waiting: " +:+ reason;
         Description := WMessage waiting;
         Details := mapOf [("container", CSName cs); ("reason", reason)] |} ]
  else [].

(** [StatusAnalyzer.analyzeContainerStatus]. *)
Definition analyzeContainerStatus (cs : ContainerStatus) : list Issue :=
  (match Waiting (State cs) with
   | Some waiting => waitingIssues cs waiting
   | None => []
   end)
  ++
  (match Terminated (LastTerminationState cs) with
   | Some terminated =>
       if String.eqb (TReason terminated) "OOMKilled" then
         [ {| Severity_of := SeverityCritical; Category := "resources";
              Title := "Container " +:+ CSName cs +:+ " was OOMKilled";
              Description := "Container exceeded memory limit and was killed";
              Details := mapOf [("container", CSName cs); ("reason", "OOMKilled");
                                ("exit_code", pretty (ExitCode terminated))] |} ]
       else if negb (ExitCode terminated =? 0) then
         [ {| Severity_of := SeverityWarning; Category := "container";
              Title := "Container " +:+ CSName cs +:+ " exited with code "
                       +:+ pretty (ExitCode terminated);
              Description := TMessage terminated;
              Details := mapOf [("container", CSName cs);
                                ("reason", TReason terminated);
                                ("exit_code", pretty (ExitCode terminated))] |} ]
       else []
   | None => []
   end)
  ++
  (match Terminated (State cs) with
   | Some terminated =>
       if negb (ExitCode terminated =? 0) then
         [ {| Severity_of := SeverityCritical; Category := "container";
              Title := "Container " +:+ CSName cs +:+ " terminated with exit code "
                       +:+ pretty (ExitCode terminated);
              Description := TMessage terminated;
              Details := mapOf [("container", CSName cs);
                                ("reason", TReason terminated);
                                ("exit_code", pretty (ExitCode terminated))] |} ]
       else []
   | None => []
   end).

(** [StatusAnalyzer.analyzeInitContainerStatus]. *)
Definition analyzeInitContainerStatus (cs : ContainerStatus) : list Issue :=
  (match Waiting (State cs) with
   | Some waiting =>
       if negb (String.eqb (WReason waiting) EmptyString) then
         [ {| Severity_of := SeverityWarning; Category := "container";
              Title := "Init container " +:+ CSName cs +:+ " waiting: "
                       +:+ WReason waiting;
              Description := WMessage waiting;
              Details := mapOf [("container", CSName cs); ("type", "init");
                                ("reason", WReason waiting)] |} ]
       else []
   | None => []
   end)
  ++
  (match Terminated (State cs) with
   | Some terminated =>
       if negb (ExitCode terminated =? 0) then
         [ {| Severity_of := SeverityCritical; Category := "container";
              Title := "Init container " +:+ CSName cs +:+ " failed";
              Description := "Exit code: " +:+ pretty (ExitCode terminated)
                             +:+ " - " +:+ TMessage terminated;
              Details := mapOf [("container", CSName cs); ("type", "init");
                                ("exit_code", pretty (ExitCode terminated))] |} ]
       else []
   | None => []
   end).

(** The switch of [analyzePodConditions] for one condition. *)
Definition conditionIssues (pod : Pod) (cond : PodCondition) : list Issue :=
  if String.eqb (CType cond) PodScheduled then
    if String.eqb (CStatus cond) ConditionFalse then
      [ {| Severity_of := SeverityCritical; Category := "scheduling";
           Title := "Pod cannot be scheduled";
           Description := CMessage cond;
           Details := mapOf [("reason", CReason cond)] |} ]
    else []
  else if String.eqb (CType cond) PodReady then
    if String.eqb (CStatus cond) ConditionFalse
       && String.eqb (Phase pod) PodRunning then
      [ {| Severity_of := SeverityWarning; Category := "container";
           Title := "Pod is not ready";
           Description := CMessage cond;
           Details := mapOf [("reason", CReason cond)] |} ]
    else []
  else if String.eqb (CType cond) ContainersReady then
    if String.eqb (CStatus cond) ConditionFalse
       && String.eqb (Phase pod) PodRunning then
      [ {| Severity_of := SeverityWarning; Category := "container";
           Title := "Containers not ready";
           Description := CMessage cond;
           Details := mapOf [("reason", CReason cond)] |} ]
    else []
  else [].

(** [StatusAnalyzer.analyzePodConditions]. *)
Definition analyzePodConditions (pod : Pod) : list Issue :=
  flat_map (conditionIssues pod) (Conditions pod)
  ++
  (if String.eqb (Phase pod) PodFailed && String.eqb (Reason pod) "Evicted" then
     [ {| Severity_of := SeverityCritical; Category := "resources";
          Title := "Pod was evicted";
          Description := Message pod;
          Details := mapOf [("reason", "Evicted")] |} ]
   else []).

(** The restart-count loop of [StatusAnalyzer.Analyze]. *)
Definition restartIssues (cs : ContainerStatus) : list Issue :=
  if 5 <? RestartCount cs then
    [ {| Severity_of := SeverityWarning; Category := "container";
         Title := "High restart count for " +:+ CSName cs;
         Description := "Container has restarted " +:+ pretty (RestartCount cs)
                        +:+ " times";
         Details := mapOf [("container", CSName cs);
                           ("restart_count", pretty (RestartCount cs))] |} ]
  else [].

(** [StatusAnalyzer.Analyze]. *)
Definition StatusAnalyze (pod : Pod) (client : Client) : list Issue * option string :=
  (flat_map analyzeContainerStatus (ContainerStatuses pod)
   ++ flat_map analyzeInitContainerStatus (InitContainerStatuses pod)
   ++ analyzePodConditions pod
   ++ flat_map restartIssues (ContainerStatuses pod),
   None).

(** ** EventAnalyzer *)

(** [formatCount]. *)
Definition formatCount (count : Z) : string :=
  if count <=? 1 then "1" else pretty count +:+ " times".

(** [EventAnalyzer.analyzeWarningEvent]; [None] is the nil pointer. *)
Definition analyzeWarningEvent (event : EventInfo) : option Issue :=
  let r := EReason event in
  let severity :=
    if String.eqb r "Failed" || String.eqb r "FailedScheduling"
       || String.eqb r "FailedMount" || String.eqb r "FailedAttachVolume"
    then SeverityCritical
    else if String.eqb r "Unhealthy" || String.eqb r "ProbeWarning"
    then SeverityWarning
    else if String.eqb r "BackOff" then SeverityCritical
    else SeverityWarning in
  let category :=
    if Contains r "Scheduling" then "scheduling"
    else if Contains r "Volume" || Contains r "Mount" then "storage"
    else if Contains r "Probe" || String.eqb r "Unhealthy" then "health"
    else if Contains r "Pull" then "container"
    else if Contains r "OOM" then "resources"
    else "events" in
  if String.eqb r "Scheduled" || String.eqb r "Pulled"
     || String.eqb r "Created" || String.eqb r "Started"
  then None
  else Some {| Severity_of := severity; Category := category;
               Title := r; Description := EMessage event;
               Details := mapOf [("count", formatCount (ECount event));
                                 ("source", ESource event);
                                 ("last_seen", stamp_text (LastSeen event))] |}.

(** [EventAnalyzer.Analyze]. *)
Definition EventAnalyze (pod : Pod) (client : Client) : list Issue * option string :=
  match GetPodEvents client (Namespace pod) (Name pod) with
  | Err e => ([], Some e)
  | Ok events =>
      (flat_map
         (fun event =>
            if String.eqb (EType event) "Warning" then
              match analyzeWarningEvent event with
              | Some issue => [issue]
              | None => []
              end
            else [])
         events,
       None)
  end.

(** ** NodeAnalyzer *)

(** [NodeAnalyzer.Analyze]. *)
Definition NodeAnalyze (pod : Pod) (client : Client) : list Issue * option string :=
  if String.eqb (NodeName pod) EmptyString then ([], None)
  else
    match GetNodeHealth client (NodeName pod) with
    | Err e => ([], Some e)
    | Ok nodeHealth =>
        let n := NHName nodeHealth in
        ((if negb (NHReady nodeHealth) then
            [ {| Severity_of := SeverityCritical; Category := "node";
                 Title := "Node " +:+ n +:+ " is not ready";
                 Description := "The node where this pod is running is not in Ready state";
                 Details := mapOf [("node", n)] |} ]
          else [])
         ++
         (if MemoryPressure nodeHealth then
            [ {| Severity_of := SeverityWarning; Category := "node";
                 Title := "Node " +:+ n +:+ " has memory pressure";
                 Description := "The node is experiencing memory pressure, which may cause pod evictions";
                 Details := mapOf [("node", n); ("condition", "MemoryPressure")] |} ]
          else [])
         ++
         (if DiskPressure nodeHealth then
            [ {| Severity_of := SeverityWarning; Category := "node";
                 Title := "Node " +:+ n +:+ " has disk pressure";
                 Description := "The node is running low on disk space";
                 Details := mapOf [("node", n); ("condition", "DiskPressure")] |} ]
          else [])
         ++
         (if PIDPressure nodeHealth then
            [ {| Severity_of := SeverityWarning; Category := "node";
                 Title := "Node " +:+ n +:+ " has PID pressure";
                 Description := "The node is running low on process IDs";
                 Details := mapOf [("node", n); ("condition", "PIDPressure")] |} ]
          else [])
         ++
         (if NetworkUnavail nodeHealth then
            [ {| Severity_of := SeverityCritical; Category := "node";
                 Title := "Node " +:+ n +:+ " network unavailable";
                 Description := "The node's network is not properly configured";
                 Details := mapOf [("node", n); ("condition", "NetworkUnavailable")] |} ]
          else []),
         None)
    end.

(** ** ResourceAnalyzer *)

(** [resource.MustParse("64Mi")] and [resource.MustParse("50m")]. *)
Definition minMemory : Quantity := mkQuantity (67108864 * 1000000000) "64Mi".
Definition minCPU : Quantity := mkQuantity 50000000 "50m".

(** [isGuaranteedQoS]. *)
Definition isGuaranteedQoS (resources : ResourceRequirements) : bool :=
  let cpuLimit := Cpu (Limits resources) in
  let cpuRequest := Cpu (Requests resources) in
  let memLimit := Memory (Limits resources) in
  let memRequest := Memory (Requests resources) in
  if QIsZero cpuLimit || QIsZero memLimit then false
  else (QCmp cpuLimit cpuRequest =? 0) && (QCmp memLimit memRequest =? 0).

(** [isBurstableQoS]. *)
Definition isBurstableQoS (resources : ResourceRequirements) : bool :=
  let hasRequest := (0 <? size (Requests resources))%nat in
  let hasLimit := (0 <? size (Limits resources))%nat in
  (hasRequest || hasLimit) && negb (isGuaranteedQoS resources).

(** [ResourceAnalyzer.analyzeContainer]. *)
Definition analyzeContainer (container : Container) : list Issue :=
  let resources := Resources container in
  let name := CName container in
  let memLimit := Memory (Limits resources) in
  let memRequest := Memory (Requests resources) in
  let cpuLimit := Cpu (Limits resources) in
  let cpuRequest := Cpu (Requests resources) in
  (if (size (Limits resources) =? 0)%nat then
     [ {| Severity_of := SeverityWarning; Category := "resources";
          Title := "No resource limits for " +:+ name;
          Description := "Container has no resource limits set, which may lead to resource contention";
          Details := mapOf [("container", name);
                            ("recommendation", "Set CPU and memory limits to prevent resource starvation")] |} ]
   else [])
  ++
  (if (size (Requests resources) =? 0)%nat then
     [ {| Severity_of := SeverityInfo; Category := "resources";
          Title := "No resource requests for " +:+ name;
          Description := "Container has no resource requests set, which may affect scheduling";
          Details := mapOf [("container", name);
                            ("recommendation", "Set resource requests for better scheduling decisions")] |} ]
   else [])
  ++
  (if negb (QIsZero memLimit) then
     (if QCmp memLimit minMemory <? 0 then
        [ {| Severity_of := SeverityWarning; Category := "resources";
             Title := "Low memory limit for " +:+ name;
             Description := "Memory limit is very low and may cause OOMKill";
             Details := mapOf [("container", name);
                               ("memory_limit", QString memLimit);
                               ("minimum_recommended", "64Mi")] |} ]
      else [])
     ++
     (if negb (QIsZero memRequest) && (0 <? QCmp memRequest memLimit) then
        [ {| Severity_of := SeverityWarning; Category := "resources";
             Title := "Memory request > limit for " +:+ name;
             Description := "Memory request exceeds limit, request will be set to limit";
             Details := mapOf [("container", name);
                               ("memory_request", QString memRequest);
                               ("memory_limit", QString memLimit)] |} ]
      else [])
   else [])
  ++
  (if negb (QIsZero cpuLimit) then
     (if QCmp cpuLimit minCPU <? 0 then
        [ {| Severity_of := SeverityWarning; Category := "resources";
             Title := "Very low CPU limit for " +:+ name;
             Description := "CPU limit is very low and may cause severe throttling";
             Details := mapOf [("container", name);
                               ("cpu_limit", QString cpuLimit);
                               ("minimum_recommended", "50m")] |} ]
      else [])
     ++
     (if negb (QIsZero cpuRequest) && (0 <? QCmp cpuRequest cpuLimit) then
        [ {| Severity_of := SeverityWarning; Category := "resources";
             Title := "CPU request > limit for " +:+ name;
             Description := "CPU request exceeds limit, request will be set to limit";
             Details := mapOf [("container", name);
                               ("cpu_request", QString cpuRequest);
                               ("cpu_limit", QString cpuLimit)] |} ]
      else [])
   else [])
  ++
  (if isGuaranteedQoS resources then []
   else if isBurstableQoS resources then []
   else
     [ {| Severity_of := SeverityWarning; Category := "resources";
          Title := "BestEffort QoS for " +:+ name;
          Description := "Container has BestEffort QoS class and will be first to be evicted under memory pressure";
          Details := mapOf [("container", name); ("qos_class", "BestEffort")] |} ]).

(** [ResourceAnalyzer.Analyze]. *)
Definition ResourceAnalyze (pod : Pod) (client : Client)
  : list Issue * option string :=
  (flat_map analyzeContainer (Containers pod)
   ++ flat_map analyzeContainer (InitContainers pod),
   None).

(** ** ProbeAnalyzer *)

(** [analyzeLivenessProbe]. *)
Definition analyzeLivenessProbe (containerName : string) (probe : Probe)
  : list Issue :=
  (if (0 <? PeriodSeconds probe) && (PeriodSeconds probe <? 5) then
     [ {| Severity_of := SeverityWarning; Category := "probes";
          Title := "Aggressive liveness probe for " +:+ containerName;
          Description := "Liveness probe runs very frequently, may cause unnecessary restarts";
          Details := mapOf [("container", containerName);
                            ("period", pretty (PeriodSeconds probe) +:+ "s");
                            ("recommendation", "Consider increasing periodSeconds to at least 10s")] |} ]
   else [])
  ++
  (if (0 <? FailureThreshold probe) && (FailureThreshold probe <? 3) then
     [ {| Severity_of := SeverityWarning; Category := "probes";
          Title := "Low liveness failureThreshold for " +:+ containerName;
          Description := "Container will restart after very few probe failures";
          Details := mapOf [("container", containerName);
                            ("failure_threshold", pretty (FailureThreshold probe));
                            ("recommendation", "Consider increasing failureThreshold to at least 3")] |} ]
   else [])
  ++
  (if (0 <? TimeoutSeconds probe) && (TimeoutSeconds probe <? 2) then
     [ {| Severity_of := SeverityInfo; Category := "probes";
          Title := "Short liveness timeout for " +:+ containerName;
          Description := "Liveness probe timeout is very short";
          Details := mapOf [("container", containerName);
                            ("timeout", pretty (TimeoutSeconds probe) +:+ "s");
                            ("recommendation", "Consider increasing timeoutSeconds if probe target may be slow")] |} ]
   else []).

(** [analyzeReadinessProbe]. *)
Definition analyzeReadinessProbe (containerName : string) (probe : Probe)
  : list Issue :=
  if 60 <? InitialDelaySeconds probe then
    [ {| Severity_of := SeverityInfo; Category := "probes";
         Title := "Long readiness initialDelaySeconds for " +:+ containerName;
         Description := "Readiness probe starts very late, pod won't receive traffic for a while";
         Details := mapOf [("container", containerName);
                           ("initial_delay", pretty (InitialDelaySeconds probe) +:+ "s")] |} ]
  else [].

(** [analyzeStartupProbe]. *)
Definition analyzeStartupProbe (containerName : string) (probe : Probe)
  : list Issue :=
  let maxStartupTime := FailureThreshold probe * PeriodSeconds probe in
  if (0 <? maxStartupTime) && (maxStartupTime <? 30) then
    [ {| Severity_of := SeverityWarning; Category := "probes";
         Title := "Short startup window for " +:+ containerName;
         Description := "Startup probe allows very little time for container to start";
         Details := mapOf [("container", containerName);
                           ("max_startup_time", pretty maxStartupTime +:+ "s");
                           ("recommendation", "Increase failureThreshold or periodSeconds")] |} ]
  else [].

(** [ProbeAnalyzer.analyzeContainerProbes]. *)
Definition analyzeContainerProbes (container : Container) : list Issue :=
  let name := CName container in
  let hasLiveness := notNil (LivenessProbe container) in
  let hasReadiness := notNil (ReadinessProbe container) in
  let hasStartup := notNil (StartupProbe container) in
  (if negb hasLiveness && negb hasReadiness then
     [ {| Severity_of := SeverityInfo; Category := "probes";
          Title := "No health probes for " +:+ name;
          Description := "Container has no liveness or readiness probes configured";
          Details := mapOf [("container", name);
                            ("recommendation", "Consider adding probes for better health monitoring")] |} ]
   else [])
  ++
  (match LivenessProbe container with
   | Some probe => analyzeLivenessProbe name probe
   | None => []
   end)
  ++
  (match ReadinessProbe container with
   | Some probe => analyzeReadinessProbe name probe
   | None => []
   end)
  ++
  (match StartupProbe container with
   | Some probe => analyzeStartupProbe name probe
   | None => []
   end)
  ++
  (match LivenessProbe container with
   | Some liveness =>
       if negb hasStartup && (InitialDelaySeconds liveness <? 10) then
         [ {| Severity_of := SeverityWarning; Category := "probes";
              Title := "Low liveness initialDelaySeconds for " +:+ name;
              Description := "Liveness probe starts very early, may kill slow-starting containers";
              Details := mapOf [("container", name);
                                ("initial_delay", pretty (InitialDelaySeconds liveness) +:+ "s");
                                ("recommendation", "Consider using a startupProbe or increasing initialDelaySeconds")] |} ]
       else []
   | None => []
   end).

(** [ProbeAnalyzer.analyzeProbeEvents]. *)
Definition analyzeProbeEvents (events : list EventInfo) : list Issue :=
  flat_map
    (fun event =>
       if negb (String.eqb (EType event) "Warning") then []
       else if String.eqb (EReason event) "Unhealthy" then
         let '(probeType, severity) :=
           if Contains (EMessage event) "Liveness"
           then ("Liveness", SeverityCritical)
           else if Contains (EMessage event) "Readiness"
           then ("Readiness", SeverityWarning)
           else if Contains (EMessage event) "Startup"
           then ("Startup", SeverityCritical)
           else ("Unknown", SeverityWarning) in
         [ {| Severity_of := severity; Category := "probes";
              Title := probeType +:+ " probe failed";
              Description := EMessage event;
              Details := mapOf [("probe_type", probeType);
                                ("count", pretty (ECount event));
                                ("last_seen", clock_text (LastSeen event))] |} ]
       else [])
    events.

(** [ProbeAnalyzer.analyzeContainerStatus]. *)
Definition probeContainerStatus (cs : ContainerStatus) : list Issue :=
  (if negb (Ready cs) && notNil (Running (State cs)) then
     [ {| Severity_of := SeverityWarning; Category := "probes";
          Title := "Container " +:+ CSName cs +:+ " running but not ready";
          Description := "Container is running but readiness probe is failing";
          Details := mapOf [("container", CSName cs); ("state", "running");
                            ("ready", "false")] |} ]
   else [])
  ++
  (match Terminated (LastTerminationState cs) with
   | Some terminated =>
       if (0 <? RestartCount cs) && (ExitCode terminated =? 137) then
         [ {| Severity_of := SeverityWarning; Category := "probes";
              Title := "Container " +:+ CSName cs +:+ " killed (exit 137)";
              Description := "Container was killed with SIGKILL, possibly by liveness probe or OOM";
              Details := mapOf [("container", CSName cs); ("exit_code", "137");
                                ("restart_count", pretty (RestartCount cs));
                                ("reason", TReason terminated)] |} ]
       else []
   | None => []
   end).

(** [ProbeAnalyzer.Analyze]. *)
Definition ProbeAnalyze (pod : Pod) (client : Client) : list Issue * option string :=
  (flat_map analyzeContainerProbes (Containers pod)
   ++ (match GetPodEvents client (Namespace pod) (Name pod) with
       | Ok events => analyzeProbeEvents events
       | Err _ => []
       end)
   ++ flat_map probeContainerStatus (ContainerStatuses pod),
   None).

(* ===================================================================== *)
(** * Package analyzer: the recommendation engine                         *)
(* ===================================================================== *)

(** [containsReason]. *)
Definition containsReason (issue : Issue) (reason : string) : bool :=
  match Details issue !! "reason" with
  | Some r => if String.eqb r reason then true else String.eqb (Title issue) reason
  | None => String.eqb (Title issue) reason
  end.

(** [getRecommendationsForIssue]. *)
Definition getRecommendationsForIssue (issue : Issue) (pod : PodInfo)
  : list Recommendation :=
  let cat := Category issue in
  if String.eqb cat "container" then
    (if String.eqb (Title issue) "CrashLoopBackOff"
        || containsReason issue "CrashLoopBackOff" then
       [ {| Priority := 1; RTitle := "Check container logs";
            RDescription := "Review container logs to identify the crash cause";
            Command := "kubectl logs " +:+ PName pod +:+ " -n "
                       +:+ PNamespace pod +:+ " --previous" |} ]
     else [])
    ++
    (if containsReason issue "ImagePullBackOff"
        || containsReason issue "ErrImagePull" then
       [ {| Priority := 1; RTitle := "Verify image exists";
            RDescription := "Check if the image exists and is accessible";
            Command := "kubectl describe pod " +:+ PName pod +:+ " -n "
                       +:+ PNamespace pod |};
         {| Priority := 2; RTitle := "Check image pull secrets";
            RDescription := "Ensure imagePullSecrets are configured if using a private registry";
            Command := EmptyString |} ]
     else [])
  else if String.eqb cat "resources" then
    (if containsReason issue "OOMKilled" then
       [ {| Priority := 1; RTitle := "Increase memory limit";
            RDescription := "Container exceeded memory limit; consider increasing it";
            Command := "kubectl set resources deployment/<deployment-name> -c <container> --limits=memory=<new-limit>" |} ]
     else [])
    ++
    (if Contains (Title issue) "No resource limits" then
       [ {| Priority := 2; RTitle := "Add resource limits";
            RDescription := "Set resource limits to prevent resource contention";
            Command := "kubectl set resources deployment/<deployment-name> -c <container> --limits=cpu=500m,memory=256Mi" |} ]
     else [])
    ++
    (if Contains (Title issue) "BestEffort QoS" then
       [ {| Priority := 2; RTitle := "Configure resource requests and limits";
            RDescription := "BestEffort pods are first to be evicted; add resources for better QoS";
            Command := EmptyString |} ]
     else [])
  else if String.eqb cat "probes" then
    (if Contains (Title issue) "probe failed" then
       [ {| Priority := 1; RTitle := "Check probe endpoint";
            RDescription := "Verify the probe endpoint is responding correctly";
            Command := "kubectl exec " +:+ PName pod +:+ " -n " +:+ PNamespace pod
                       +:+ " -- curl -v localhost:<port>/<path>" |} ]
     else [])
    ++
    (if Contains (Title issue) "No health probes" then
       [ {| Priority := 3; RTitle := "Add health probes";
            RDescription := "Consider adding liveness and readiness probes for better health monitoring";
            Command := EmptyString |} ]
     else [])
    ++
    (if Contains (Title issue) "running but not ready" then
       [ {| Priority := 1; RTitle := "Debug readiness probe";
            RDescription := "Check why readiness probe is failing";
            Command := "kubectl describe pod " +:+ PName pod +:+ " -n "
                       +:+ PNamespace pod +:+ " | grep -A10 'Readiness'" |} ]
     else [])
  else if String.eqb cat "scheduling" then
    [ {| Priority := 1; RTitle := "Check node resources";
         RDescription := "Verify cluster has nodes with sufficient resources";
         Command := "kubectl describe nodes | grep -A5 'Allocated resources'" |};
      {| Priority := 2; RTitle := "Review pod tolerations";
         RDescription := "Check if pod has required tolerations for tainted nodes";
         Command := EmptyString |} ]
  else if String.eqb cat "node" then
    [ {| Priority := 1; RTitle := "Check node status";
         RDescription := "Review node conditions and events";
         Command := "kubectl describe node " +:+ PNode pod |} ]
  else if String.eqb cat "logs" then
    [ {| Priority := 2; RTitle := "Review full logs";
         RDescription := "Check complete container logs for more context";
         Command := "kubectl logs " +:+ PName pod +:+ " -n " +:+ PNamespace pod
                    +:+ " --tail=100" |} ]
  else [].

(** The state of the accumulation loop of [generateRecommendations]: the
    slice [recs] and the map [seenRecs]. *)
Definition accState : Type := list Recommendation * gmap string bool.

(** The inner loop body: a recommendation is appended unless its title
    is marked in [seenRecs]. *)
Definition acceptRec (st : accState) (rec : Recommendation) : accState :=
  let '(recs, seenRecs) := st in
  if negb (default false (seenRecs !! RTitle rec))
  then (recs ++ [rec], <[RTitle rec := true]> seenRecs)
  else st.

(** The two nested loops: the recommendations accepted, in the order in
    which they were first seen. *)
Definition accumulate (issues : list Issue) (pod : PodInfo) : accState :=
  fold_left
    (fun st issue => fold_left acceptRec (getRecommendationsForIssue issue pod) st)
    issues ([], ∅).

Definition acceptedRecs (issues : list Issue) (pod : PodInfo)
  : list Recommendation :=
  fst (accumulate issues pod).

(** The closure passed to [sort.Slice], on the elements it compares. *)
Definition less (a b : Recommendation) : bool := Priority a <? Priority b.

(** [generateRecommendations].  [sort.Slice] belongs to the Go library;
    it is the argument [sortSlice], the slice after the call in terms of
    the slice before it. *)
Definition generateRecommendations
    (sortSlice : list Recommendation -> list Recommendation)
    (diagnosis : Diagnosis) : list Recommendation :=
  sortSlice (acceptedRecs (Issues diagnosis) (DPod diagnosis)).

(** What the documentation of [sort.Slice] promises for the closure
    [less]: the elements are rearranged, and afterwards no element is less
    than one that precedes it.  It adds that the sort is not guaranteed to
    be stable. *)
Definition SliceContract (sortSlice : list Recommendation -> list Recommendation)
  : Prop :=
  forall recs,
    sortSlice recs ≡ₚ recs /\
    forall (i j : nat) (a b : Recommendation),
      (i < j)%nat -> sortSlice recs !! i = Some a -> sortSlice recs !! j = Some b ->
      less b a = false.

(** Two sorts that keep this contract.  The first is insertion sort:
    each element moves left while it is less than its left neighbour. *)
Fixpoint insertLast (x : Recommendation) (sorted : list Recommendation)
  : list Recommendation :=
  match sorted with
  | [] => [x]
  | y :: rest => if less x y then x :: y :: rest else y :: insertLast x rest
  end.

Definition insertionSort (recs : list Recommendation) : list Recommendation :=
  fold_left (fun sorted x => insertLast x sorted) recs [].



(* ===================================================================== *)
(** * Package analyzer: the diagnostic pipeline                           *)
(* ===================================================================== *)

Record PodAnalyzer := mkPodAnalyzer {
  client : Client;
  analyzers : list Analyzer;
}.

(** [NewPodAnalyzer]: the six analyzers in their declared order. *)
Definition NewPodAnalyzer (client : Client) : PodAnalyzer :=
  {| client := client;
     analyzers := [
       mkAnalyzer "status" StatusAnalyze;
       mkAnalyzer "events" EventAnalyze;
       mkAnalyzer "logs" (LogAnalyze NewLogAnalyzer);
       mkAnalyzer "node" NodeAnalyze;
       mkAnalyzer "resources" ResourceAnalyze;
       mkAnalyzer "probes" ProbeAnalyze
     ] |}.

(** Assignments to the fields of the diagnosis under construction. *)
Definition setStatus (d : Diagnosis) (s : PodStatus) : Diagnosis :=
  {| DPod := DPod d; Status := s; Issues := Issues d; Events := Events d;
     Node := Node d; Recommendations := Recommendations d;
     DiagnosedAt := DiagnosedAt d |}.
Definition setEvents (d : Diagnosis) (events : list EventInfo) : Diagnosis :=
  {| DPod := DPod d; Status := Status d; Issues := Issues d; Events := events;
     Node := Node d; Recommendations := Recommendations d;
     DiagnosedAt := DiagnosedAt d |}.
Definition setNode (d : Diagnosis) (n : option NodeHealth) : Diagnosis :=
  {| DPod := DPod d; Status := Status d; Issues := Issues d; Events := Events d;
     Node := n; Recommendations := Recommendations d;
     DiagnosedAt := DiagnosedAt d |}.
Definition setRecommendations (d : Diagnosis) (recs : list Recommendation)
  : Diagnosis :=
  {| DPod := DPod d; Status := Status d; Issues := Issues d; Events := Events d;
     Node := Node d; Recommendations := recs; DiagnosedAt := DiagnosedAt d |}.

(** The loop over the analyzers: an analyzer that returns an error is
    passed over, the issues of the others are added one by one. *)
Definition runAnalyzers (p : PodAnalyzer) (pod : Pod) (d : Diagnosis) : Diagnosis :=
  fold_left
    (fun d analyzer =>
       let (issues, err) := Analyze analyzer pod (client p) in
       match err with
       | Some _ => d
       | None => fold_left AddIssue issues d
       end)
    (analyzers p) d.

(** [PodAnalyzer.Diagnose]; [now] is the reading of the clock and
    [sortSlice] the library sort. *)
Definition Diagnose (sortSlice : list Recommendation -> list Recommendation)
    (now : GoTime) (p : PodAnalyzer) (namespace name : string)
  : result Diagnosis :=
  match GetPod (client p) namespace name with
  | Err e => Err e
  | Ok pod =>
      let podInfo := ExtractPodInfo pod in
      let diagnosis := NewDiagnosis podInfo now in
      let diagnosis := setStatus diagnosis (detectPodStatus pod) in
      let diagnosis := runAnalyzers p pod diagnosis in
      let diagnosis :=
        match GetPodEvents (client p) namespace name with
        | Ok events => setEvents diagnosis events
        | Err _ => diagnosis
        end in
      let diagnosis :=
        if negb (String.eqb (NodeName pod) EmptyString) then
          match GetNodeHealth (client p) (NodeName pod) with
          | Ok nodeHealth => setNode diagnosis (Some nodeHealth)
          | Err _ => diagnosis
          end
        else diagnosis in
      Ok (setRecommendations diagnosis
            (generateRecommendations sortSlice diagnosis))
  end.

(* ===================================================================== *)
(** * Package cmd: the filter of the scan                                 *)
(* ===================================================================== *)

(** The filtering step of [runScan] on the diagnoses collected by
    [scanPods]. *)
Definition filterScan (onlyUnhealthy : bool) (diagnoses : list Diagnosis)
  : list Diagnosis :=
  if onlyUnhealthy then
    fold_left
      (fun filtered d => if negb (IsHealthy d) then filtered ++ [d] else filtered)
      diagnoses []
  else diagnoses.

(* ===================================================================== *)
(** * The decision procedure of the classifier, as a relation             *)
(* ===================================================================== *)

(** The container is waiting with reason [r]. *)
Definition waitingReasonIs (cs : ContainerStatus) (r : string) : Prop :=
  exists w, Waiting (State cs) = Some w /\ WReason w = r.

(** The last termination of the container has reason [r]. *)
Definition lastTerminationReasonIs (cs : ContainerStatus) (r : string) : Prop :=
  exists t, Terminated (LastTerminationState cs) = Some t /\ TReason t = r.

(** The waiting reasons that have a status label of their own. *)
Inductive WaitingLabel : string -> PodStatus -> Prop :=
| WL_crashloop : WaitingLabel "CrashLoopBackOff" StatusCrashLoop
| WL_imagepull : WaitingLabel "ImagePullBackOff" StatusImagePull
| WL_errimagepull : WaitingLabel "ErrImagePull" StatusImagePull
| WL_createerror : WaitingLabel "CreateContainerError" StatusCreateError
| WL_configerror : WaitingLabel "CreateContainerConfigError" StatusConfigError.

Definition labelledWaiting (cs : ContainerStatus) : Prop :=
  exists r l, waitingReasonIs cs r /\ WaitingLabel r l.

(** A container that decides nothing: no labelled waiting reason and no
    last termination by OOMKilled. *)
Definition undecided (cs : ContainerStatus) : Prop :=
  ~ labelledWaiting cs /\ ~ lastTerminationReasonIs cs "OOMKilled".

(** The rules in their order.  The rules on waiting reasons and on
    OOMKilled are taken container by container: the first container, in
    the order of the status list, that is not [undecided] gives the label,
    its waiting reason before its last termination. *)
Inductive Classified (pod : Pod) : PodStatus -> Prop :=
| Rule_terminating :
    DeletionTimestamp pod <> None ->
    Classified pod StatusTerminating
| Rule_waiting pre cs post r l :
    DeletionTimestamp pod = None ->
    ContainerStatuses pod = pre ++ cs :: post ->
    Forall undecided pre ->
    waitingReasonIs cs r -> WaitingLabel r l ->
    Classified pod l
| Rule_oomkilled pre cs post :
    DeletionTimestamp pod = None ->
    ContainerStatuses pod = pre ++ cs :: post ->
    Forall undecided pre ->
    ~ labelledWaiting cs -> lastTerminationReasonIs cs "OOMKilled" ->
    Classified pod StatusOOMKilled
| Rule_pending :
    DeletionTimestamp pod = None ->
    Forall undecided (ContainerStatuses pod) ->
    Phase pod = "Pending" ->
    Classified pod StatusPending
| Rule_evicted :
    DeletionTimestamp pod = None ->
    Forall undecided (ContainerStatuses pod) ->
    Phase pod = "Failed" -> Reason pod = "Evicted" ->
    Classified pod StatusEvicted
| Rule_error :
    DeletionTimestamp pod = None ->
    Forall undecided (ContainerStatuses pod) ->
    Phase pod = "Failed" -> Reason pod <> "Evicted" ->
    Classified pod StatusError
| Rule_notready :
    DeletionTimestamp pod = None ->
    Forall undecided (ContainerStatuses pod) ->
    Phase pod = "Running" ->
    Exists (fun cs => Ready cs = false) (ContainerStatuses pod) ->
    Classified pod StatusNotReady
| Rule_healthy_running :
    DeletionTimestamp pod = None ->
    Forall undecided (ContainerStatuses pod) ->
    Phase pod = "Running" ->
    Forall (fun cs => Ready cs = true) (ContainerStatuses pod) ->
    Classified pod StatusHealthy
| Rule_healthy_succeeded :
    DeletionTimestamp pod = None ->
    Forall undecided (ContainerStatuses pod) ->
    Phase pod = "Succeeded" ->
    Classified pod StatusHealthy
| Rule_unknown :
    DeletionTimestamp pod = None ->
    Forall undecided (ContainerStatuses pod) ->
    Phase pod <> "Pending" -> Phase pod <> "Failed" ->
    Phase pod <> "Running" -> Phase pod <> "Succeeded" ->
    Classified pod StatusUnknown.

(* ===================================================================== *)
(** * Vocabulary of the properties                                        *)
(* ===================================================================== *)

(** [a] stands in the list and [b] stands somewhere after it. *)
Inductive Before {A : Type} (a b : A) : list A -> Prop :=
| Before_here l : b ∈ l -> Before a b (a :: l)
| Before_later x l : Before a b l -> Before a b (x :: l).

(** The order the recommendations are sorted by. *)
Definition byPriority (a b : Recommendation) : Prop := Priority a <= Priority b.

(** The loop invariant: the titles accepted so far are pairwise distinct,
    and [seenRecs] marks exactly these titles. *)
Definition accInv (st : accState) : Prop :=
  NoDup (map RTitle st.1) /\
  forall t, default false (st.2 !! t) = true <-> t ∈ map RTitle st.1.

(** The issues an analyzer adds to the diagnosis: those it returns, and
    none when it returns an error. *)
Definition keptIssues (pod : Pod) (client : Client) (a : Analyzer) : list Issue :=
  match snd (Analyze a pod client) with
  | None => fst (Analyze a pod client)
  | Some _ => []
  end.

(** A container status with nothing abnormal: the container neither
    waits nor is terminated, has no last termination, is ready, and has
    restarted at most five times. *)
Definition normalStatus (cs : ContainerStatus) : Prop :=
  Waiting (State cs) = None /\ Terminated (State cs) = None /\
  Terminated (LastTerminationState cs) = None /\
  Ready cs = true /\ RestartCount cs <= 5.

(** A pod without abnormal statuses: its containers and init containers
    are normal, none of its conditions is false, and its phase is not
    Failed. *)
Definition noAbnormalStatus (pod : Pod) : Prop :=
  Forall normalStatus (ContainerStatuses pod) /\
  Forall normalStatus (InitContainerStatuses pod) /\
  Forall (fun cond => CStatus cond <> ConditionFalse) (Conditions pod) /\
  Phase pod <> PodFailed.

(* ===================================================================== *)
(** * Scenarios                                                           *)
(* ===================================================================== *)

Definition noState : ContainerState := mkState None None None.
Definition runningState : ContainerState := mkState None (Some tt) None.
Definition waitingState (reason : string) : ContainerState :=
  mkState (Some (mkWaiting reason EmptyString)) None None.
Definition terminatedState (code : Z) (reason : string) : ContainerState :=
  mkState None None (Some (mkTerminated code reason EmptyString)).

(** A pod named web in namespace default with the given phase, container
    specifications and container statuses; not deleted, no node, no
    conditions, no init containers. *)
Definition podOf (phase : string) (containers : list Container)
    (statuses : list ContainerStatus) : Pod :=
  {| Name := "web"; Namespace := "default"; DeletionTimestamp := None;
     NodeName := EmptyString; Containers := containers; InitContainers := [];
     Phase := phase; Reason := EmptyString; Message := EmptyString;
     PodIP := EmptyString; Conditions := [];
     ContainerStatuses := statuses; InitContainerStatuses := [] |}.

(** One container that waits in CrashLoopBackOff after an OOM kill. *)
Definition crashOOMStatus : ContainerStatus :=
  mkContainerStatus "app" (waitingState "CrashLoopBackOff")
                    (terminatedState 137 "OOMKilled") false 3 "app:1".
Definition crashOOMPod : Pod := podOf "Running" [] [crashOOMStatus].

(** Two containers: the first was OOM killed and runs again, the second
    waits in CrashLoopBackOff. *)
Definition oomFirstStatus : ContainerStatus :=
  mkContainerStatus "sidecar" runningState (terminatedState 137 "OOMKilled")
                    true 1 "sidecar:1".
Definition crashSecondStatus : ContainerStatus :=
  mkContainerStatus "app" (waitingState "CrashLoopBackOff") noState
                    false 3 "app:1".
Definition oomThenCrashPod : Pod :=
  podOf "Running" [] [oomFirstStatus; crashSecondStatus].

(** A container without resource requests, limits or probes, running and
    ready, in a pod without events whose logs are empty. *)
Definition bareContainer : Container :=
  mkContainer "app" "app:1" (mkResources ∅ ∅) None None None.
Definition readyStatus : ContainerStatus :=
  mkContainerStatus "app" runningState noState true 0 "app:1".
Definition barePod : Pod := podOf "Running" [bareContainer] [readyStatus].

(** A cluster that knows exactly one pod. *)
Definition clusterOf (pod : Pod) (logs : result string) : Client :=
  {| GetPod := fun namespace name =>
       if String.eqb namespace (Namespace pod) && String.eqb name (Name pod)
       then Ok pod else Err "pods not found";
     GetPodLogs := fun _ _ _ _ _ => logs;
     GetPodEvents := fun _ _ => Ok [];
     GetNodeHealth := fun _ => Err "nodes not found" |}.

Definition bareCluster : Client := clusterOf barePod (Ok EmptyString).

Definition noon : GoTime := mkGoTime "12:00:00" "2024-01-01 12:00:00".

(** The recommendations the scenarios meet. *)
Definition addLimitsRec : Recommendation :=
  {| Priority := 2; RTitle := "Add resource limits";
     RDescription := "Set resource limits to prevent resource contention";
     Command := "kubectl set resources deployment/<deployment-name> -c <container> --limits=cpu=500m,memory=256Mi" |}.
Definition configureRec : Recommendation :=
  {| Priority := 2; RTitle := "Configure resource requests and limits";
     RDescription := "BestEffort pods are first to be evicted; add resources for better QoS";
     Command := EmptyString |}.
Definition addProbesRec : Recommendation :=
  {| Priority := 3; RTitle := "Add health probes";
     RDescription := "Consider adding liveness and readiness probes for better health monitoring";
     Command := EmptyString |}.

(** The diagnosis of [barePod] on [bareCluster] when the recommendation
    engine is called. *)
Definition bareDiagnosis : Diagnosis :=
  runAnalyzers (NewPodAnalyzer bareCluster) barePod
    (setStatus (NewDiagnosis (ExtractPodInfo barePod) noon)
               (detectPodStatus barePod)).

Definition line250 : string :=
  String.concat EmptyString (repeat "0123456789" 25).

(** A cluster that knows the pod but fails to list events and to read
    logs and nodes. *)
Definition failingCluster (pod : Pod) : Client :=
  {| GetPod := fun namespace name =>
       if String.eqb namespace (Namespace pod) && String.eqb name (Name pod)
       then Ok pod else Err "pods not found";
     GetPodLogs := fun _ _ _ _ _ => Err "container logs unavailable";
     GetPodEvents := fun _ _ => Err "events is forbidden";
     GetNodeHealth := fun _ => Err "nodes not found" |}.

(** A pod with two containers; the cluster returns the logs of the second
    only, and those of the first for neither instance. *)
Definition workerContainer : Container :=
  mkContainer "worker" "worker:1" (mkResources ∅ ∅) None None None.
Definition twoContainerPod : Pod :=
  podOf "Running" [bareContainer; workerContainer] [].
Definition workerLogsCluster : Client :=
  {| GetPod := fun _ _ => Ok twoContainerPod;
     GetPodLogs := fun _ _ container _ _ =>
       if String.eqb container "worker"
       then Ok "panic: runtime error: index out of range"
       else Err "container logs unavailable";
     GetPodEvents := fun _ _ => Ok [];
     GetNodeHealth := fun _ => Err "nodes not found" |}.

(** A running, ready container whose requests equal its limits, without
    probes. *)
Definition guaranteedResources : gmap string Quantity :=
  <["cpu" := mkQuantity 100000000 "100m"]>
    (<["memory" := mkQuantity (134217728 * 1000000000) "128Mi"]> ∅).
Definition guaranteedContainer : Container :=
  mkContainer "app" "app:1" (mkResources guaranteedResources guaranteedResources)
              None None None.
Definition guaranteedPod : Pod :=
  podOf "Running" [guaranteedContainer] [readyStatus].
Definition guaranteedCluster : Client := clusterOf guaranteedPod (Ok EmptyString).

(** The logs of the sample output of the README: one line that the
    first of the two Connection refused patterns matches. *)
Definition refusedLine : string := "dial tcp 10.0.0.5:5432: connection refused".
Definition refusedCluster : Client := clusterOf barePod (Ok refusedLine).

(* ===================================================================== *)
(** * Further functions of the packages                                   *)
(* ===================================================================== *)

(** ** Package domain *)

(** [Diagnosis.IssueCount]: the three counters after the loop. *)
Definition IssueCount (d : Diagnosis) : nat * nat * nat :=
  fold_left
    (fun '(critical, warning, info) issue =>
       match Severity_of issue with
       | SeverityCritical => (S critical, warning, info)
       | SeverityWarning => (critical, S warning, info)
       | SeverityInfo => (critical, warning, S info)
       end)
    (Issues d) (0, 0, 0)%nat.

(** ** Package kubernetes *)

(** [corev1.NodeCondition], the two fields read. *)
Record NodeCondition := mkNodeCondition {
  NCType : string;
  NCStatus : string;
}.

(** The constants of k8s.io/api/core/v1 for node conditions. *)
Definition NodeReady : string := "Ready".
Definition NodeMemoryPressure : string := "MemoryPressure".
Definition NodeDiskPressure : string := "DiskPressure".
Definition NodePIDPressure : string := "PIDPressure".
Definition NodeNetworkUnavailable : string := "NetworkUnavailable".
Definition ConditionTrue : string := "True".

(** The body of the loop of [Client.GetNodeHealth] for one condition. *)
Definition applyCondition (health : NodeHealth) (condition : NodeCondition)
  : NodeHealth :=
  let isTrue := String.eqb (NCStatus condition) ConditionTrue in
  let t := NCType condition in
  if String.eqb t NodeReady then
    {| NHName := NHName health; NHReady := isTrue;
       MemoryPressure := MemoryPressure health;
       DiskPressure := DiskPressure health; PIDPressure := PIDPressure health;
       NetworkUnavail := NetworkUnavail health |}
  else if String.eqb t NodeMemoryPressure then
    {| NHName := NHName health; NHReady := NHReady health;
       MemoryPressure := isTrue;
       DiskPressure := DiskPressure health; PIDPressure := PIDPressure health;
       NetworkUnavail := NetworkUnavail health |}
  else if String.eqb t NodeDiskPressure then
    {| NHName := NHName health; NHReady := NHReady health;
       MemoryPressure := MemoryPressure health;
       DiskPressure := isTrue; PIDPressure := PIDPressure health;
       NetworkUnavail := NetworkUnavail health |}
  else if String.eqb t NodePIDPressure then
    {| NHName := NHName health; NHReady := NHReady health;
       MemoryPressure := MemoryPressure health;
       DiskPressure := DiskPressure health; PIDPressure := isTrue;
       NetworkUnavail := NetworkUnavail health |}
  else if String.eqb t NodeNetworkUnavailable then
    {| NHName := NHName health; NHReady := NHReady health;
       MemoryPressure := MemoryPressure health;
       DiskPressure := DiskPressure health; PIDPressure := PIDPressure health;
       NetworkUnavail := isTrue |}
  else health.

(** [Client.GetNodeHealth] once [GetNode] has returned the node: the
    health built from the node's name and [node.Status.Conditions]. *)
Definition nodeHealthOf (nodeName : string) (conditions : list NodeCondition)
  : NodeHealth :=
  fold_left applyCondition conditions
    {| NHName := nodeName; NHReady := false; MemoryPressure := false;
       DiskPressure := false; PIDPressure := false; NetworkUnavail := false |}.

(** [type ContainerInfo struct] without its two time stamps. *)
Record ContainerInfo := mkContainerInfo {
  CIName : string;
  CIImage : string;
  CIReady : bool;
  CIRestartCount : Z;
  CIState : string;
  CIReason : string;
  CIMessage : string;
  CIExitCode : Z;
}.

(** The first loop of [ExtractPodInfo]: the statuses by container name. *)
Definition statusesByName (pod : Pod) : gmap string ContainerStatus :=
  fold_left (fun m cs => <[CSName cs := cs]> m) (ContainerStatuses pod) ∅.

(** The body of the second loop of [ExtractPodInfo] for one container. *)
Definition containerInfoOf (containerStatuses : gmap string ContainerStatus)
    (container : Container) : ContainerInfo :=
  let ci := mkContainerInfo (CName container) (Image container) false 0
              EmptyString EmptyString EmptyString 0 in
  match containerStatuses !! CName container with
  | Some status =>
      match Running (State status), Waiting (State status),
            Terminated (State status) with
      | Some _, _, _ =>
          mkContainerInfo (CName container) (Image container) (Ready status)
            (RestartCount status) "running" EmptyString EmptyString 0
      | None, Some w, _ =>
          mkContainerInfo (CName container) (Image container) (Ready status)
            (RestartCount status) "waiting" (WReason w) (WMessage w) 0
      | None, None, Some t =>
          mkContainerInfo (CName container) (Image container) (Ready status)
            (RestartCount status) "terminated" (TReason t) (TMessage t)
            (ExitCode t)
      | None, None, None =>
          mkContainerInfo (CName container) (Image container) (Ready status)
            (RestartCount status) EmptyString EmptyString EmptyString 0
      end
  | None => ci
  end.

(** The field [Containers] that [ExtractPodInfo] fills. *)
Definition extractContainers (pod : Pod) : list ContainerInfo :=
  fold_left (fun infos container =>
               infos ++ [containerInfoOf (statusesByName pod) container])
            (Containers pod) [].

(** ** Package output *)

(** The test of [printNodeHealth] under which the node section is
    skipped. *)
Definition nodeIsHealthy (node : NodeHealth) : bool :=
  NHReady node && negb (MemoryPressure node) && negb (DiskPressure node)
  && negb (PIDPressure node) && negb (NetworkUnavail node).

(** [truncate] of the console printer, the same body as [truncateLine];
    [printEvents] calls it with 80. *)
Definition truncate (s : string) (maxLen : nat) : string :=
  if (String.length s <=? maxLen)%nat then s
  else String.substring 0 (maxLen - 3) s +:+ "...".

(** The two counters of [PrintScanSummary] after its first loop. *)
Definition summaryCounts (diagnoses : list Diagnosis) : nat * nat :=
  fold_left
    (fun '(healthy, unhealthy) d =>
       if IsHealthy d then (S healthy, unhealthy) else (healthy, S unhealthy))
    diagnoses (0, 0)%nat.

(** The diagnoses listed by the second loop of [PrintScanSummary], which
    runs when [unhealthy > 0]. *)
Definition summaryListed (diagnoses : list Diagnosis) : list Diagnosis :=
  if (0 <? snd (summaryCounts diagnoses))%nat then
    fold_left (fun listed d => if negb (IsHealthy d) then listed ++ [d] else listed)
              diagnoses []
  else [].

(** ** Package tui *)

Module tui.

Inductive View := ViewNamespaceList | ViewPodList | ViewDiagnosis | ViewLoading.

Record PodItem := mkPodItem {
  PIName : string;
  PINamespace : string;
  PIStatus : string;
  PIReady : string;
  PIRestarts : Z;
  PIAge : string;
  PINode : string;
}.

(** [type Model struct], the fields [moveCursor] reads and writes. *)
Record Model := mkModel {
  view : View;
  namespaces : list string;
  filteredPods : list PodItem;
  cursor : Z;
}.

(** The value of a Go [int] of 64 bits after an addition. *)
Definition wrapInt (z : Z) : Z := (z + 2 ^ 63) mod 2 ^ 64 - 2 ^ 63.

(** The [switch m.view] of [moveCursor]: the number of items of the list
    on display; [None] is the [default] case, which returns. *)
Definition maxItems (m : Model) : option Z :=
  match view m with
  | ViewNamespaceList => Some (Z.of_nat (length (namespaces m)))
  | ViewPodList => Some (Z.of_nat (length (filteredPods m)))
  | _ => None
  end.

(** [moveCursor]. *)
Definition moveCursor (m : Model) (delta : Z) : Model :=
  match maxItems m with
  | None => m
  | Some maxItems =>
      let cursor := wrapInt (cursor m + delta) in
      let cursor := if cursor <? 0 then 0 else cursor in
      let cursor := if maxItems <=? cursor then maxItems - 1 else cursor in
      let cursor := if cursor <? 0 then 0 else cursor in
      {| view := view m; namespaces := namespaces m;
         filteredPods := filteredPods m; cursor := cursor |}
  end.

End tui.

(** ** Vocabulary of the further properties *)

(** Whether the last condition of type [t] in the list has status True;
    false when the list has no condition of that type. *)
Definition conditionHolds (t : string) (conditions : list NodeCondition) : bool :=
  match last (filter (fun c => NCType c = t) conditions) with
  | Some c => String.eqb (NCStatus c) ConditionTrue
  | None => false
  end.

(** The reasons [analyzeWarningEvent] passes over. *)
Definition routineReasons : list string :=
  ["Scheduled"; "Pulled"; "Created"; "Started"].

(** An event the event analyzer reports: a warning whose reason is not
    one of the routine reasons. *)
Definition reported (event : EventInfo) : Prop :=
  EType event = "Warning" /\ EReason event ∉ routineReasons.

(** The samples one line adds under a title: the truncated line, once for
    each pattern of that title that matches it; none for a blank line. *)
Definition hitsOf (ps : list errorPattern) (title line : string) : list string :=
  if isBlank line then []
  else map (fun _ => truncateLine line 200)
           (filter (fun p => PTitle p = title
                             /\ regexp.MatchString (Pattern p) line = true) ps).

(** The samples of a title over the lines of a log. *)
Definition matchesOf (ps : list errorPattern) (title : string)
    (lines : list string) : list string :=
  flat_map (hitsOf ps title) lines.

(** The thirteen recommendations written in [getRecommendationsForIssue],
    in the order of the source, for a given pod. *)
Definition allRecommendations (pod : PodInfo) : list Recommendation :=
  [ {| Priority := 1; RTitle := "Check container logs";
       RDescription := "Review container logs to identify the crash cause";
       Command := "kubectl logs " +:+ PName pod +:+ " -n "
                  +:+ PNamespace pod +:+ " --previous" |};
    {| Priority := 1; RTitle := "Verify image exists";
       RDescription := "Check if the image exists and is accessible";
       Command := "kubectl describe pod " +:+ PName pod +:+ " -n "
                  +:+ PNamespace pod |};
    {| Priority := 2; RTitle := "Check image pull secrets";
       RDescription := "Ensure imagePullSecrets are configured if using a private registry";
       Command := EmptyString |};
    {| Priority := 1; RTitle := "Increase memory limit";
       RDescription := "Container exceeded memory limit; consider increasing it";
       Command := "kubectl set resources deployment/<deployment-name> -c <container> --limits=memory=<new-limit>" |};
    addLimitsRec;
    configureRec;
    {| Priority := 1; RTitle := "Check probe endpoint";
       RDescription := "Verify the probe endpoint is responding correctly";
       Command := "kubectl exec " +:+ PName pod +:+ " -n " +:+ PNamespace pod
                  +:+ " -- curl -v localhost:<port>/<path>" |};
    addProbesRec;
    {| Priority := 1; RTitle := "Debug readiness probe";
       RDescription := "Check why readiness probe is failing";
       Command := "kubectl describe pod " +:+ PName pod +:+ " -n "
                  +:+ PNamespace pod +:+ " | grep -A10 'Readiness'" |};
    {| Priority := 1; RTitle := "Check node resources";
       RDescription := "Verify cluster has nodes with sufficient resources";
       Command := "kubectl describe nodes | grep -A5 'Allocated resources'" |};
    {| Priority := 2; RTitle := "Review pod tolerations";
       RDescription := "Check if pod has required tolerations for tainted nodes";
       Command := EmptyString |};
    {| Priority := 1; RTitle := "Check node status";
       RDescription := "Review node conditions and events";
       Command := "kubectl describe node " +:+ PNode pod |};
    {| Priority := 2; RTitle := "Review full logs";
       RDescription := "Check complete container logs for more context";
       Command := "kubectl logs " +:+ PName pod +:+ " -n " +:+ PNamespace pod
                  +:+ " --tail=100" |} ].

(** ** Scenarios of the further properties *)

(** The bare pod scheduled on node-1, a ready node under memory
    pressure. *)
Definition pressuredConditions : list NodeCondition :=
  [mkNodeCondition "Ready" "True"; mkNodeCondition "MemoryPressure" "True"].
Definition scheduledPod : Pod :=
  {| Name := "web"; Namespace := "default"; DeletionTimestamp := None;
     NodeName := "node-1"; Containers := [bareContainer]; InitContainers := [];
     Phase := "Running"; Reason := EmptyString; Message := EmptyString;
     PodIP := EmptyString; Conditions := [];
     ContainerStatuses := [readyStatus]; InitContainerStatuses := [] |}.
Definition pressuredCluster : Client :=
  {| GetPod := fun _ _ => Ok scheduledPod;
     GetPodLogs := fun _ _ _ _ _ => Ok EmptyString;
     GetPodEvents := fun _ _ => Ok [];
     GetNodeHealth := fun name => Ok (nodeHealthOf name pressuredConditions) |}.


(** Logs of three lines without text: spaces, a tab, nothing. *)
Definition blankLogs : string :=
  String " " (String " " (String "010" (String "009" (String "010" EmptyString)))).
Definition blankCluster : Client := clusterOf barePod (Ok blankLogs).

(** A pod whose container sidecar has no status, and whose container app
    has two: the later one counts. *)
Definition sidecarContainer : Container :=
  mkContainer "sidecar" "sidecar:1" (mkResources ∅ ∅) None None None.
Definition twoStatusPod : Pod :=
  podOf "Running" [bareContainer; sidecarContainer]
        [crashSecondStatus; readyStatus].

(** The list of three namespaces with the cursor on the last. *)
Definition namespaceList : tui.Model :=
  tui.mkModel tui.ViewNamespaceList ["default"; "kube-system"; "monitoring"] [] 2.

(** The issue of the first Connection refused pattern for [refusedLine]. *)
Definition refusedIssue : Issue :=
  {| Severity_of := SeverityWarning; Category := "logs";
     Title := "[app] Connection refused";
     Description := "Cannot connect to a service";
     Details := mapOf [("container", "app"); ("match_count", "1");
                       ("sample_match", refusedLine)] |}.

(** A pending pod that no node can take, and a pod whose container was
    killed for its memory and runs again. *)
Definition unschedulable : PodCondition :=
  mkCondition "PodScheduled" "False" "Unschedulable"
              "0/3 nodes are available: 3 Insufficient memory.".
Definition pendingPod : Pod :=
  {| Name := "web"; Namespace := "default"; DeletionTimestamp := None;
     NodeName := EmptyString; Containers := [bareContainer]; InitContainers := [];
     Phase := "Pending"; Reason := EmptyString; Message := EmptyString;
     PodIP := EmptyString; Conditions := [unschedulable];
     ContainerStatuses := []; InitContainerStatuses := [] |}.
Definition pendingCluster : Client := clusterOf pendingPod (Ok EmptyString).
Definition oomPod : Pod := podOf "Running" [bareContainer] [oomFirstStatus].
Definition oomCluster : Client := clusterOf oomPod (Ok EmptyString).

(* ===================================================================== *)
(** * Properties of the status classifier                                 *)
(* ===================================================================== *)

Section Classifier.

Implicit Types (cs : ContainerStatus) (pod : Pod) (l : PodStatus).

Lemma waitingStatus_label r l : waitingStatus r = Some l <-> WaitingLabel r l.
Proof.
  split.
  - unfold waitingStatus.
    destruct (String.eqb_spec r "CrashLoopBackOff");
      [intros [= <-]; subst; constructor|].
    destruct (String.eqb_spec r "ImagePullBackOff");
      [intros [= <-]; subst; constructor|].
    destruct (String.eqb_spec r "ErrImagePull");
      [intros [= <-]; subst; constructor|].
    destruct (String.eqb_spec r "CreateContainerError");
      [intros [= <-]; subst; constructor|].
    destruct (String.eqb_spec r "CreateContainerConfigError");
      [intros [= <-]; subst; constructor|].
    discriminate.
  - destruct 1; reflexivity.
Qed.

Lemma waitingStatus_none r : waitingStatus r = None <-> ~ exists l, WaitingLabel r l.
Proof.
  split.
  - intros H [l Hl]. apply waitingStatus_label in Hl. congruence.
  - intros H. destruct (waitingStatus r) as [l|] eqn:E; [|done].
    exfalso. apply H. exists l. by apply waitingStatus_label.
Qed.

(** What one iteration of the container loop returns. *)
Lemma containerVerdict_some cs l :
  containerVerdict cs = Some l <->
  (exists r, waitingReasonIs cs r /\ WaitingLabel r l) \/
  (~ labelledWaiting cs /\ lastTerminationReasonIs cs "OOMKilled"
   /\ l = StatusOOMKilled).
Proof.
  unfold containerVerdict, labelledWaiting, waitingReasonIs, lastTerminationReasonIs.
  destruct (Waiting (State cs)) as [w|] eqn:Hw.
  - destruct (waitingStatus (WReason w)) as [s|] eqn:Hs.
    + apply waitingStatus_label in Hs. split.
      * intros [= <-]. left. eauto.
      * intros [(r & (w' & [= <-] & <-) & Hl)|(Hn & _)].
        -- f_equal. destruct Hs; inversion Hl; congruence.
        -- exfalso. apply Hn. eauto 6.
    + pose proof (proj1 (waitingStatus_none _) Hs) as Hnone.
      assert (Hnl : ~ (exists r l0, (exists w0, Some w = Some w0 /\ WReason w0 = r)
                                    /\ WaitingLabel r l0)).
      { intros (r & l0 & (w' & [= <-] & <-) & Hl). apply Hnone. eauto. }
      destruct (Terminated (LastTerminationState cs)) as [t|] eqn:Ht.
      * destruct (String.eqb_spec (TReason t) "OOMKilled") as [Heq|Hne].
        -- split.
           ++ intros [= <-]. right. eauto.
           ++ intros [(r & (w' & [= <-] & <-) & Hl)|(_ & _ & ->)]; [|done].
              exfalso. apply Hnone. eauto.
        -- split; [discriminate|].
           intros [(r & (w' & [= <-] & <-) & Hl)|(_ & (t' & [= <-] & Ht') & _)].
           ++ exfalso. apply Hnone. eauto.
           ++ done.
      * split; [discriminate|].
        intros [(r & (w' & [= <-] & <-) & Hl)|(_ & (t' & [=] & _) & _)].
        exfalso. apply Hnone. eauto.
  - assert (Hnl : ~ (exists r l0, (exists w0, @None ContainerStateWaiting = Some w0
                                              /\ WReason w0 = r)
                                  /\ WaitingLabel r l0)).
    { intros (r & l0 & (w' & [=] & _) & _). }
    destruct (Terminated (LastTerminationState cs)) as [t|] eqn:Ht.
    + destruct (String.eqb_spec (TReason t) "OOMKilled") as [Heq|Hne].
      * split.
        -- intros [= <-]. right. eauto.
        -- intros [(r & (w' & [=] & _) & _)|(_ & _ & ->)]; done.
      * split; [discriminate|].
        intros [(r & (w' & [=] & _) & _)|(_ & (t' & [= <-] & Ht') & _)]. done.
    + split; [discriminate|].
      intros [(r & (w' & [=] & _) & _)|(_ & (t' & [=] & _) & _)].
Qed.

Lemma labelledWaiting_dec cs : labelledWaiting cs \/ ~ labelledWaiting cs.
Proof.
  unfold labelledWaiting, waitingReasonIs.
  destruct (Waiting (State cs)) as [w|] eqn:Hw.
  - destruct (waitingStatus (WReason w)) as [s|] eqn:Hs.
    + left. apply waitingStatus_label in Hs. eauto 6.
    + right. intros (r & l & (w' & [= <-] & <-) & Hl).
      apply waitingStatus_label in Hl. congruence.
  - right. intros (r & l & (w' & [=] & _) & _).
Qed.

Lemma containerVerdict_none cs : containerVerdict cs = None <-> undecided cs.
Proof.
  unfold undecided. split.
  - intros H. split.
    + intros (r & l & Hr & Hl).
      assert (containerVerdict cs = Some l) by (apply containerVerdict_some; eauto).
      congruence.
    + intros Ho. destruct (labelledWaiting_dec cs) as [(r & l & Hr & Hl)|Hn].
      * assert (containerVerdict cs = Some l) by (apply containerVerdict_some; eauto).
        congruence.
      * assert (containerVerdict cs = Some StatusOOMKilled)
          by (apply containerVerdict_some; eauto).
        congruence.
  - intros [Hn Ho]. destruct (containerVerdict cs) as [l|] eqn:E; [|done].
    apply containerVerdict_some in E as [(r & Hr & Hl)|(_ & Ho' & _)].
    + exfalso. apply Hn. red. eauto.
    + done.
Qed.

(** The loop passes over undecided containers. *)
Lemma scan_undecided_prefix pre rest :
  Forall undecided pre ->
  scanContainerStatuses (pre ++ rest) = scanContainerStatuses rest.
Proof.
  induction 1 as [|cs pre Hcs _ IH]; [done|].
  simpl. apply containerVerdict_none in Hcs. by rewrite Hcs.
Qed.

Lemma scan_none css :
  scanContainerStatuses css = None <-> Forall undecided css.
Proof.
  induction css as [|cs css IH]; simpl.
  - split; [constructor|done].
  - destruct (containerVerdict cs) as [l|] eqn:E.
    + split; [discriminate|]. intros H. inversion H as [|? ? Hcs]; subst.
      apply containerVerdict_none in Hcs. congruence.
    + rewrite IH. apply containerVerdict_none in E. split.
      * by constructor.
      * by inversion 1.
Qed.

(** The loop returns at the first container that is not undecided. *)
Lemma scan_some css l :
  scanContainerStatuses css = Some l ->
  exists pre cs post,
    css = pre ++ cs :: post /\ Forall undecided pre /\ containerVerdict cs = Some l.
Proof.
  induction css as [|cs css IH]; simpl; [discriminate|].
  destruct (containerVerdict cs) as [l'|] eqn:E.
  - intros [= <-]. exists [], cs, css. by repeat split.
  - intros H. destruct (IH H) as (pre & c & post & -> & Hpre & Hc).
    exists (cs :: pre), c, post. repeat split; [|done].
    constructor; [|done]. by apply containerVerdict_none.
Qed.

Lemma allReady_true css :
  allReady css = true <-> Forall (fun cs => Ready cs = true) css.
Proof.
  induction css as [|cs css IH]; simpl.
  - split; [constructor|done].
  - destruct (Ready cs) eqn:E; simpl.
    + rewrite IH. split; [by constructor|by inversion 1].
    + split; [discriminate|]. inversion 1; congruence.
Qed.

Lemma allReady_false css :
  allReady css = false <-> Exists (fun cs => Ready cs = false) css.
Proof.
  induction css as [|cs css IH]; simpl.
  - split; [discriminate|by inversion 1].
  - destruct (Ready cs) eqn:E; simpl.
    + rewrite IH. split; [by constructor 2|].
      inversion 1; [congruence|done].
    + split; [by constructor 1|done].
Qed.

(** C2 (as amended).  [detectPodStatus] returns exactly the label given by the
    rules of [Classified]: a deletion-marked pod is Terminating whatever
    else holds; otherwise the first container, in list order, with a
    labelled waiting reason or a last termination by OOMKilled decides,
    its waiting reason first; otherwise the phase decides: Pending,
    Failed (Evicted or Error), Running (NotReady or Healthy), Succeeded
    (Healthy), and Unknown for any other phase. *)
Theorem detectPodStatus_classified pod l :
  Classified pod l <-> detectPodStatus pod = l.
Proof.
  split.
  - intros H. unfold detectPodStatus.
    destruct H as [Hdel|pre cs post r l Hdel Hcss Hpre Hr Hl
                  |pre cs post Hdel Hcss Hpre Hn Ho
                  |Hdel Hall Hph|Hdel Hall Hph Hre|Hdel Hall Hph Hre
                  |Hdel Hall Hph Hex|Hdel Hall Hph Hrd|Hdel Hall Hph
                  |Hdel Hall H1 H2 H3 H4].
    + by destruct (DeletionTimestamp pod).
    + rewrite Hdel, Hcss, scan_undecided_prefix by done. simpl.
      assert (containerVerdict cs = Some l) as ->
          by (apply containerVerdict_some; eauto).
      done.
    + rewrite Hdel, Hcss, scan_undecided_prefix by done. simpl.
      assert (containerVerdict cs = Some StatusOOMKilled) as ->
          by (apply containerVerdict_some; eauto).
      done.
    + apply scan_none in Hall. by rewrite Hdel, Hall, Hph.
    + apply scan_none in Hall. by rewrite Hdel, Hall, Hph, Hre.
    + apply scan_none in Hall. rewrite Hdel, Hall, Hph. simpl.
      by destruct (String.eqb_spec (Reason pod) "Evicted").
    + apply scan_none in Hall. apply allReady_false in Hex.
      by rewrite Hdel, Hall, Hph, Hex.
    + apply scan_none in Hall. apply allReady_true in Hrd.
      by rewrite Hdel, Hall, Hph, Hrd.
    + apply scan_none in Hall. by rewrite Hdel, Hall, Hph.
    + apply scan_none in Hall. rewrite Hdel, Hall.
      destruct (String.eqb_spec (Phase pod) "Pending"); [done|].
      destruct (String.eqb_spec (Phase pod) "Failed"); [done|].
      destruct (String.eqb_spec (Phase pod) "Running"); [done|].
      by destruct (String.eqb_spec (Phase pod) "Succeeded").
  - unfold detectPodStatus.
    destruct (DeletionTimestamp pod) as [t|] eqn:Hdel.
    { intros <-. apply Rule_terminating. congruence. }
    destruct (scanContainerStatuses (ContainerStatuses pod)) as [s|] eqn:Hscan.
    { intros <-. apply scan_some in Hscan as (pre & cs & post & Hcss & Hpre & Hv).
      apply containerVerdict_some in Hv as [(r & Hr & Hl)|(Hn & Ho & ->)].
      - eapply Rule_waiting; eauto.
      - eapply Rule_oomkilled; eauto. }
    apply scan_none in Hscan.
    destruct (String.eqb_spec (Phase pod) "Pending") as [Hp|Hp].
    { intros <-. by apply Rule_pending. }
    destruct (String.eqb_spec (Phase pod) "Failed") as [Hf|Hf].
    { destruct (String.eqb_spec (Reason pod) "Evicted"); intros <-.
      - by apply Rule_evicted.
      - by apply Rule_error. }
    destruct (String.eqb_spec (Phase pod) "Running") as [Hr|Hr].
    { destruct (allReady (ContainerStatuses pod)) eqn:Hrd; intros <-.
      - apply Rule_healthy_running; try done. by apply allReady_true.
      - apply Rule_notready; try done. by apply allReady_false. }
    destruct (String.eqb_spec (Phase pod) "Succeeded") as [Hs|Hs]; intros <-.
    + by apply Rule_healthy_succeeded.
    + by apply Rule_unknown.
Qed.

(** C2 (as stated) fails: in [oomThenCrashPod], which is not marked for
    deletion, the second container waits in CrashLoopBackOff and the
    first, a different container, has last-termination reason OOMKilled;
    the classifier returns OOMKilled, not CrashLoopBackOff. *)
Lemma oomThenCrashPod_is_OOMKilled :
  DeletionTimestamp oomThenCrashPod = None /\
  ContainerStatuses oomThenCrashPod = [oomFirstStatus; crashSecondStatus] /\
  waitingReasonIs crashSecondStatus "CrashLoopBackOff" /\
  lastTerminationReasonIs oomFirstStatus "OOMKilled" /\
  oomFirstStatus <> crashSecondStatus /\
  detectPodStatus oomThenCrashPod = StatusOOMKilled /\
  detectPodStatus oomThenCrashPod <> StatusCrashLoop.
Proof.
  repeat split; try done.
  - by eexists.
  - by eexists.
Qed.

(** C1 (as amended).  A pod not marked for deletion whose only container
    waits with reason CrashLoopBackOff and has last-termination reason
    OOMKilled is labelled CrashLoopBackOff: within one container the
    waiting reason is looked at before the last termination. *)
Theorem detectPodStatus_crashloop_before_oom pod cs :
  DeletionTimestamp pod = None ->
  ContainerStatuses pod = [cs] ->
  waitingReasonIs cs "CrashLoopBackOff" ->
  lastTerminationReasonIs cs "OOMKilled" ->
  detectPodStatus pod = StatusCrashLoop.
Proof.
  intros Hdel Hcss (w & Hw & Hr) _.
  unfold detectPodStatus. rewrite Hdel, Hcss. simpl.
  unfold containerVerdict. by rewrite Hw, Hr.
Qed.

(** The pod of the scenario: one container, waiting in CrashLoopBackOff
    after an OOM kill. *)
Lemma detectPodStatus_crashloop_before_oom_witness :
  detectPodStatus crashOOMPod = StatusCrashLoop.
Proof.
  apply (detectPodStatus_crashloop_before_oom crashOOMPod crashOOMStatus).
  - reflexivity.
  - reflexivity.
  - exists (mkWaiting "CrashLoopBackOff" EmptyString). split; reflexivity.
  - exists (mkTerminated 137 "OOMKilled" EmptyString). split; reflexivity.
Defined.

(** C1 (as stated) fails: [crashOOMPod] is not marked for deletion and
    has exactly one container, waiting with reason CrashLoopBackOff and
    with last-termination reason OOMKilled; the classifier returns
    CrashLoopBackOff, not OOMKilled. *)
Lemma crashOOMPod_is_not_OOMKilled :
  DeletionTimestamp crashOOMPod = None /\
  ContainerStatuses crashOOMPod = [crashOOMStatus] /\
  waitingReasonIs crashOOMStatus "CrashLoopBackOff" /\
  lastTerminationReasonIs crashOOMStatus "OOMKilled" /\
  detectPodStatus crashOOMPod = StatusCrashLoop /\
  detectPodStatus crashOOMPod <> StatusOOMKilled.
Proof.
  repeat split; try done.
  - by eexists.
  - by eexists.
Qed.

End Classifier.

(* ===================================================================== *)
(** * Properties of the recommendation engine                             *)
(* ===================================================================== *)

Section Sorting.

Context {A : Type} (R : A -> A -> Prop).

(** A list is sorted when every element is related to every later one. *)
Lemma StronglySorted_lookup (l : list A) :
  StronglySorted R l <->
  forall (i j : nat) a b, (i < j)%nat -> l !! i = Some a -> l !! j = Some b -> R a b.
Proof.
  split.
  - induction 1 as [|x l Hl IH Hx]; intros i j a b Hij Hi Hj.
    + by rewrite lookup_nil in Hi.
    + destruct j as [|j]; [lia|]. destruct i as [|i]; simpl in *.
      * injection Hi as <-. rewrite Forall_forall in Hx.
        apply Hx. eapply list_elem_of_lookup_2. exact Hj.
      * eapply IH; [|exact Hi|exact Hj]. lia.
  - induction l as [|x l IH]; intros H; constructor.
    + apply IH. intros i j a b Hij Hi Hj. apply (H (S i) (S j)); [lia|done..].
    + apply Forall_forall. intros y Hy.
      apply list_elem_of_lookup_1 in Hy as [k Hk].
      apply (H 0%nat (S k)); [lia|done..].
Qed.

End Sorting.

Lemma less_false a b : less b a = false <-> byPriority a b.
Proof. unfold less, byPriority. rewrite Z.ltb_ge. done. Qed.

(** The contract of the sort, on sorted lists rather than on indices. *)
Lemma SliceContract_alt sortSlice :
  SliceContract sortSlice <->
  forall recs, sortSlice recs ≡ₚ recs /\ StronglySorted byPriority (sortSlice recs).
Proof.
  unfold SliceContract. split; intros H recs; destruct (H recs) as [Hp Hs].
  - split; [done|]. apply StronglySorted_lookup. intros i j a b Hij Hi Hj.
    apply less_false. eauto.
  - split; [done|]. intros i j a b Hij Hi Hj. apply less_false.
    rewrite StronglySorted_lookup in Hs. eauto.
Qed.

Lemma Before_elem_of {A} (a b : A) l : Before a b l -> a ∈ l /\ b ∈ l.
Proof.
  induction 1 as [l Hb|x l _ [IHa IHb]].
  - split; [left|by right].
  - split; by right.
Qed.

(** In a sorted list the recommendation with the lower priority stands
    before the one with the higher priority. *)
Lemma sorted_Before l a b :
  StronglySorted byPriority l -> a ∈ l -> b ∈ l ->
  Priority a < Priority b -> Before a b l.
Proof.
  induction 1 as [|x l Hl IH Hx]; intros Ha Hb Hlt.
  - by apply elem_of_nil in Ha.
  - rewrite Forall_forall in Hx.
    apply elem_of_cons in Ha as [->|Ha]; apply elem_of_cons in Hb as [->|Hb].
    + lia.
    + by constructor.
    + apply Hx in Ha. unfold byPriority in Ha. lia.
    + constructor 2. by apply IH.
Qed.

(** ** The two insertion sorts keep the contract *)

Lemma insertLast_perm x l : insertLast x l ≡ₚ x :: l.
Proof.
  induction l as [|y l IH]; simpl; [done|].
  destruct (less x y); [done|]. rewrite IH. apply Permutation_swap.
Qed.


Lemma insertLast_sorted x l :
  StronglySorted byPriority l -> StronglySorted byPriority (insertLast x l).
Proof.
  induction 1 as [|y l Hl IH Hy]; simpl.
  - repeat constructor.
  - unfold less at 1. destruct (Z.ltb_spec (Priority x) (Priority y)) as [Hlt|Hge].
    + constructor; [by constructor|].
      constructor; [unfold byPriority; lia|].
      eapply Forall_impl; [exact Hy|]. unfold byPriority. simpl. intros; lia.
    + constructor; [done|].
      rewrite Forall_forall in *. intros z Hz.
      rewrite insertLast_perm in Hz.
      apply elem_of_cons in Hz as [->|Hz]; [done|].
      by apply Hy.
Qed.


Lemma fold_insert_contract (ins : Recommendation -> list Recommendation -> list Recommendation) :
  (forall x l, ins x l ≡ₚ x :: l) ->
  (forall x l, StronglySorted byPriority l -> StronglySorted byPriority (ins x l)) ->
  forall recs acc,
    StronglySorted byPriority acc ->
    fold_left (fun sorted x => ins x sorted) recs acc ≡ₚ acc ++ recs /\
    StronglySorted byPriority (fold_left (fun sorted x => ins x sorted) recs acc).
Proof.
  intros Hperm Hsorted recs.
  induction recs as [|x recs IH]; intros acc Hacc; simpl.
  - by rewrite app_nil_r.
  - destruct (IH (ins x acc)) as [Hp Hs]; [by apply Hsorted|].
    split; [|done]. rewrite Hp, Hperm.
    by rewrite <- Permutation_middle.
Qed.

Lemma insertionSort_contract : SliceContract insertionSort.
Proof.
  apply SliceContract_alt. intros recs. unfold insertionSort.
  destruct (fold_insert_contract insertLast insertLast_perm insertLast_sorted recs [])
    as [Hp Hs]; [constructor|]. done.
Qed.


(** ** The accumulation loop *)

Lemma accInv_init : accInv ([], ∅).
Proof.
  split; simpl; [constructor|].
  intros t. rewrite lookup_empty. simpl. split; [done|]. by intros ?%elem_of_nil.
Qed.

Lemma acceptRec_inv st rec : accInv st -> accInv (acceptRec st rec).
Proof.
  destruct st as [recs seen]. intros [Hnd Hseen]. simpl in *. unfold acceptRec.
  destruct (default false (seen !! RTitle rec)) eqn:E; simpl; [done|].
  split; simpl.
  - rewrite map_app. simpl. apply NoDup_app. split; [done|]. split.
    + intros t Ht ->%list_elem_of_singleton. apply Hseen in Ht. congruence.
    + apply NoDup_singleton.
  - intros t. rewrite map_app, elem_of_app. simpl. rewrite list_elem_of_singleton.
    destruct (decide (t = RTitle rec)) as [->|Hne].
    + rewrite lookup_insert_eq. simpl. by split; [right|].
    + rewrite lookup_insert_ne by done. rewrite Hseen.
      split; [by left|by intros [?|?]].
Qed.

Lemma fold_acceptRec_inv cands st :
  accInv st -> accInv (fold_left acceptRec cands st).
Proof.
  revert st. induction cands as [|r cands IH]; intros st H; simpl; [done|].
  by apply IH, acceptRec_inv.
Qed.

Lemma accumulate_inv issues pod : accInv (accumulate issues pod).
Proof.
  unfold accumulate. generalize (accInv_init).
  generalize (([], ∅) : accState).
  induction issues as [|i issues IH]; intros st H; simpl; [done|].
  by apply IH, fold_acceptRec_inv.
Qed.

Lemma acceptedRecs_NoDup issues pod : NoDup (map RTitle (acceptedRecs issues pod)).
Proof. apply accumulate_inv. Qed.

(** C3.  For every diagnosis, whose issues may be any list, and every
    sort that keeps the contract of [sort.Slice], the recommendations
    that [generateRecommendations] returns have pairwise distinct titles
    and their priorities are in non-decreasing order from first to last. *)
Theorem generateRecommendations_unique_sorted
    (sortSlice : list Recommendation -> list Recommendation)
    (diagnosis : Diagnosis) :
  SliceContract sortSlice ->
  NoDup (map RTitle (generateRecommendations sortSlice diagnosis)) /\
  StronglySorted Z.le (map Priority (generateRecommendations sortSlice diagnosis)).
Proof.
  intros Hc. pose proof (proj1 (SliceContract_alt _) Hc) as Hc'.
  clear Hc. rename Hc' into Hc. unfold generateRecommendations.
  destruct (Hc (acceptedRecs (Issues diagnosis) (DPod diagnosis))) as [Hp Hs].
  split.
  - rewrite Hp. apply acceptedRecs_NoDup.
  - apply StronglySorted_lookup. intros i j a b Hij Hi Hj.
    rewrite list_lookup_fmap in Hi, Hj.
    destruct (sortSlice _ !! i) as [ra|] eqn:Hra; [|done].
    destruct (sortSlice _ !! j) as [rb|] eqn:Hrb; [|done].
    simpl in *. injection Hi as <-. injection Hj as <-.
    rewrite StronglySorted_lookup in Hs. by apply (Hs i j).
Qed.

(** The insertion sort on the diagnosis of the bare pod. *)
Lemma generateRecommendations_unique_sorted_witness :
  NoDup (map RTitle (generateRecommendations insertionSort bareDiagnosis)) /\
  StronglySorted Z.le (map Priority (generateRecommendations insertionSort bareDiagnosis)).
Proof.
  apply (generateRecommendations_unique_sorted insertionSort bareDiagnosis).
  exact insertionSort_contract.
Defined.

(** ** Order among recommendations of equal priority *)








(* ===================================================================== *)
(** * Properties of the pattern matcher                                   *)
(* ===================================================================== *)

Lemma length_append (s t : string) :
  String.length (s +:+ t) = (String.length s + String.length t)%nat.
Proof. induction s as [|c s IH]; simpl; [done|]. by rewrite IH. Qed.

(** The first [n] bytes of a string that has at least [n] bytes. *)
Lemma substring_first (n : nat) (s : string) :
  (n <= String.length s)%nat ->
  String.length (String.substring 0 n s) = n /\
  exists rest, s = String.substring 0 n s +:+ rest.
Proof.
  revert s. induction n as [|n IH]; intros s Hn.
  - split; [by destruct s|]. exists s. by destruct s.
  - destruct s as [|c s]; simpl in Hn; [lia|].
    destruct (IH s) as [Hlen [rest Hrest]]; [lia|]. simpl. split.
    + by rewrite Hlen.
    + exists rest. change (String c s = String c (String.substring 0 n s +:+ rest)).
      by f_equal.
Qed.





(* ===================================================================== *)
(** * Properties of the log analyzer                                      *)
(* ===================================================================== *)

(** A loop that appends to a slice collects the pieces in order. *)
Lemma fold_left_append {A B} (f : A -> list B) (l : list A) (acc : list B) :
  fold_left (fun acc x => acc ++ f x) l acc = acc ++ flat_map f l.
Proof.
  revert acc. induction l as [|x l IH]; intros acc; simpl.
  - by rewrite app_nil_r.
  - by rewrite IH, app_assoc.
Qed.

(** C6.  [LogAnalyzer.Analyze] never returns an error.  Its issues are
    those of the containers, one after the other: for a container whose
    current logs are read, the issues found in them; for a container whose
    current logs fail, the issues found in the logs of the previous
    instance; and none when these fail too. *)
Theorem LogAnalyze_never_fails (l : LogAnalyzer) (pod : Pod) (client : Client) :
  snd (LogAnalyze l pod client) = None /\
  fst (LogAnalyze l pod client)
    = flat_map (containerLogIssues l pod client) (Containers pod) /\
  forall container,
    let logsOf := GetPodLogs client (Namespace pod) (Name pod) (CName container) 100 in
    let issuesOf :=
      fun previous =>
        fst (analyzeContainerLogs l client (Namespace pod) (Name pod)
                                  (CName container) previous) in
    (is_err (logsOf false) = false ->
     containerLogIssues l pod client container = issuesOf false) /\
    (is_err (logsOf false) = true ->
     containerLogIssues l pod client container = issuesOf true) /\
    (is_err (logsOf false) = true -> is_err (logsOf true) = true ->
     containerLogIssues l pod client container = []).
Proof.
  split; [done|]. split.
  - unfold LogAnalyze. simpl. by rewrite fold_left_append.
  - intros container logsOf issuesOf. subst logsOf issuesOf.
    unfold containerLogIssues, analyzeContainerLogs.
    destruct (GetPodLogs client (Namespace pod) (Name pod) (CName container) 100 false)
      as [logs|e]; simpl.
    + split; [|split; discriminate]. intros _.
      by destruct (String.eqb logs EmptyString).
    + split; [discriminate|]. split; [done|]. intros _.
      by destruct (GetPodLogs client (Namespace pod) (Name pod) (CName container) 100 true).
Qed.

(** A pod of two containers: no logs at all for the first, a panic in
    the logs of the second. *)
Lemma LogAnalyze_never_fails_witness :
  snd (LogAnalyze NewLogAnalyzer twoContainerPod workerLogsCluster) = None /\
  containerLogIssues NewLogAnalyzer twoContainerPod workerLogsCluster bareContainer = [] /\
  map Title (fst (LogAnalyze NewLogAnalyzer twoContainerPod workerLogsCluster))
    = ["[worker] Panic detected"].
Proof.
  destruct (LogAnalyze_never_fails NewLogAnalyzer twoContainerPod workerLogsCluster)
    as (Hnone & Hall & Heach).
  split; [exact Hnone|]. split.
  - apply (Heach bareContainer); reflexivity.
  - rewrite Hall. vm_compute. reflexivity.
Defined.

(* ===================================================================== *)
(** * Properties of the diagnostic pipeline                               *)
(* ===================================================================== *)

Lemma fold_AddIssue issues d :
  fold_left AddIssue issues d
  = {| DPod := DPod d; Status := Status d; Issues := Issues d ++ issues;
       Events := Events d; Node := Node d;
       Recommendations := Recommendations d; DiagnosedAt := DiagnosedAt d |}.
Proof.
  revert d. induction issues as [|i issues IH]; intros d; simpl.
  - rewrite app_nil_r. by destruct d.
  - rewrite IH. simpl. by rewrite <- app_assoc.
Qed.

(** The analyzer loop only appends issues. *)
Lemma runAnalyzers_spec p pod d :
  runAnalyzers p pod d
  = {| DPod := DPod d; Status := Status d;
       Issues := Issues d ++ flat_map (keptIssues pod (client p)) (analyzers p);
       Events := Events d; Node := Node d;
       Recommendations := Recommendations d; DiagnosedAt := DiagnosedAt d |}.
Proof.
  unfold runAnalyzers. generalize (analyzers p) as l. intros l. revert d.
  induction l as [|a l IH]; intros d; simpl.
  - rewrite app_nil_r. by destruct d.
  - rewrite IH. unfold keptIssues.
    destruct (Analyze a pod (client p)) as [issues [e|]]; simpl.
    + done.
    + rewrite fold_AddIssue. simpl. by rewrite <- app_assoc.
Qed.

(** C8.  [Diagnose] fails exactly when fetching the pod fails, with the
    error of the fetch.  Otherwise it returns a diagnosis whose issues are
    those of every analyzer that returned no error, in the order of the
    analyzers; the events are empty when listing them fails and the node
    is nil when the pod has no node or reading the node fails. *)
Theorem Diagnose_fails_only_on_pod_fetch
    (sortSlice : list Recommendation -> list Recommendation) (now : GoTime)
    (p : PodAnalyzer) (namespace name : string) :
  (forall e, Diagnose sortSlice now p namespace name = Err e
             <-> GetPod (client p) namespace name = Err e) /\
  (forall pod,
     GetPod (client p) namespace name = Ok pod ->
     exists d,
       Diagnose sortSlice now p namespace name = Ok d /\
       Status d = detectPodStatus pod /\
       Issues d = flat_map (keptIssues pod (client p)) (analyzers p) /\
       (forall events, GetPodEvents (client p) namespace name = Ok events ->
                       Events d = events) /\
       (is_err (GetPodEvents (client p) namespace name) = true -> Events d = []) /\
       (forall nodeHealth,
           NodeName pod <> EmptyString ->
           GetNodeHealth (client p) (NodeName pod) = Ok nodeHealth ->
           Node d = Some nodeHealth) /\
       (NodeName pod = EmptyString
        \/ is_err (GetNodeHealth (client p) (NodeName pod)) = true -> Node d = None)).
Proof.
  unfold Diagnose. split.
  - intros e. destruct (GetPod (client p) namespace name) as [pod|e'].
    + split; discriminate.
    + split; intros [= ->]; reflexivity.
  - intros pod ->. eexists. split; [reflexivity|].
    rewrite runAnalyzers_spec. simpl.
    destruct (GetPodEvents (client p) namespace name) as [events|e] eqn:Hev;
      destruct (String.eqb_spec (NodeName pod) EmptyString) as [Hn|Hn]; simpl;
      try (destruct (GetNodeHealth (client p) (NodeName pod)) as [nh|e'] eqn:Hnh);
      simpl; repeat split; try done; try congruence;
      try (intros [?|?]; done); try discriminate.
Qed.

(** A cluster where the events, the logs and the node cannot be read:
    the event analyzer fails, the diagnosis is still returned. *)
Lemma Diagnose_fails_only_on_pod_fetch_witness :
  exists d,
    Diagnose insertionSort noon (NewPodAnalyzer (failingCluster barePod))
             "default" "web" = Ok d /\
    map Title (Issues d)
      = ["No resource limits for app"; "No resource requests for app";
         "BestEffort QoS for app"; "No health probes for app"] /\
    Events d = [] /\ Node d = None.
Proof.
  destruct (proj2 (Diagnose_fails_only_on_pod_fetch insertionSort noon
                     (NewPodAnalyzer (failingCluster barePod)) "default" "web")
                  barePod eq_refl)
    as (d & Hd & _ & Hissues & _ & Hev & _ & Hnode).
  exists d. split; [exact Hd|]. split; [|split].
  - rewrite Hissues. vm_compute. reflexivity.
  - apply Hev. reflexivity.
  - apply Hnode. left. reflexivity.
Defined.

(* ===================================================================== *)
(** * Properties of the scan filter                                       *)
(* ===================================================================== *)

Lemma filter_loop_spec (diagnoses acc : list Diagnosis) :
  fold_left
    (fun filtered d => if negb (IsHealthy d) then filtered ++ [d] else filtered)
    diagnoses acc
  = acc ++ filter (fun d => IsHealthy d = false) diagnoses.
Proof.
  revert acc. induction diagnoses as [|d ds IH]; intros acc; simpl.
  - by rewrite app_nil_r.
  - rewrite IH. destruct (IsHealthy d) eqn:E; simpl.
    + rewrite filter_cons_False; [done|congruence].
    + rewrite filter_cons_True by done. by rewrite <- app_assoc.
Qed.

(** C10.  A diagnosis is healthy exactly when its status is Healthy and
    it has no issue.  The unhealthy-only filter of the scan keeps exactly
    the diagnoses that are not healthy, hence every diagnosis with at
    least one issue, whatever its status and the severity of the issue. *)
Theorem IsHealthy_and_scan_filter (d : Diagnosis) :
  (IsHealthy d = true <-> Status d = StatusHealthy /\ Issues d = []) /\
  (forall diagnoses,
      d ∈ filterScan true diagnoses <-> d ∈ diagnoses /\ IsHealthy d = false) /\
  (forall diagnoses,
      d ∈ diagnoses -> Issues d <> [] -> d ∈ filterScan true diagnoses).
Proof.
  assert (Hiff : IsHealthy d = true <-> Status d = StatusHealthy /\ Issues d = []).
  { unfold IsHealthy. rewrite andb_true_iff, Nat.eqb_eq, bool_decide_eq_true.
    rewrite length_zero_iff_nil. tauto. }
  assert (Hfilter : forall diagnoses,
             d ∈ filterScan true diagnoses <-> d ∈ diagnoses /\ IsHealthy d = false).
  { intros diagnoses. unfold filterScan. rewrite filter_loop_spec. simpl.
    rewrite list_elem_of_filter. tauto. }
  split; [done|]. split; [done|].
  intros diagnoses Hin Hne. apply Hfilter. split; [done|].
  destruct (decide (IsHealthy d = false)) as [E|E]; [done|].
  apply not_false_is_true, Hiff in E as [_ E]. done.
Qed.

(** A running, ready pod whose only issue is of severity info has status
    Healthy and is kept by the filter. *)
Lemma IsHealthy_and_scan_filter_witness :
  exists d,
    Diagnose insertionSort noon (NewPodAnalyzer guaranteedCluster)
             "default" "web" = Ok d /\
    Status d = StatusHealthy /\
    map (fun i => (Severity_of i, Title i)) (Issues d)
      = [(SeverityInfo, "No health probes for app")] /\
    d ∈ filterScan true [d].
Proof.
  eexists. split; [reflexivity|].
  split; [vm_compute; reflexivity|].
  split; [vm_compute; reflexivity|].
  apply IsHealthy_and_scan_filter; [left|]. vm_compute. discriminate.
Defined.

(* ===================================================================== *)
(** * The matcher decides the language of an expression                   *)
(* ===================================================================== *)

Section Matcher.

Import regexp.

Implicit Types (r s : Regexp) (u v w : string) (c : ascii).

Lemma append_nil_r w : w +:+ EmptyString = w.
Proof.
  induction w as [|c w IH]; [done|].
  change (String c (w +:+ EmptyString) = String c w). by rewrite IH.
Qed.

Lemma append_assoc u v w : (u +:+ v) +:+ w = u +:+ (v +:+ w).
Proof.
  induction u as [|c u IH]; [done|].
  change (String c ((u +:+ v) +:+ w) = String c (u +:+ (v +:+ w))). by rewrite IH.
Qed.

Lemma append_empty u v : u +:+ v = EmptyString -> u = EmptyString /\ v = EmptyString.
Proof. destruct u; [done|discriminate]. Qed.

Lemma Language_fail w : ~ Language Fail0 w.
Proof. inversion 1. Qed.

Lemma Language_eps w : Language Eps w <-> w = EmptyString.
Proof. split; [by inversion 1|intros ->; constructor]. Qed.

Lemma Language_lit c w : Language (Lit c) w <-> w = String c EmptyString.
Proof. split; [by inversion 1|intros ->; constructor]. Qed.

Lemma Language_cat r s w :
  Language (Cat r s) w <-> exists u v, w = u +:+ v /\ Language r u /\ Language s v.
Proof.
  split.
  - inversion 1; subst. eauto.
  - intros (u & v & -> & Hu & Hv). by constructor.
Qed.

Lemma Language_alt r s w : Language (Alt r s) w <-> Language r w \/ Language s w.
Proof.
  split.
  - inversion 1; subst; auto.
  - intros [H|H]; [by apply L_alt_l|by apply L_alt_r].
Qed.

(** A non-empty string of a starred expression starts with a non-empty
    string of the expression. *)
Lemma Language_star_cons r c w :
  Language (Star r) (String c w) <->
  exists u v, w = u +:+ v /\ Language r (String c u) /\ Language (Star r) v.
Proof.
  split.
  - intros H. remember (Star r) as sr eqn:Hsr. remember (String c w) as cw eqn:Hcw.
    revert w Hcw.
    induction H as [| | | | | |r' u v Hu _ Hv IH]; intros w Hcw; try discriminate.
    injection Hsr as ->. destruct u as [|c' u].
    + apply IH; [done|]. exact Hcw.
    + injection Hcw as -> <-. eauto.
  - intros (u & v & -> & Hu & Hv).
    change (Language (Star r) (String c u +:+ v)). by constructor.
Qed.

Lemma nullable_spec r : nullable r = true <-> Language r EmptyString.
Proof.
  induction r as [| |c|r IHr s IHs|r IHr s IHs|r IHr]; simpl.
  - split; [discriminate|]. intros H. by apply Language_fail in H.
  - split; [constructor|done].
  - split; [discriminate|]. by inversion 1.
  - rewrite andb_true_iff, IHr, IHs, Language_cat. split.
    + intros [Hr Hs]. by exists EmptyString, EmptyString.
    + intros (u & v & Huv & Hu & Hv). symmetry in Huv.
      apply append_empty in Huv as [-> ->]. done.
  - by rewrite orb_true_iff, IHr, IHs, Language_alt.
  - split; [constructor|done].
Qed.

Lemma cat_spec r s w : Language (cat r s) w <-> Language (Cat r s) w.
Proof.
  rewrite Language_cat.
  destruct r; destruct s; simpl;
    first
      [ apply Language_cat
      | split;
        [ intros H; by apply Language_fail in H
        | intros (u & v & _ & Hu & Hv);
          first [by apply Language_fail in Hu | by apply Language_fail in Hv] ]
      | split;
        [ intros H; exists EmptyString, w; repeat split; [constructor|exact H]
        | intros (u & v & -> & Hu & Hv); apply Language_eps in Hu as ->;
          exact Hv ] ].
Qed.

Lemma alt_spec r s w : Language (alt r s) w <-> Language (Alt r s) w.
Proof.
  rewrite Language_alt.
  destruct r; destruct s; simpl;
    first
      [ apply Language_alt
      | split;
        [ intros H; by right
        | intros [H|H]; [by apply Language_fail in H|done] ]
      | split;
        [ intros H; by left
        | intros [H|H]; [done|by apply Language_fail in H] ] ].
Qed.

(** The derivative denotes what may follow the byte. *)
Lemma deriv_spec c r w : Language (deriv c r) w <-> Language r (String c w).
Proof.
  revert w. induction r as [| |d|r IHr s IHs|r IHr s IHs|r IHr]; intros w; simpl.
  - split; intros H; by apply Language_fail in H.
  - split; intros H; [by apply Language_fail in H|by inversion H].
  - destruct (Ascii.eqb_spec c d) as [->|Hne].
    + rewrite Language_eps, Language_lit. split; [by intros ->|by intros [= ->]].
    + split; intros H; [by apply Language_fail in H|]. inversion H. congruence.
  - assert (Hstep : Language (cat (deriv c r) s) w <->
                    exists u v, w = u +:+ v /\ Language r (String c u) /\ Language s v).
    { rewrite cat_spec, Language_cat. split.
      - intros (u & v & -> & Hu & Hv). apply IHr in Hu. eauto.
      - intros (u & v & -> & Hu & Hv). apply IHr in Hu. eauto. }
    destruct (nullable r) eqn:Hn.
    + rewrite alt_spec, Language_alt, Hstep, IHs, Language_cat. split.
      * intros [(u & v & -> & Hu & Hv)|Hs].
        -- exists (String c u), v. done.
        -- exists EmptyString, (String c w). repeat split; [|done].
           by apply nullable_spec.
      * intros (u & v & Huv & Hu & Hv). destruct u as [|c' u].
        -- right. by rewrite Huv.
        -- injection Huv as <- ->. left. eauto.
    + rewrite Hstep, Language_cat. split.
      * intros (u & v & -> & Hu & Hv). exists (String c u), v. done.
      * intros (u & v & Huv & Hu & Hv). destruct u as [|c' u].
        -- apply nullable_spec in Hu. congruence.
        -- injection Huv as <- ->. eauto.
  - by rewrite alt_spec, !Language_alt, IHr, IHs.
  - rewrite cat_spec, Language_cat, Language_star_cons. split.
    + intros (u & v & -> & Hu & Hv). apply IHr in Hu. eauto.
    + intros (u & v & -> & Hu & Hv). apply IHr in Hu. eauto.
Qed.

Lemma matchesPrefix_spec r w :
  matchesPrefix r w = true <-> exists u v, w = u +:+ v /\ Language r u.
Proof.
  revert r. induction w as [|c w IH]; intros r.
  - change (matchesPrefix r EmptyString) with (nullable r || false).
    rewrite orb_false_r, nullable_spec. split.
    + intros H. by exists EmptyString, EmptyString.
    + intros (u & v & Huv & Hu). symmetry in Huv.
      by apply append_empty in Huv as [-> _].
  - change (matchesPrefix r (String c w))
      with (nullable r || matchesPrefix (deriv c r) w).
    rewrite orb_true_iff, nullable_spec, IH. split.
    + intros [H|(u & v & -> & Hu)].
      * by exists EmptyString, (String c w).
      * apply deriv_spec in Hu. by exists (String c u), v.
    + intros (u & v & Huv & Hu). destruct u as [|c' u]; [by left|].
      injection Huv as <- ->. right. exists u, v. split; [done|].
      by apply deriv_spec.
Qed.

(** [MatchString] holds exactly when some substring of the text is in
    the language of the expression. *)
Lemma MatchString_spec r w :
  MatchString r w = true <->
  exists before u after, w = before +:+ u +:+ after /\ Language r u.
Proof.
  induction w as [|c w IH].
  - change (MatchString r EmptyString) with (nullable r || false || false).
    rewrite !orb_false_r, nullable_spec. split.
    + intros H. by exists EmptyString, EmptyString, EmptyString.
    + intros (p & u & v & Huv & Hu). symmetry in Huv.
      apply append_empty in Huv as [_ Huv].
      by apply append_empty in Huv as [-> _].
  - change (MatchString r (String c w))
      with (matchesPrefix r (String c w) || MatchString r w).
    rewrite orb_true_iff, matchesPrefix_spec, IH. split.
    + intros [(u & v & Huv & Hu)|(p & u & v & -> & Hu)].
      * by exists EmptyString, u, v.
      * by exists (String c p), u, v.
    + intros (p & u & v & Huv & Hu). destruct p as [|c' p].
      * left. by exists u, v.
      * injection Huv as <- ->. right. by exists p, u, v.
Qed.

End Matcher.

(* ===================================================================== *)
(** * The two patterns titled Connection refused                          *)
(* ===================================================================== *)

Lemma recordLine_keeps ps m line t :
  is_Some (m !! t) -> is_Some (recordLine ps m line !! t).
Proof.
  unfold recordLine. revert m. induction ps as [|p ps IH]; intros m H; simpl; [done|].
  apply IH. destruct (regexp.MatchString (Pattern p) line); [|done].
  destruct (decide (PTitle p = t)) as [<-|Hne].
  - rewrite lookup_insert_eq. by eexists.
  - by rewrite lookup_insert_ne.
Qed.

Lemma recordLine_hit ps m line p :
  p ∈ ps -> regexp.MatchString (Pattern p) line = true ->
  is_Some (recordLine ps m line !! PTitle p).
Proof.
  unfold recordLine. revert m. induction ps as [|q ps IH]; intros m Hin Hm.
  - by apply elem_of_nil in Hin.
  - apply elem_of_cons in Hin as [->|Hin]; simpl.
    + rewrite Hm. apply (recordLine_keeps ps). rewrite lookup_insert_eq. by eexists.
    + by apply IH.
Qed.

Lemma matchLines_keeps ps lines m t :
  is_Some (m !! t) ->
  is_Some (fold_left (fun m line => if isBlank line then m else recordLine ps m line)
                     lines m !! t).
Proof.
  revert m. induction lines as [|line lines IH]; intros m H; simpl; [done|].
  apply IH. destruct (isBlank line); [done|]. by apply recordLine_keeps.
Qed.

(** A line that is not blank and matches a pattern enters the title of
    the pattern in the map of matches. *)
Lemma matchLines_hit ps lines line p :
  line ∈ lines -> isBlank line = false ->
  p ∈ ps -> regexp.MatchString (Pattern p) line = true ->
  is_Some (matchLines ps lines !! PTitle p).
Proof.
  unfold matchLines. generalize (∅ : gmap string (list string)) as m.
  induction lines as [|l lines IH]; intros m Hin Hnb Hp Hm.
  - by apply elem_of_nil in Hin.
  - apply elem_of_cons in Hin as [<-|Hin]; simpl.
    + rewrite Hnb. apply matchLines_keeps. by apply recordLine_hit.
    + by apply IH.
Qed.

Lemma title_inj c a b :
  "[" +:+ c +:+ "] " +:+ a = "[" +:+ c +:+ "] " +:+ b <-> a = b.
Proof.
  split; [|by intros ->]. intros H.
  by apply (inj (String.append "] ")), (inj (String.append c)),
           (inj (String.append "[")).
Qed.

(** Filtering the emitted issues by a title selects the patterns of that
    title. *)
Lemma filter_patternIssues c m t ps :
  filter (fun i => Title i = "[" +:+ c +:+ "] " +:+ t)
         (flat_map (patternIssue c m) ps)
  = flat_map (patternIssue c m) (filter (fun p => PTitle p = t) ps).
Proof.
  induction ps as [|p ps IH]; [done|].
  change (flat_map (patternIssue c m) (p :: ps))
    with (patternIssue c m p ++ flat_map (patternIssue c m) ps).
  rewrite filter_app, IH.
  destruct (decide (PTitle p = t)) as [Heq|Hne].
  - rewrite (filter_cons_True _ p ps) by done.
    change (flat_map (patternIssue c m) (p :: filter (fun p => PTitle p = t) ps))
      with (patternIssue c m p
            ++ flat_map (patternIssue c m) (filter (fun p => PTitle p = t) ps)).
    f_equal. unfold patternIssue. destruct (m !! PTitle p); [|done].
    rewrite filter_cons_True; [done|]. simpl. by apply title_inj.
  - rewrite (filter_cons_False _ p ps) by done.
    unfold patternIssue. destruct (m !! PTitle p); [|done].
    rewrite filter_cons_False; [done|]. simpl. by rewrite title_inj.
Qed.

Lemma Split_empty_blank line : line ∈ Split EmptyString -> isBlank line = true.
Proof. simpl. by intros ->%list_elem_of_singleton. Qed.

(** C9.  When the logs of a container are read and one of their lines,
    not blank, matches one of the two patterns titled Connection
    refused, [analyzeContainerLogs] returns exactly two issues with the
    title of that container and Connection refused: one for each of the
    two table entries, with the same title and the same details. *)
Theorem connection_refused_reported_twice
    (client : Client) (namespace podName containerName : string)
    (previous : bool) (logs line : string) :
  GetPodLogs client namespace podName containerName 100 previous = Ok logs ->
  line ∈ Split logs ->
  isBlank line = false ->
  regexp.MatchString (Pattern connectionRefused) line = true
  \/ regexp.MatchString (Pattern econnrefused) line = true ->
  exists details,
    filter (fun i => Title i = "[" +:+ containerName +:+ "] Connection refused")
           (fst (analyzeContainerLogs NewLogAnalyzer client namespace podName
                                      containerName previous))
    = [ {| Severity_of := SeverityWarning; Category := "logs";
           Title := "[" +:+ containerName +:+ "] Connection refused";
           Description := "Cannot connect to a service";
           Details := details |};
        {| Severity_of := SeverityWarning; Category := "logs";
           Title := "[" +:+ containerName +:+ "] Connection refused";
           Description := "TCP connection refused";
           Details := details |} ].
Proof.
  intros Hlogs Hin Hnb Hmatch. unfold analyzeContainerLogs. rewrite Hlogs.
  destruct (String.eqb_spec logs EmptyString) as [->|Hne].
  { apply Split_empty_blank in Hin. congruence. }
  set (matched := matchLines (patterns NewLogAnalyzer) (Split logs)).
  assert (Hsome : is_Some (matched !! "Connection refused")).
  { destruct Hmatch as [Hm|Hm].
    - apply (matchLines_hit _ _ line connectionRefused); [done..| |done].
      vm_compute. do 4 right. left.
    - apply (matchLines_hit _ _ line econnrefused); [done..| |done].
      vm_compute. do 5 right. left. }
  destruct Hsome as [matches Hmatches].
  change ("[" +:+ containerName +:+ "] Connection refused")
    with ("[" +:+ containerName +:+ "] " +:+ "Connection refused").
  unfold fst. rewrite filter_patternIssues.
  assert (Hsel : filter (fun p => PTitle p = "Connection refused")
                        (patterns NewLogAnalyzer)
                 = [connectionRefused; econnrefused]) by (vm_compute; reflexivity).
  rewrite Hsel.
  change (flat_map (patternIssue containerName matched)
                   [connectionRefused; econnrefused])
    with (patternIssue containerName matched connectionRefused
          ++ patternIssue containerName matched econnrefused ++ []).
  unfold patternIssue.
  change (PTitle connectionRefused) with "Connection refused".
  change (PTitle econnrefused) with "Connection refused".
  rewrite Hmatches. eexists. reflexivity.
Qed.

(** The log line of the sample output of the README. *)
Lemma connection_refused_reported_twice_witness :
  exists details,
    filter (fun i => Title i = "[" +:+ "app" +:+ "] Connection refused")
           (fst (analyzeContainerLogs NewLogAnalyzer refusedCluster
                                      "default" "web" "app" false))
    = [ {| Severity_of := SeverityWarning; Category := "logs";
           Title := "[" +:+ "app" +:+ "] Connection refused";
           Description := "Cannot connect to a service";
           Details := details |};
        {| Severity_of := SeverityWarning; Category := "logs";
           Title := "[" +:+ "app" +:+ "] Connection refused";
           Description := "TCP connection refused";
           Details := details |} ].
Proof.
  apply (connection_refused_reported_twice refusedCluster "default" "web" "app"
           false refusedLine refusedLine).
  - reflexivity.
  - vm_compute. left.
  - vm_compute. reflexivity.
  - left. vm_compute. reflexivity.
Defined.

(* ===================================================================== *)
(** * What the accumulation loop accepts                                  *)
(* ===================================================================== *)

Lemma accumulate_flat issues pod :
  accumulate issues pod
  = fold_left acceptRec
      (flat_map (fun i => getRecommendationsForIssue i pod) issues) ([], ∅).
Proof.
  unfold accumulate. generalize (([], ∅) : accState) as st.
  induction issues as [|i issues IH]; intros st; simpl; [done|].
  by rewrite fold_left_app, IH.
Qed.

Lemma acceptRec_mono st rec r : r ∈ st.1 -> r ∈ (acceptRec st rec).1.
Proof.
  destruct st as [recs seen]. unfold acceptRec. simpl.
  destruct (negb _); simpl; [|done]. intros H. apply elem_of_app. by left.
Qed.

Lemma fold_acceptRec_mono cands st r :
  r ∈ st.1 -> r ∈ (fold_left acceptRec cands st).1.
Proof.
  revert st. induction cands as [|c cands IH]; intros st H; simpl; [done|].
  by apply IH, acceptRec_mono.
Qed.

Lemma fold_acceptRec_sound cands st r :
  r ∈ (fold_left acceptRec cands st).1 -> r ∈ st.1 \/ r ∈ cands.
Proof.
  revert st. induction cands as [|c cands IH]; intros st H; simpl in *; [by left|].
  apply IH in H as [H|H]; [|by right; right].
  destruct st as [recs seen]. unfold acceptRec in H. simpl in H.
  destruct (negb _); simpl in H; [|by left].
  apply elem_of_app in H as [H|H]; [by left|].
  apply list_elem_of_singleton in H as ->. right. left.
Qed.

Lemma fold_acceptRec_complete cands st r :
  accInv st -> r ∈ cands ->
  exists r', r' ∈ (fold_left acceptRec cands st).1 /\ RTitle r' = RTitle r.
Proof.
  revert st. induction cands as [|c cands IH]; intros st Hinv Hin.
  - by apply elem_of_nil in Hin.
  - simpl. apply elem_of_cons in Hin as [->|Hin].
    + destruct st as [recs seen]. destruct Hinv as [Hnd Hseen]. simpl in *.
      unfold acceptRec.
      destruct (default false (seen !! RTitle c)) eqn:E; simpl.
      * apply Hseen, list_elem_of_fmap in E as (r' & Ht & Hr').
        exists r'. split; [|done]. by apply fold_acceptRec_mono.
      * exists c. split; [|done]. apply fold_acceptRec_mono. simpl.
        apply elem_of_app. right. left.
    + apply IH; [|done]. by apply acceptRec_inv.
Qed.

(** Every accepted recommendation is a candidate of some issue. *)
Lemma acceptedRecs_sound issues pod r :
  r ∈ acceptedRecs issues pod ->
  exists i, i ∈ issues /\ r ∈ getRecommendationsForIssue i pod.
Proof.
  unfold acceptedRecs. rewrite accumulate_flat. intros H.
  apply fold_acceptRec_sound in H as [H|H]; [by apply elem_of_nil in H|].
  apply list_elem_of_In, in_flat_map in H as (i & Hi & Hr).
  exists i. split; by apply list_elem_of_In.
Qed.

(** Every candidate of an issue is accepted, or a recommendation of the
    same title was accepted before it. *)
Lemma acceptedRecs_complete issues pod i r :
  i ∈ issues -> r ∈ getRecommendationsForIssue i pod ->
  exists r', r' ∈ acceptedRecs issues pod /\ RTitle r' = RTitle r.
Proof.
  intros Hi Hr. unfold acceptedRecs. rewrite accumulate_flat.
  apply fold_acceptRec_complete; [apply accInv_init|].
  apply list_elem_of_In, in_flat_map. exists i. split; by apply list_elem_of_In.
Qed.

(** The table gives the titles of the three recommendations below to no
    other recommendation. *)
Lemma recommendation_of_title i pod r :
  r ∈ getRecommendationsForIssue i pod ->
  (RTitle r = RTitle addLimitsRec -> r = addLimitsRec) /\
  (RTitle r = RTitle configureRec -> r = configureRec) /\
  (RTitle r = RTitle addProbesRec -> r = addProbesRec).
Proof.
  unfold getRecommendationsForIssue. intros H.
  repeat match type of H with
         | context [if ?b then _ else _] => destruct b
         end;
    simpl in H;
    repeat (apply elem_of_cons in H as [->|H]);
    try (by apply elem_of_nil in H);
    (split; [|split]); intros Ht; try discriminate Ht; reflexivity.
Qed.

(* ===================================================================== *)
(** * The analyzers on a pod without abnormal statuses                    *)
(* ===================================================================== *)

Lemma flat_map_nil {A B} (f : A -> list B) (l : list A) :
  Forall (fun x => f x = []) l -> flat_map f l = [].
Proof. induction 1 as [|x l Hx _ IH]; simpl; [done|]. by rewrite Hx, IH. Qed.

Lemma filter_none {A} (P : A -> Prop) `{forall x, Decision (P x)} (l : list A) :
  Forall (fun x => ~ P x) l -> filter P l = [].
Proof.
  induction 1 as [|x l Hx _ IH]; [done|]. by rewrite filter_cons_False.
Qed.

Lemma analyzeContainerStatus_normal cs :
  normalStatus cs -> analyzeContainerStatus cs = [].
Proof.
  intros (Hw & Ht & Hl & _ & _). unfold analyzeContainerStatus.
  by rewrite Hw, Ht, Hl.
Qed.

Lemma analyzeInitContainerStatus_normal cs :
  normalStatus cs -> analyzeInitContainerStatus cs = [].
Proof.
  intros (Hw & Ht & _). unfold analyzeInitContainerStatus. by rewrite Hw, Ht.
Qed.

Lemma restartIssues_normal cs : normalStatus cs -> restartIssues cs = [].
Proof.
  intros (_ & _ & _ & _ & Hr). unfold restartIssues.
  destruct (Z.ltb_spec 5 (RestartCount cs)); [lia|done].
Qed.

Lemma probeContainerStatus_normal cs :
  normalStatus cs -> probeContainerStatus cs = [].
Proof.
  intros (_ & _ & Hl & Hr & _). unfold probeContainerStatus. by rewrite Hl, Hr.
Qed.

Lemma conditionIssues_not_false pod cond :
  CStatus cond <> ConditionFalse -> conditionIssues pod cond = [].
Proof.
  intros H. unfold conditionIssues.
  destruct (String.eqb_spec (CStatus cond) ConditionFalse); [done|]. simpl.
  by repeat destruct (String.eqb (CType cond) _).
Qed.

Lemma StatusAnalyze_normal pod client :
  noAbnormalStatus pod -> StatusAnalyze pod client = ([], None).
Proof.
  intros (Hcs & Hinit & Hcond & Hph). unfold StatusAnalyze, analyzePodConditions.
  rewrite !flat_map_nil; simpl.
  - by destruct (String.eqb_spec (Phase pod) PodFailed).
  - eapply Forall_impl; [exact Hcs|]. apply restartIssues_normal.
  - eapply Forall_impl; [exact Hcond|]. apply conditionIssues_not_false.
  - eapply Forall_impl; [exact Hinit|]. apply analyzeInitContainerStatus_normal.
  - eapply Forall_impl; [exact Hcs|]. apply analyzeContainerStatus_normal.
Qed.

(** Every issue of the log analyzer has category logs, and every issue
    of the node analyzer has category node. *)
Lemma patternIssue_category c m p :
  Forall (fun i => Category i = "logs") (patternIssue c m p).
Proof.
  unfold patternIssue. destruct (m !! PTitle p); repeat constructor.
Qed.

Lemma analyzeContainerLogs_category l client ns podName c previous :
  Forall (fun i => Category i = "logs")
         (fst (analyzeContainerLogs l client ns podName c previous)).
Proof.
  unfold analyzeContainerLogs.
  destruct (GetPodLogs client ns podName c 100 previous) as [logs|e]; [|constructor].
  destruct (String.eqb logs EmptyString); [constructor|]. simpl.
  apply Forall_flat_map, Forall_forall. intros p _. apply patternIssue_category.
Qed.

Lemma LogAnalyze_category l pod client :
  Forall (fun i => Category i = "logs") (fst (LogAnalyze l pod client)).
Proof.
  unfold LogAnalyze. simpl. rewrite fold_left_append. simpl.
  apply Forall_flat_map, Forall_forall. intros c _.
  unfold containerLogIssues.
  pose proof (analyzeContainerLogs_category l client (Namespace pod) (Name pod)
                (CName c) false) as Hcur.
  destruct (analyzeContainerLogs l client (Namespace pod) (Name pod) (CName c) false)
    as [issues [e|]]; [|done].
  apply analyzeContainerLogs_category.
Qed.

Lemma NodeAnalyze_category pod client :
  Forall (fun i => Category i = "node") (fst (NodeAnalyze pod client)).
Proof.
  unfold NodeAnalyze. destruct (String.eqb (NodeName pod) EmptyString); [constructor|].
  destruct (GetNodeHealth client (NodeName pod)) as [nh|e]; [|constructor]. simpl.
  destruct (NHReady nh), (MemoryPressure nh), (DiskPressure nh), (PIDPressure nh),
    (NetworkUnavail nh); simpl; repeat constructor.
Qed.

Lemma keptIssues_mk pod client name f :
  keptIssues pod client (mkAnalyzer name f)
  = match snd (f pod client) with
    | None => fst (f pod client)
    | Some _ => []
    end.
Proof. reflexivity. Qed.

Lemma keptIssues_Forall (P : Issue -> Prop) pod client a :
  Forall P (fst (Analyze a pod client)) -> Forall P (keptIssues pod client a).
Proof. unfold keptIssues. by destruct (snd (Analyze a pod client)). Qed.

(** A container without limits and requests gets three issues from the
    resource analyzer. *)
Lemma analyzeContainer_bare c :
  Limits (Resources c) = ∅ -> Requests (Resources c) = ∅ ->
  Forall (fun i => Category i = "resources") (analyzeContainer c) /\
  map (fun i => (Severity_of i, Title i)) (analyzeContainer c)
  = [(SeverityWarning, "No resource limits for " +:+ CName c);
     (SeverityInfo, "No resource requests for " +:+ CName c);
     (SeverityWarning, "BestEffort QoS for " +:+ CName c)].
Proof.
  intros Hl Hr. unfold analyzeContainer, isGuaranteedQoS, isBurstableQoS.
  rewrite Hl, Hr. split; [repeat constructor|reflexivity].
Qed.

Lemma analyzeStartupProbe_warning name probe :
  Forall (fun i => Category i = "probes" /\ Severity_of i = SeverityWarning)
         (analyzeStartupProbe name probe).
Proof.
  unfold analyzeStartupProbe. destruct (_ && _); repeat constructor.
Qed.

(** A container without liveness and readiness probes gets one issue of
    severity info from the probe analyzer; its other issues, if any, are
    warnings of category probes. *)
Lemma analyzeContainerProbes_none c :
  LivenessProbe c = None -> ReadinessProbe c = None ->
  exists i rest,
    analyzeContainerProbes c = i :: rest /\
    Category i = "probes" /\ Severity_of i = SeverityInfo /\
    Title i = "No health probes for " +:+ CName c /\
    Forall (fun j => Category j = "probes" /\ Severity_of j = SeverityWarning) rest.
Proof.
  intros Hl Hr. unfold analyzeContainerProbes. rewrite Hl, Hr. simpl.
  eexists _, _. split; [reflexivity|]. repeat split.
  rewrite app_nil_r. destruct (StartupProbe c); [|constructor].
  apply analyzeStartupProbe_warning.
Qed.

(** The diagnosis of a pod that the cluster returns. *)
Lemma Diagnose_ok sortSlice now p namespace name pod :
  GetPod (client p) namespace name = Ok pod ->
  exists d,
    Diagnose sortSlice now p namespace name = Ok d /\
    DPod d = ExtractPodInfo pod /\
    Issues d = flat_map (keptIssues pod (client p)) (analyzers p) /\
    Recommendations d = sortSlice (acceptedRecs (Issues d) (DPod d)).
Proof.
  intros H. unfold Diagnose. rewrite H. eexists. split; [reflexivity|].
  rewrite runAnalyzers_spec. unfold generateRecommendations.
  destruct (GetPodEvents (client p) namespace name);
    destruct (negb (String.eqb (NodeName pod) EmptyString));
    try destruct (GetNodeHealth (client p) (NodeName pod)); done.
Qed.

Lemma NewPodAnalyzer_issues pod client :
  flat_map (keptIssues pod client) (analyzers (NewPodAnalyzer client))
  = keptIssues pod client (mkAnalyzer "status" StatusAnalyze)
    ++ keptIssues pod client (mkAnalyzer "events" EventAnalyze)
    ++ keptIssues pod client (mkAnalyzer "logs" (LogAnalyze NewLogAnalyzer))
    ++ keptIssues pod client (mkAnalyzer "node" NodeAnalyze)
    ++ keptIssues pod client (mkAnalyzer "resources" ResourceAnalyze)
    ++ keptIssues pod client (mkAnalyzer "probes" ProbeAnalyze).
Proof. simpl. by rewrite app_nil_r. Qed.

Lemma filter_all {A} (P : A -> Prop) `{forall x, Decision (P x)} (l : list A) :
  Forall P l -> filter P l = l.
Proof.
  induction 1 as [|x l Hx _ IH]; [done|]. rewrite filter_cons_True by done.
  by rewrite IH.
Qed.

(** The candidates of an issue of category resources and of an issue of
    category probes. *)
Lemma getRecommendations_resources i pod :
  Category i = "resources" ->
  exists oom,
    getRecommendationsForIssue i pod
    = oom
      ++ (if Contains (Title i) "No resource limits" then [addLimitsRec] else [])
      ++ (if Contains (Title i) "BestEffort QoS" then [configureRec] else []).
Proof.
  intros Hc. unfold getRecommendationsForIssue. rewrite Hc.
  eexists. reflexivity.
Qed.

Lemma getRecommendations_probes i pod :
  Category i = "probes" ->
  exists failed ready,
    getRecommendationsForIssue i pod
    = failed
      ++ (if Contains (Title i) "No health probes" then [addProbesRec] else [])
      ++ ready.
Proof.
  intros Hc. unfold getRecommendationsForIssue. rewrite Hc.
  eexists _, _. reflexivity.
Qed.

Lemma candidate_addLimits i pod n :
  Category i = "resources" -> Title i = "No resource limits for " +:+ n ->
  addLimitsRec ∈ getRecommendationsForIssue i pod.
Proof.
  intros Hc Ht. destruct (getRecommendations_resources i pod Hc) as [oom ->].
  rewrite Ht.
  assert (Contains ("No resource limits for " +:+ n) "No resource limits" = true)
    as -> by reflexivity.
  rewrite !elem_of_app. right. left. constructor.
Qed.

Lemma candidate_configure i pod n :
  Category i = "resources" -> Title i = "BestEffort QoS for " +:+ n ->
  configureRec ∈ getRecommendationsForIssue i pod.
Proof.
  intros Hc Ht. destruct (getRecommendations_resources i pod Hc) as [oom ->].
  rewrite Ht.
  assert (Contains ("BestEffort QoS for " +:+ n) "BestEffort QoS" = true)
    as -> by reflexivity.
  rewrite !elem_of_app. right. right. constructor.
Qed.

Lemma candidate_addProbes i pod n :
  Category i = "probes" -> Title i = "No health probes for " +:+ n ->
  addProbesRec ∈ getRecommendationsForIssue i pod.
Proof.
  intros Hc Ht. destruct (getRecommendations_probes i pod Hc) as (failed & ready & ->).
  rewrite Ht.
  assert (Contains ("No health probes for " +:+ n) "No health probes" = true)
    as -> by reflexivity.
  rewrite !elem_of_app. right. left. constructor.
Qed.

(** A candidate with one of the three titles is accepted as it is. *)
Lemma accepted_of_candidate issues pod i r :
  r = addLimitsRec \/ r = configureRec \/ r = addProbesRec ->
  i ∈ issues -> r ∈ getRecommendationsForIssue i pod ->
  r ∈ acceptedRecs issues pod.
Proof.
  intros Hr Hi Hin.
  destruct (acceptedRecs_complete issues pod i r Hi Hin) as (r' & Hr' & Ht).
  destruct (acceptedRecs_sound issues pod r' Hr') as (i' & _ & Hin').
  destruct (recommendation_of_title i' pod r' Hin') as (H1 & H2 & H3).
  destruct Hr as [-> | [-> | ->]].
  - by rewrite <- (H1 Ht).
  - by rewrite <- (H2 Ht).
  - by rewrite <- (H3 Ht).
Qed.

(* ===================================================================== *)
(** * The scenario of a BestEffort container without probes               *)
(* ===================================================================== *)

(** C7 (as amended).  Take a pod with one container and no init
    container, the container without resource requests, without resource
    limits and without liveness and readiness probes, the pod without
    events and without abnormal statuses.  Its diagnosis has exactly
    three issues of category resources: the warning No resource limits,
    the info No resource requests and the warning BestEffort QoS; and
    exactly one issue of category probes and severity info, No health
    probes.  Its recommendations include Add resource limits and
    Configure resource requests and limits, of priority 2, and Add health
    probes, of priority 3, both of the former before the latter. *)
Theorem bestEffort_without_probes_diagnosis
    (sortSlice : list Recommendation -> list Recommendation) (now : GoTime)
    (cluster : Client) (namespace name : string) (pod : Pod) (c : Container) :
  SliceContract sortSlice ->
  GetPod cluster namespace name = Ok pod ->
  Containers pod = [c] -> InitContainers pod = [] ->
  Limits (Resources c) = ∅ -> Requests (Resources c) = ∅ ->
  LivenessProbe c = None -> ReadinessProbe c = None ->
  GetPodEvents cluster (Namespace pod) (Name pod) = Ok [] ->
  noAbnormalStatus pod ->
  exists d,
    Diagnose sortSlice now (NewPodAnalyzer cluster) namespace name = Ok d /\
    map (fun i => (Severity_of i, Title i))
        (filter (fun i => Category i = "resources") (Issues d))
    = [(SeverityWarning, "No resource limits for " +:+ CName c);
       (SeverityInfo, "No resource requests for " +:+ CName c);
       (SeverityWarning, "BestEffort QoS for " +:+ CName c)] /\
    map (fun i => (Severity_of i, Title i))
        (filter (fun i => Category i = "probes" /\ Severity_of i = SeverityInfo)
                (Issues d))
    = [(SeverityInfo, "No health probes for " +:+ CName c)] /\
    addLimitsRec ∈ Recommendations d /\
    configureRec ∈ Recommendations d /\
    addProbesRec ∈ Recommendations d /\
    Before addLimitsRec addProbesRec (Recommendations d) /\
    Before configureRec addProbesRec (Recommendations d).
Proof.
  intros Hc Hget Hcont Hinit Hlim Hreq Hlive Hready Hev Hnormal.
  destruct (Diagnose_ok sortSlice now (NewPodAnalyzer cluster) namespace name pod Hget)
    as (d & Hd & Hpod & Hissues & Hrecs).
  exists d. split; [exact Hd|].
  change (client (NewPodAnalyzer cluster)) with cluster in Hissues.
  rewrite NewPodAnalyzer_issues in Hissues.
  (* the six analyzers *)
  assert (Hst : keptIssues pod cluster (mkAnalyzer "status" StatusAnalyze) = []).
  { by rewrite keptIssues_mk, StatusAnalyze_normal. }
  assert (Hevs : keptIssues pod cluster (mkAnalyzer "events" EventAnalyze) = []).
  { rewrite keptIssues_mk. unfold EventAnalyze. by rewrite Hev. }
  pose proof (keptIssues_Forall _ pod cluster
                (mkAnalyzer "logs" (LogAnalyze NewLogAnalyzer))
                (LogAnalyze_category NewLogAnalyzer pod cluster)) as HL.
  pose proof (keptIssues_Forall _ pod cluster (mkAnalyzer "node" NodeAnalyze)
                (NodeAnalyze_category pod cluster)) as HN.
  assert (Hres : keptIssues pod cluster (mkAnalyzer "resources" ResourceAnalyze)
                 = analyzeContainer c).
  { rewrite keptIssues_mk. unfold ResourceAnalyze. rewrite Hcont, Hinit.
    simpl. by rewrite !app_nil_r. }
  destruct (analyzeContainerProbes_none c Hlive Hready)
    as (ip & rest & Hprobes & Hipc & Hips & Hipt & Hrest).
  destruct Hnormal as (Hcs & Hnormal').
  assert (Hpr : keptIssues pod cluster (mkAnalyzer "probes" ProbeAnalyze) = ip :: rest).
  { rewrite keptIssues_mk. unfold ProbeAnalyze. rewrite Hcont, Hev. simpl.
    rewrite flat_map_nil.
    - by rewrite Hprobes, !app_nil_r.
    - eapply Forall_impl; [exact Hcs|]. apply probeContainerStatus_normal. }
  destruct (analyzeContainer_bare c Hlim Hreq) as [HRcat HRmap].
  rewrite Hst, Hevs, Hres, Hpr in Hissues. simpl in Hissues.
  set (L := keptIssues pod cluster (mkAnalyzer "logs" (LogAnalyze NewLogAnalyzer))) in *.
  set (N := keptIssues pod cluster (mkAnalyzer "node" NodeAnalyze)) in *.
  split; [|split].
  - rewrite Hissues, !filter_app.
    rewrite (filter_none _ L), (filter_none _ N), (filter_none _ (ip :: rest)).
    + simpl. rewrite app_nil_r, filter_all; done.
    + constructor; [congruence|].
      eapply Forall_impl; [exact Hrest|]. simpl. intros j [Hj _]. congruence.
    + eapply Forall_impl; [exact HN|]. simpl. intros j Hj. congruence.
    + eapply Forall_impl; [exact HL|]. simpl. intros j Hj. congruence.
  - rewrite Hissues, !filter_app.
    rewrite (filter_none _ L), (filter_none _ N), (filter_none _ (analyzeContainer c)).
    + simpl. rewrite filter_cons_True by done.
      rewrite (filter_none _ rest); [simpl; by rewrite Hips, Hipt|].
      eapply Forall_impl; [exact Hrest|]. simpl. intros j [_ Hj] [_ Hj']. congruence.
    + eapply Forall_impl; [exact HRcat|]. simpl. intros j Hj [Hj' _]. congruence.
    + eapply Forall_impl; [exact HN|]. simpl. intros j Hj [Hj' _]. congruence.
    + eapply Forall_impl; [exact HL|]. simpl. intros j Hj [Hj' _]. congruence.
  - (* the recommendations *)
    destruct (analyzeContainer c) as [|i1 [|i2 [|i3 [|? ?]]]] eqn:HR;
      try discriminate HRmap.
    injection HRmap as _ Ht1 _ _ _ Ht3.
    apply Forall_cons in HRcat as [Hc1 HRcat].
    apply Forall_cons in HRcat as [_ HRcat].
    apply Forall_cons in HRcat as [Hc3 _].
    assert (Hin1 : i1 ∈ Issues d).
    { rewrite Hissues, !elem_of_app. do 2 right. left. constructor. }
    assert (Hin3 : i3 ∈ Issues d).
    { rewrite Hissues, !elem_of_app. do 2 right. left. do 2 constructor 2. constructor. }
    assert (Hinp : ip ∈ Issues d).
    { rewrite Hissues, !elem_of_app. do 3 right. constructor. }
    pose proof (proj1 (SliceContract_alt _) Hc (acceptedRecs (Issues d) (DPod d)))
      as [Hp Hs].
    rewrite <- Hrecs in Hp, Hs.
    assert (Ha1 : addLimitsRec ∈ Recommendations d).
    { rewrite Hp. apply (accepted_of_candidate _ _ i1); [by left|done|].
      by apply (candidate_addLimits _ _ (CName c)). }
    assert (Ha2 : configureRec ∈ Recommendations d).
    { rewrite Hp. apply (accepted_of_candidate _ _ i3); [by right; left|done|].
      by apply (candidate_configure _ _ (CName c)). }
    assert (Ha3 : addProbesRec ∈ Recommendations d).
    { rewrite Hp. apply (accepted_of_candidate _ _ ip); [by right; right|done|].
      by apply (candidate_addProbes _ _ (CName c)). }
    repeat split; try done; by apply sorted_Before.
Qed.

(** The bare pod on its cluster. *)
Lemma bestEffort_without_probes_diagnosis_witness :
  exists d,
    Diagnose insertionSort noon (NewPodAnalyzer bareCluster) "default" "web" = Ok d /\
    map (fun i => (Severity_of i, Title i))
        (filter (fun i => Category i = "resources") (Issues d))
    = [(SeverityWarning, "No resource limits for " +:+ CName bareContainer);
       (SeverityInfo, "No resource requests for " +:+ CName bareContainer);
       (SeverityWarning, "BestEffort QoS for " +:+ CName bareContainer)] /\
    map (fun i => (Severity_of i, Title i))
        (filter (fun i => Category i = "probes" /\ Severity_of i = SeverityInfo)
                (Issues d))
    = [(SeverityInfo, "No health probes for " +:+ CName bareContainer)] /\
    addLimitsRec ∈ Recommendations d /\
    configureRec ∈ Recommendations d /\
    addProbesRec ∈ Recommendations d /\
    Before addLimitsRec addProbesRec (Recommendations d) /\
    Before configureRec addProbesRec (Recommendations d).
Proof.
  apply (bestEffort_without_probes_diagnosis insertionSort noon bareCluster
           "default" "web" barePod bareContainer).
  - exact insertionSort_contract.
  - reflexivity.
  - reflexivity.
  - reflexivity.
  - reflexivity.
  - reflexivity.
  - reflexivity.
  - reflexivity.
  - reflexivity.
  - repeat split; repeat constructor; simpl; try reflexivity; try discriminate; lia.
Defined.

(** C7 (as stated) fails: [barePod] has one container, without resource
    requests, limits and probes, and no events or abnormal statuses; its
    diagnosis has two warnings of category resources, No resource limits
    and BestEffort QoS, not one. *)
Lemma barePod_has_two_resource_warnings :
  Containers barePod = [bareContainer] /\
  Limits (Resources bareContainer) = ∅ /\
  Requests (Resources bareContainer) = ∅ /\
  LivenessProbe bareContainer = None /\
  ReadinessProbe bareContainer = None /\
  GetPodEvents bareCluster "default" "web" = Ok [] /\
  detectPodStatus barePod = StatusHealthy /\
  exists d,
    Diagnose insertionSort noon (NewPodAnalyzer bareCluster) "default" "web" = Ok d /\
    map Title
        (filter (fun i => Category i = "resources" /\ Severity_of i = SeverityWarning)
                (Issues d))
    = ["No resource limits for app"; "BestEffort QoS for app"].
Proof.
  repeat split. eexists. split; [reflexivity|]. vm_compute. reflexivity.
Qed.

(** Membership in a list that is written out. *)
Ltac in_list := solve [repeat first [apply list_elem_of_here | apply list_elem_of_further]].
Ltac not_in_list H :=
  repeat (apply elem_of_cons in H as [H|H]; [discriminate H|]);
  by apply elem_of_nil in H.

(* ===================================================================== *)
(** * Further properties of the status classifier                         *)
(* ===================================================================== *)

(** X1.  [detectPodStatus] returns one of twelve labels; the label
    Initializing, although declared, is never returned. *)
Theorem detectPodStatus_labels (pod : Pod) :
  detectPodStatus pod ∈
    [StatusTerminating; StatusCrashLoop; StatusImagePull; StatusCreateError;
     StatusConfigError; StatusOOMKilled; StatusPending; StatusEvicted;
     StatusError; StatusNotReady; StatusHealthy; StatusUnknown].
Proof.
  unfold detectPodStatus.
  destruct (DeletionTimestamp pod); [in_list|].
  destruct (scanContainerStatuses (ContainerStatuses pod)) as [s|] eqn:Hscan.
  - apply scan_some in Hscan as (pre & cs & post & _ & _ & Hv).
    apply containerVerdict_some in Hv as [(r & _ & Hl)|(_ & _ & ->)].
    + destruct Hl; in_list.
    + in_list.
  - repeat match goal with
           | |- context [if ?b then _ else _] => destruct b
           end; in_list.
Qed.

(** The critical finding of [StatusAnalyzer] for a container that decides
    the label. *)
Lemma containerVerdict_critical cs s :
  containerVerdict cs = Some s ->
  exists i, i ∈ analyzeContainerStatus cs /\ Severity_of i = SeverityCritical.
Proof.
  unfold containerVerdict, analyzeContainerStatus.
  destruct (Waiting (State cs)) as [w|] eqn:Hw.
  - destruct (waitingStatus (WReason w)) as [l|] eqn:Hl.
    + intros _. apply waitingStatus_label in Hl. unfold waitingIssues.
      destruct Hl; eexists; (split; [apply elem_of_app; left; simpl; left|done]).
    + destruct (Terminated (LastTerminationState cs)) as [t|]; [|done].
      destruct (String.eqb (TReason t) "OOMKilled"); [|done].
      intros _. eexists.
      split; [apply elem_of_app; right; apply elem_of_app; left; left|reflexivity].
  - destruct (Terminated (LastTerminationState cs)) as [t|]; [|done].
    destruct (String.eqb (TReason t) "OOMKilled"); [|done].
    intros _. eexists.
    split; [apply elem_of_app; right; apply elem_of_app; left; left|reflexivity].
Qed.

(** X2.  When the classifier labels a pod CrashLoopBackOff,
    ImagePullBackOff, CreateContainerError, CreateContainerConfigError,
    OOMKilled or Evicted, the status analyzer reports at least one
    critical issue for that pod. *)
Theorem critical_label_has_critical_issue (pod : Pod) (client : Client) :
  detectPodStatus pod ∈
    [StatusCrashLoop; StatusImagePull; StatusCreateError; StatusConfigError;
     StatusOOMKilled; StatusEvicted] ->
  exists i, i ∈ fst (StatusAnalyze pod client) /\ Severity_of i = SeverityCritical.
Proof.
  unfold detectPodStatus, StatusAnalyze. simpl.
  destruct (DeletionTimestamp pod); [intros H; not_in_list H|].
  destruct (scanContainerStatuses (ContainerStatuses pod)) as [s|] eqn:Hscan.
  - intros _. apply scan_some in Hscan as (pre & cs & post & Hcss & _ & Hv).
    apply containerVerdict_critical in Hv as (i & Hi & Hsev).
    exists i. split; [|done]. apply elem_of_app. left.
    apply list_elem_of_In, in_flat_map. exists cs. split.
    + rewrite Hcss. apply in_elt.
    + by apply list_elem_of_In.
  - destruct (String.eqb_spec (Phase pod) "Pending"); [intros H; not_in_list H|].
    destruct (String.eqb_spec (Phase pod) "Failed") as [Hf|Hf].
    + destruct (String.eqb_spec (Reason pod) "Evicted") as [He|He];
        [|intros H; not_in_list H].
      intros _. eexists. split.
      { rewrite !elem_of_app. right. right. left.
        unfold analyzePodConditions. rewrite Hf, He. simpl.
        apply elem_of_app. right. left. }
      reflexivity.
    + repeat match goal with
             | |- context [if ?b then _ else _] => destruct b
             end; intros H; not_in_list H.
Qed.

(** The pod whose only container waits in CrashLoopBackOff. *)
Lemma critical_label_has_critical_issue_witness :
  exists i, i ∈ fst (StatusAnalyze crashOOMPod bareCluster)
            /\ Severity_of i = SeverityCritical.
Proof.
  apply (critical_label_has_critical_issue crashOOMPod bareCluster).
  vm_compute. left.
Defined.

(* ===================================================================== *)
(** * Counting issues and diagnoses                                       *)
(* ===================================================================== *)

Lemma IssueCount_loop issues (c w i : nat) :
  fold_left
    (fun '(critical, warning, info) issue =>
       match Severity_of issue with
       | SeverityCritical => (S critical, warning, info)
       | SeverityWarning => (critical, S warning, info)
       | SeverityInfo => (critical, warning, S info)
       end)
    issues (c, w, i)
  = ((c + length (filter (fun x => Severity_of x = SeverityCritical) issues))%nat,
     (w + length (filter (fun x => Severity_of x = SeverityWarning) issues))%nat,
     (i + length (filter (fun x => Severity_of x = SeverityInfo) issues))%nat).
Proof.
  revert c w i. induction issues as [|x issues IH]; intros c w i; simpl.
  - by rewrite !Nat.add_0_r.
  - rewrite !filter_cons.
    destruct (Severity_of x) eqn:E; rewrite IH; simpl;
      by rewrite Nat.add_succ_r.
Qed.

Lemma HasCriticalIssues_count (d : Diagnosis) :
  HasCriticalIssues d = true <-> (0 < (IssueCount d).1.1)%nat.
Proof.
  unfold IssueCount, HasCriticalIssues. rewrite IssueCount_loop. simpl.
  induction (Issues d) as [|x issues IH]; simpl.
  - split; [discriminate|lia].
  - rewrite filter_cons. unfold IsCritical at 1.
    destruct (decide (Severity_of x = SeverityCritical)) as [Hc|Hc].
    + rewrite bool_decide_eq_true_2 by done. simpl. split; [lia|done].
    + rewrite bool_decide_eq_false_2 by done. simpl. exact IH.
Qed.

(** X3.  [IssueCount] returns, for each severity, the number of issues
    of that severity; the three numbers add up to the number of issues,
    and [HasCriticalIssues] holds exactly when the first is positive. *)
Theorem IssueCount_spec (d : Diagnosis) :
  IssueCount d
  = (length (filter (fun x => Severity_of x = SeverityCritical) (Issues d)),
     length (filter (fun x => Severity_of x = SeverityWarning) (Issues d)),
     length (filter (fun x => Severity_of x = SeverityInfo) (Issues d))) /\
  ((IssueCount d).1.1 + (IssueCount d).1.2 + (IssueCount d).2)%nat
  = length (Issues d) /\
  (HasCriticalIssues d = true <-> 0 < (IssueCount d).1.1)%nat.
Proof.
  split; [|split; [|apply HasCriticalIssues_count]];
    unfold IssueCount; rewrite IssueCount_loop; simpl; [done|].
  induction (Issues d) as [|x issues IH]; [done|].
  rewrite !filter_cons. simpl.
  destruct (Severity_of x) eqn:E; repeat case_decide; try congruence;
    simpl; lia.
Qed.

Lemma summaryCounts_loop diagnoses (h u : nat) :
  fold_left
    (fun '(healthy, unhealthy) d =>
       if IsHealthy d then (S healthy, unhealthy) else (healthy, S unhealthy))
    diagnoses (h, u)
  = ((h + length (filter (fun d => IsHealthy d = true) diagnoses))%nat,
     (u + length (filter (fun d => IsHealthy d = false) diagnoses))%nat).
Proof.
  revert h u. induction diagnoses as [|d ds IH]; intros h u; simpl.
  - by rewrite !Nat.add_0_r.
  - rewrite !filter_cons.
    destruct (IsHealthy d) eqn:E; rewrite IH; simpl;
      by rewrite Nat.add_succ_r.
Qed.

(** X4.  In the summary of a scan the healthy and the unhealthy count add
    up to the number of diagnoses; the unhealthy count is the number of
    diagnoses the unhealthy-only filter keeps, and the pods listed as
    unhealthy are exactly those diagnoses, in the same order. *)
Theorem summaryCounts_spec (diagnoses : list Diagnosis) :
  (fst (summaryCounts diagnoses) + snd (summaryCounts diagnoses))%nat
  = length diagnoses /\
  snd (summaryCounts diagnoses) = length (filterScan true diagnoses) /\
  summaryListed diagnoses = filterScan true diagnoses.
Proof.
  assert (Hsnd : snd (summaryCounts diagnoses) = length (filterScan true diagnoses)).
  { unfold summaryCounts, filterScan. by rewrite summaryCounts_loop, filter_loop_spec. }
  split; [|split; [done|]].
  - clear Hsnd. unfold summaryCounts. rewrite summaryCounts_loop. simpl.
    induction diagnoses as [|d ds IH]; [done|].
    rewrite !filter_cons. destruct (IsHealthy d); simpl; lia.
  - unfold summaryListed. rewrite Hsnd.
    destruct (Nat.ltb_spec 0 (length (filterScan true diagnoses))) as [Hlt|Hge].
    + reflexivity.
    + destruct (filterScan true diagnoses); [done|simpl in Hge; lia].
Qed.

(** X5.  The unhealthy-only filter keeps the order of the diagnoses,
    keeps no healthy diagnosis, and filtering twice changes nothing more;
    without the flag the diagnoses are returned as they are. *)
Theorem filterScan_sublist (diagnoses : list Diagnosis) :
  sublist (filterScan true diagnoses) diagnoses /\
  Forall (fun d => IsHealthy d = false) (filterScan true diagnoses) /\
  filterScan true (filterScan true diagnoses) = filterScan true diagnoses /\
  filterScan false diagnoses = diagnoses.
Proof.
  unfold filterScan. rewrite !filter_loop_spec. simpl.
  split; [apply sublist_filter|]. split; [|split; [|done]].
  - apply Forall_forall. intros d Hd. by apply list_elem_of_filter in Hd as [? _].
  - apply list_filter_filter_l. done.
Qed.

(* ===================================================================== *)
(** * Node health                                                         *)
(* ===================================================================== *)

Lemma conditionHolds_snoc t conditions c :
  conditionHolds t (conditions ++ [c])
  = if String.eqb (NCType c) t then String.eqb (NCStatus c) ConditionTrue
    else conditionHolds t conditions.
Proof.
  unfold conditionHolds. rewrite filter_app.
  destruct (String.eqb_spec (NCType c) t) as [Heq|Hne].
  - rewrite (filter_cons_True _ c []) by done. rewrite filter_nil.
    by rewrite last_snoc.
  - rewrite (filter_cons_False _ c []) by done. rewrite filter_nil.
    by rewrite app_nil_r.
Qed.

Lemma nodeHealthOf_snoc name conditions c :
  nodeHealthOf name (conditions ++ [c])
  = applyCondition (nodeHealthOf name conditions) c.
Proof. unfold nodeHealthOf. by rewrite fold_left_app. Qed.

(** X6.  The health [GetNodeHealth] builds from the conditions of a node
    carries the node's name, and each of its five flags tells whether the
    last condition of the flag's type has status True; a flag whose
    condition type is absent from the list is false, Ready included. *)
Theorem nodeHealthOf_spec (name : string) (conditions : list NodeCondition) :
  nodeHealthOf name conditions
  = {| NHName := name;
       NHReady := conditionHolds NodeReady conditions;
       MemoryPressure := conditionHolds NodeMemoryPressure conditions;
       DiskPressure := conditionHolds NodeDiskPressure conditions;
       PIDPressure := conditionHolds NodePIDPressure conditions;
       NetworkUnavail := conditionHolds NodeNetworkUnavailable conditions |}.
Proof.
  induction conditions as [|c conditions IH] using rev_ind; [done|].
  rewrite nodeHealthOf_snoc, IH, !conditionHolds_snoc. unfold applyCondition.
  cbv zeta. cbn [NHName NHReady MemoryPressure DiskPressure PIDPressure NetworkUnavail].
  destruct (String.eqb_spec (NCType c) NodeReady) as [->|H1]; [done|].
  destruct (String.eqb_spec (NCType c) NodeMemoryPressure) as [->|H2]; [done|].
  destruct (String.eqb_spec (NCType c) NodeDiskPressure) as [->|H3]; [done|].
  destruct (String.eqb_spec (NCType c) NodePIDPressure) as [->|H4]; [done|].
  by destruct (String.eqb_spec (NCType c) NodeNetworkUnavailable).
Qed.

(** X7.  [NodeAnalyzer.Analyze] returns no issue and no error for a pod
    without node; for a pod with a node it fails exactly with the error
    of [GetNodeHealth]; and when the health is read it reports at most
    five issues, all of category node and naming the node, and none
    exactly when the console printer would skip the node section: the
    node is ready and under no pressure, with its network available. *)
Theorem NodeAnalyze_spec (pod : Pod) (client : Client) :
  (NodeName pod = EmptyString -> NodeAnalyze pod client = ([], None)) /\
  (NodeName pod <> EmptyString ->
   forall e, GetNodeHealth client (NodeName pod) = Err e ->
             NodeAnalyze pod client = ([], Some e)) /\
  (NodeName pod <> EmptyString ->
   forall health, GetNodeHealth client (NodeName pod) = Ok health ->
     snd (NodeAnalyze pod client) = None /\
     (fst (NodeAnalyze pod client) = [] <-> nodeIsHealthy health = true) /\
     (length (fst (NodeAnalyze pod client)) <= 5)%nat /\
     Forall (fun i => Category i = "node"
                      /\ Details i !! "node" = Some (NHName health))
            (fst (NodeAnalyze pod client))).
Proof.
  unfold NodeAnalyze. split; [by intros ->|].
  destruct (String.eqb_spec (NodeName pod) EmptyString) as [Hn|Hn].
  { split; intros H; by destruct H. }
  split; intros _.
  - by intros e ->.
  - intros health ->. simpl. split; [done|]. split; [|split].
    + unfold nodeIsHealthy.
      destruct (NHReady health), (MemoryPressure health), (DiskPressure health),
        (PIDPressure health), (NetworkUnavail health); simpl; split; done.
    + destruct (NHReady health), (MemoryPressure health), (DiskPressure health),
        (PIDPressure health), (NetworkUnavail health); simpl; lia.
    + rewrite !Forall_app.
      repeat split;
        match goal with
        | |- Forall _ (if ?b then _ else _) => destruct b
        end; repeat constructor.
Qed.

(** A ready node under memory pressure. *)
Lemma NodeAnalyze_spec_witness :
  snd (NodeAnalyze scheduledPod pressuredCluster) = None /\
  (fst (NodeAnalyze scheduledPod pressuredCluster) = []
   <-> nodeIsHealthy (nodeHealthOf "node-1" pressuredConditions) = true) /\
  (length (fst (NodeAnalyze scheduledPod pressuredCluster)) <= 5)%nat /\
  Forall (fun i => Category i = "node"
                   /\ Details i !! "node"
                      = Some (NHName (nodeHealthOf "node-1" pressuredConditions)))
         (fst (NodeAnalyze scheduledPod pressuredCluster)).
Proof.
  apply (proj2 (proj2 (NodeAnalyze_spec scheduledPod pressuredCluster)));
    [discriminate|reflexivity].
Defined.

(* ===================================================================== *)
(** * The event analyzer                                                  *)
(* ===================================================================== *)

Lemma reported_false_type (event : EventInfo) :
  String.eqb (EType event) "Warning" = false -> ~ reported event.
Proof. intros Ht [Hw _]. apply String.eqb_neq in Ht. done. Qed.

(** The severity [analyzeWarningEvent] gives is critical or warning. *)
Lemma analyzeWarningEvent_spec (event : EventInfo) :
  match analyzeWarningEvent event with
  | Some issue =>
      (EReason event ∉ routineReasons) /\
      Title issue = EReason event /\ Description issue = EMessage event /\
      Severity_of issue <> SeverityInfo
  | None => EReason event ∈ routineReasons
  end.
Proof.
  unfold analyzeWarningEvent.
  destruct (String.eqb (EReason event) "Scheduled" || String.eqb (EReason event) "Pulled"
            || String.eqb (EReason event) "Created" || String.eqb (EReason event) "Started")
    eqn:Hr.
  - unfold routineReasons.
    repeat (apply orb_true_iff in Hr as [Hr|Hr]);
      apply String.eqb_eq in Hr; rewrite Hr; in_list.
  - split; [|split; [done|split; [done|]]].
    + intros Hin. unfold routineReasons in Hin.
      repeat (apply orb_false_iff in Hr as [Hr ?]).
      repeat (apply elem_of_cons in Hin as [Hin|Hin];
              [apply String.eqb_eq in Hin; congruence|]).
      by apply elem_of_nil in Hin.
    + simpl.
      repeat match goal with
             | |- context [if ?b then _ else _] => destruct b
             end; discriminate.
Qed.

(** X8.  [EventAnalyzer.Analyze] fails exactly with the error of
    [GetPodEvents].  Otherwise it reports one issue for each event of
    type Warning whose reason is none of Scheduled, Pulled, Created and
    Started, in the order of the events, titled with the reason and
    described by the message of the event; events of another type are
    never reported, and no issue has severity info. *)
Theorem EventAnalyze_spec (pod : Pod) (client : Client) :
  (forall e, GetPodEvents client (Namespace pod) (Name pod) = Err e ->
             EventAnalyze pod client = ([], Some e)) /\
  (forall events, GetPodEvents client (Namespace pod) (Name pod) = Ok events ->
     snd (EventAnalyze pod client) = None /\
     map (fun i => (Title i, Description i)) (fst (EventAnalyze pod client))
     = map (fun event => (EReason event, EMessage event)) (filter reported events) /\
     Forall (fun i => Severity_of i <> SeverityInfo) (fst (EventAnalyze pod client))).
Proof.
  unfold EventAnalyze. split.
  - by intros e ->.
  - intros events ->. simpl. split; [done|].
    induction events as [|event events [IHm IHs]]; [by split|].
    simpl. rewrite map_app, Forall_app, IHm.
    pose proof (analyzeWarningEvent_spec event) as Hev.
    destruct (String.eqb (EType event) "Warning") eqn:Ht.
    + destruct (analyzeWarningEvent event) as [issue|].
      * destruct Hev as (Hr & Htitle & Hdesc & Hsev).
        rewrite filter_cons_True.
        2:{ split; [by apply String.eqb_eq|done]. }
        simpl. rewrite Htitle, Hdesc. split; [done|].
        split; [by repeat constructor|done].
      * rewrite filter_cons_False by (by intros [_ Hn]).
        split; [done|]. split; [constructor|done].
    + rewrite filter_cons_False by (by apply reported_false_type).
      split; [done|]. split; [constructor|done].
Qed.

(* ===================================================================== *)
(** * The resource analyzer and the QoS classes                           *)
(* ===================================================================== *)

Lemma QCmp_zero (q r : Quantity) : (QCmp q r =? 0) = true -> nano q = nano r.
Proof.
  unfold QCmp. destruct (Z.compare_spec (nano q) (nano r)); [done|discriminate..].
Qed.

Lemma QCmp_neg (q r : Quantity) : (QCmp q r <? 0) = (nano q <? nano r).
Proof.
  unfold QCmp. destruct (Z.compare_spec (nano q) (nano r)) as [H|H|H]; simpl;
    symmetry; [apply Z.ltb_ge; lia|by apply Z.ltb_lt|apply Z.ltb_ge; lia].
Qed.

Lemma QCmp_pos (q r : Quantity) : (0 <? QCmp q r) = (nano r <? nano q).
Proof.
  unfold QCmp. destruct (Z.compare_spec (nano q) (nano r)) as [H|H|H]; simpl;
    symmetry; [apply Z.ltb_ge; lia|apply Z.ltb_ge; lia|by apply Z.ltb_lt].
Qed.

(** An empty resource list has zero cpu and zero memory. *)
Lemma size_zero_quantities (l : gmap string Quantity) :
  size l = 0%nat -> QIsZero (Cpu l) = true /\ QIsZero (Memory l) = true.
Proof. intros ->%map_size_empty_iff. by split. Qed.

(** X9.  [analyzeContainer] reports the BestEffort QoS class for a
    container exactly when the container declares neither limits nor
    requests, of any resource. *)
Theorem analyzeContainer_bestEffort (c : Container) :
  (exists i, i ∈ analyzeContainer c /\ Details i !! "qos_class" = Some "BestEffort")
  <-> Limits (Resources c) = ∅ /\ Requests (Resources c) = ∅.
Proof.
  split.
  - intros (i & Hin & Hq). unfold analyzeContainer in Hin. cbv zeta in Hin.
    repeat match type of Hin with
           | _ ∈ (if ?b then _ else _) => destruct b eqn:?
           | _ ∈ _ ++ _ => apply elem_of_app in Hin as [Hin|Hin]
           | _ ∈ [] => by apply elem_of_nil in Hin
           | _ ∈ [_] => apply list_elem_of_singleton in Hin; subst i
           end; try (vm_compute in Hq; discriminate Hq).
    match goal with
    | Hb : isBurstableQoS _ = false, Hg : isGuaranteedQoS _ = false |- _ =>
        unfold isBurstableQoS in Hb; rewrite Hg, andb_true_r in Hb;
        apply orb_false_iff in Hb as [Hr Hl]
    end.
    apply Nat.ltb_ge in Hr, Hl. split; apply map_size_empty_iff; lia.
  - intros [Hl Hr]. unfold analyzeContainer, isGuaranteedQoS, isBurstableQoS.
    rewrite Hl, Hr. eexists. split.
    + do 2 apply list_elem_of_further. apply list_elem_of_here.
    + reflexivity.
Qed.

(** X10.  A container of the Guaranteed class, whose cpu and memory
    limits are set and equal its requests, is reported only for limits
    under the floors of 64Mi of memory and 50m of cpu: it gets no issue
    about missing limits or requests, about a request above its limit or
    about its QoS class. *)
Theorem analyzeContainer_guaranteed (c : Container) :
  isGuaranteedQoS (Resources c) = true ->
  map Title (analyzeContainer c)
  = (if nano (Memory (Limits (Resources c))) <? nano minMemory
     then ["Low memory limit for " +:+ CName c] else [])
    ++ (if nano (Cpu (Limits (Resources c))) <? nano minCPU
        then ["Very low CPU limit for " +:+ CName c] else []).
Proof.
  intros Hg. pose proof Hg as Hg'. unfold isGuaranteedQoS in Hg'. cbv zeta in Hg'.
  destruct (QIsZero (Cpu (Limits (Resources c)))) eqn:HcZ; [done|].
  destruct (QIsZero (Memory (Limits (Resources c)))) eqn:HmZ; [done|].
  simpl in Hg'. apply andb_true_iff in Hg' as [Hc Hm].
  apply QCmp_zero in Hc, Hm.
  assert (Hsl : (size (Limits (Resources c)) =? 0)%nat = false).
  { apply Nat.eqb_neq. intros [Hz _]%size_zero_quantities. congruence. }
  assert (Hsr : (size (Requests (Resources c)) =? 0)%nat = false).
  { apply Nat.eqb_neq. intros [Hz _]%size_zero_quantities.
    unfold QIsZero in Hz, HcZ. rewrite <- Hc in Hz. congruence. }
  unfold analyzeContainer. cbv zeta.
  rewrite Hsl, Hsr, HcZ, HmZ, Hg, !QCmp_neg, !QCmp_pos, Hc, Hm, !Z.ltb_irrefl,
    !andb_false_r.
  cbn [negb app].
  by destruct (_ <? nano minMemory), (_ <? nano minCPU).
Qed.

(** The container with 100m of cpu and 128Mi of memory gets no issue. *)
Lemma analyzeContainer_guaranteed_witness :
  map Title (analyzeContainer guaranteedContainer) = [].
Proof.
  exact (analyzeContainer_guaranteed guaranteedContainer eq_refl).
Defined.

(* ===================================================================== *)
(** * Events seen by two analyzers                                        *)
(* ===================================================================== *)



(* ===================================================================== *)
(** * The six analyzers of the pipeline                                   *)
(* ===================================================================== *)

(** X12.  With the analyzers of [NewPodAnalyzer], passing over an
    analyzer that failed loses no issue: only the event analyzer and the
    node analyzer can return an error, and when they do they return no
    issue.  The issues of the diagnosis are therefore those returned by
    the six analyzers, in their order. *)
Theorem NewPodAnalyzer_loses_no_issue (cluster : Client) (pod : Pod) (d : Diagnosis) :
  Forall (fun a => forall e, snd (Analyze a pod cluster) = Some e ->
                    fst (Analyze a pod cluster) = []
                    /\ (AName a = "events" \/ AName a = "node"))
         (analyzers (NewPodAnalyzer cluster)) /\
  Issues (runAnalyzers (NewPodAnalyzer cluster) pod d)
  = Issues d
    ++ fst (StatusAnalyze pod cluster) ++ fst (EventAnalyze pod cluster)
    ++ fst (LogAnalyze NewLogAnalyzer pod cluster) ++ fst (NodeAnalyze pod cluster)
    ++ fst (ResourceAnalyze pod cluster) ++ fst (ProbeAnalyze pod cluster).
Proof.
  assert (He : forall e, snd (EventAnalyze pod cluster) = Some e ->
                         fst (EventAnalyze pod cluster) = []).
  { unfold EventAnalyze. by destruct (GetPodEvents _ _ _). }
  assert (Hn : forall e, snd (NodeAnalyze pod cluster) = Some e ->
                         fst (NodeAnalyze pod cluster) = []).
  { unfold NodeAnalyze. destruct (String.eqb _ _); [done|].
    by destruct (GetNodeHealth _ _). }
  split.
  - cbn [NewPodAnalyzer analyzers].
    repeat (apply Forall_cons; split); cbn [Analyze AName].
    + intros e H. discriminate H.
    + intros e H. split; [by apply (He e)|by left].
    + intros e H. discriminate H.
    + intros e H. split; [by apply (Hn e)|by right].
    + intros e H. discriminate H.
    + intros e H. discriminate H.
    + by constructor.
  - rewrite runAnalyzers_spec. cbn [Issues client]. f_equal.
    rewrite NewPodAnalyzer_issues, !keptIssues_mk. cbn [snd StatusAnalyze LogAnalyze
      ResourceAnalyze ProbeAnalyze].
    destruct (snd (EventAnalyze pod cluster)) as [e|] eqn:Hse;
      destruct (snd (NodeAnalyze pod cluster)) as [e'|] eqn:Hsn;
      rewrite ?(He _ eq_refl), ?(Hn _ eq_refl); reflexivity.
Qed.

(* ===================================================================== *)
(** * The matches of the log analyzer                                     *)
(* ===================================================================== *)

Lemma recordLine_lookup ps m line t :
  recordLine ps m line !! t
  = match filter (fun p => PTitle p = t
                           /\ regexp.MatchString (Pattern p) line = true) ps with
    | [] => m !! t
    | hits => Some (default [] (m !! t)
                    ++ map (fun _ => truncateLine line 200) hits)
    end.
Proof.
  unfold recordLine. revert m. induction ps as [|p ps IH]; intros m; [done|].
  cbn [fold_left]. rewrite IH.
  destruct (regexp.MatchString (Pattern p) line) eqn:Hm.
  - destruct (decide (PTitle p = t)) as [Ht|Ht].
    + rewrite filter_cons_True by done. subst t. rewrite lookup_insert_eq.
      cbn [default map].
      destruct (filter _ ps); cbn [map]; unfold id; by rewrite <- ?app_assoc.
    + rewrite filter_cons_False by (by intros [? _]).
      by rewrite lookup_insert_ne.
  - rewrite filter_cons_False by (intros [_ ?]; congruence). done.
Qed.

Lemma matchLines_fold_lookup ps lines m t :
  fold_left (fun m line => if isBlank line then m else recordLine ps m line)
            lines m !! t
  = match matchesOf ps t lines with
    | [] => m !! t
    | samples => Some (default [] (m !! t) ++ samples)
    end.
Proof.
  revert m. induction lines as [|line lines IH]; intros m; [done|].
  cbn [fold_left]. rewrite IH.
  change (matchesOf ps t (line :: lines))
    with (hitsOf ps t line ++ matchesOf ps t lines).
  unfold hitsOf.
  destruct (isBlank line); [done|].
  rewrite recordLine_lookup.
  destruct (filter _ ps) as [|h hs]; [done|]. cbn [map app default].
  destruct (matchesOf ps t lines); cbn [app default]; unfold id.
  - by rewrite app_nil_r.
  - by rewrite <- app_assoc.
Qed.

(** The map of matches holds, for each title, the samples of the title
    when there are any, and no entry otherwise. *)
Lemma matchLines_lookup ps lines t :
  matchLines ps lines !! t
  = match matchesOf ps t lines with
    | [] => None
    | samples => Some samples
    end.
Proof.
  unfold matchLines. rewrite matchLines_fold_lookup, lookup_empty.
  by destruct (matchesOf ps t lines).
Qed.

Lemma matchesOf_blank ps t lines :
  Forall (fun line => isBlank line = true) lines -> matchesOf ps t lines = [].
Proof.
  intros H. apply flat_map_nil. eapply Forall_impl; [exact H|].
  intros line Hb. unfold hitsOf. by rewrite Hb.
Qed.

(** X13.  For a pattern of the table, [analyzeContainerLogs] emits an
    issue exactly when some line that is not blank matches a pattern of
    the same title.  The issue names the container, counts in
    match_count the pairs of such a line and such a pattern, shows in
    sample_match the first of these lines, truncated, and mentions
    additional matches exactly when the count exceeds one. *)
Theorem patternIssue_matches (ps : list errorPattern) (lines : list string)
    (c : string) (p : errorPattern) :
  match patternIssue c (matchLines ps lines) p with
  | [] => matchesOf ps (PTitle p) lines = []
  | i :: rest =>
      rest = [] /\ matchesOf ps (PTitle p) lines <> [] /\
      Severity_of i = PSeverity p /\
      Title i = "[" +:+ c +:+ "] " +:+ PTitle p /\
      Description i = PDescription p /\
      Details i !! "container" = Some c /\
      Details i !! "match_count"
      = Some (pretty (length (matchesOf ps (PTitle p) lines))) /\
      Details i !! "sample_match" = head (matchesOf ps (PTitle p) lines) /\
      Details i !! "additional_matches"
      = if (1 <? length (matchesOf ps (PTitle p) lines))%nat
        then Some (pretty (length (matchesOf ps (PTitle p) lines) - 1)%nat
                   +:+ " more occurrences")
        else None
  end.
Proof.
  unfold patternIssue. rewrite matchLines_lookup.
  destruct (matchesOf ps (PTitle p) lines) as [|s samples]; [done|].
  cbv zeta. cbn [length head default].
  destruct (1 <? S (length samples))%nat; by repeat split.
Qed.

(** X14.  Logs that consist of blank lines only, lines of white space
    included, yield no issue and no error. *)
Theorem analyzeContainerLogs_blank (l : LogAnalyzer) (client : Client)
    (namespace podName containerName : string) (previous : bool) (logs : string) :
  GetPodLogs client namespace podName containerName 100 previous = Ok logs ->
  Forall (fun line => isBlank line = true) (Split logs) ->
  analyzeContainerLogs l client namespace podName containerName previous
  = ([], None).
Proof.
  intros Hlogs Hblank. unfold analyzeContainerLogs. rewrite Hlogs.
  destruct (String.eqb logs EmptyString); [done|]. f_equal.
  apply flat_map_nil, Forall_forall. intros p _.
  unfold patternIssue. rewrite matchLines_lookup.
  by rewrite (matchesOf_blank _ _ _ Hblank).
Qed.

(** Two spaces, a tab and an empty last line. *)
Lemma analyzeContainerLogs_blank_witness :
  analyzeContainerLogs NewLogAnalyzer blankCluster "default" "web" "app" false
  = ([], None).
Proof.
  apply (analyzeContainerLogs_blank NewLogAnalyzer blankCluster
           "default" "web" "app" false blankLogs); [reflexivity|].
  repeat constructor.
Defined.

(* ===================================================================== *)
(** * Truncation in the console printer                                   *)
(* ===================================================================== *)

(** X15.  For a bound of at least three, [truncate] returns at most
    that many bytes: a string within the bound unchanged, a longer one as
    its first bytes followed by three dots, exactly as long as the bound.
    Truncating the result again changes nothing. *)
Theorem truncate_bound (s : string) (maxLen : nat) :
  (3 <= maxLen)%nat ->
  (String.length (truncate s maxLen) <= maxLen)%nat /\
  ((String.length s <= maxLen)%nat -> truncate s maxLen = s) /\
  ((maxLen < String.length s)%nat ->
   String.length (truncate s maxLen) = maxLen /\
   exists first rest,
     s = first +:+ rest /\ String.length first = (maxLen - 3)%nat /\
     truncate s maxLen = first +:+ "...") /\
  truncate (truncate s maxLen) maxLen = truncate s maxLen.
Proof.
  intros Hmax.
  assert (Hlong : (maxLen < String.length s)%nat ->
                  String.length (truncate s maxLen) = maxLen /\
                  exists first rest,
                    s = first +:+ rest /\ String.length first = (maxLen - 3)%nat /\
                    truncate s maxLen = first +:+ "...").
  { intros Hlt. unfold truncate.
    destruct (Nat.leb_spec (String.length s) maxLen); [lia|].
    destruct (substring_first (maxLen - 3) s) as [Hlen [rest Hrest]]; [lia|].
    split.
    - rewrite length_append, Hlen. simpl. lia.
    - by exists (String.substring 0 (maxLen - 3) s), rest. }
  assert (Hshort : (String.length s <= maxLen)%nat -> truncate s maxLen = s).
  { intros Hle. unfold truncate.
    by destruct (Nat.leb_spec (String.length s) maxLen); [|lia]. }
  assert (Hbound : (String.length (truncate s maxLen) <= maxLen)%nat).
  { destruct (Nat.le_gt_cases (String.length s) maxLen) as [Hle|Hlt].
    - by rewrite Hshort.
    - destruct (Hlong Hlt) as [-> _]. done. }
  split; [done|split; [done|split; [done|]]].
  unfold truncate at 1.
  by destruct (Nat.leb_spec (String.length (truncate s maxLen)) maxLen); [|lia].
Qed.

(** The bound of [printEvents] on a message of 250 bytes. *)
Lemma truncate_bound_witness :
  (String.length (truncate line250 80) <= 80)%nat /\
  ((String.length line250 <= 80)%nat -> truncate line250 80 = line250) /\
  ((80 < String.length line250)%nat ->
   String.length (truncate line250 80) = 80%nat /\
   exists first rest,
     line250 = first +:+ rest /\ String.length first = (80 - 3)%nat /\
     truncate line250 80 = first +:+ "...") /\
  truncate (truncate line250 80) 80 = truncate line250 80.
Proof.
  apply (truncate_bound line250 80). lia.
Defined.

(* ===================================================================== *)
(** * The recommendations of a diagnosis                                  *)
(* ===================================================================== *)

Lemma getRecommendations_catalogue i pod r :
  r ∈ getRecommendationsForIssue i pod -> r ∈ allRecommendations pod.
Proof.
  unfold getRecommendationsForIssue. cbv zeta. intros Hin.
  repeat match type of Hin with
         | _ ∈ (if ?b then _ else _) => destruct b
         | _ ∈ _ ++ _ => apply elem_of_app in Hin as [Hin|Hin]
         | _ ∈ [] => by apply elem_of_nil in Hin
         | _ ∈ _ :: _ => apply elem_of_cons in Hin as [->|Hin]
         end; unfold allRecommendations; in_list.
Qed.

Lemma catalogue_titles pod : NoDup (map RTitle (allRecommendations pod)).
Proof.
  unfold allRecommendations. cbn [map RTitle addLimitsRec configureRec addProbesRec].
  repeat (apply NoDup_cons; split; [intros H; not_in_list H|]).
  apply NoDup_nil_2.
Qed.

Lemma NoDup_map_inj {A B} (f : A -> B) (l : list A) (x y : A) :
  NoDup (map f l) -> x ∈ l -> y ∈ l -> f x = f y -> x = y.
Proof.
  induction l as [|a l IH]; [by intros _ ?%elem_of_nil|].
  cbn [map]. intros [Ha Hl]%NoDup_cons Hx Hy Hf.
  apply elem_of_cons in Hx as [->|Hx]; apply elem_of_cons in Hy as [->|Hy].
  - done.
  - destruct Ha. rewrite Hf. apply list_elem_of_fmap. by exists y.
  - destruct Ha. rewrite <- Hf. apply list_elem_of_fmap. by exists x.
  - by apply IH.
Qed.

(** A candidate recommendation is accepted itself, not only one of its
    title: for a given pod the title determines the recommendation. *)
Lemma acceptedRecs_candidate issues pod i r :
  i ∈ issues -> r ∈ getRecommendationsForIssue i pod ->
  r ∈ acceptedRecs issues pod.
Proof.
  intros Hi Hr.
  destruct (acceptedRecs_complete issues pod i r Hi Hr) as (r' & Hr' & Ht).
  destruct (acceptedRecs_sound issues pod r' Hr') as (j & _ & Hj).
  replace r with r'; [done|].
  apply (NoDup_map_inj RTitle (allRecommendations pod));
    eauto using catalogue_titles, getRecommendations_catalogue.
Qed.

Lemma NoDup_of_map {A B} (f : A -> B) (l : list A) : NoDup (map f l) -> NoDup l.
Proof.
  induction l as [|a l IH]; [intros _; apply NoDup_nil_2|].
  cbn [map]. intros [Ha Hl]%NoDup_cons. apply NoDup_cons. split; [|by apply IH].
  intros Hin. apply Ha, list_elem_of_fmap. by exists a.
Qed.

(** X16.  Up to their order, the recommendations of a diagnosis are
    exactly the recommendations its issues call for, each of them once:
    the loop that drops repeated titles loses no recommendation, because
    for one pod the title determines the recommendation.  They are at
    most thirteen, whatever the number of issues, and their priorities
    are 1, 2 or 3. *)
Theorem generateRecommendations_exact
    (sortSlice : list Recommendation -> list Recommendation) (d : Diagnosis) :
  SliceContract sortSlice ->
  (forall r, r ∈ generateRecommendations sortSlice d
             <-> exists i, i ∈ Issues d
                           /\ r ∈ getRecommendationsForIssue i (DPod d)) /\
  NoDup (generateRecommendations sortSlice d) /\
  (length (generateRecommendations sortSlice d) <= 13)%nat /\
  Forall (fun r => 1 <= Priority r <= 3) (generateRecommendations sortSlice d).
Proof.
  intros Hc. destruct (Hc (acceptedRecs (Issues d) (DPod d))) as [Hperm _].
  unfold generateRecommendations.
  assert (Hiff : forall r, r ∈ sortSlice (acceptedRecs (Issues d) (DPod d))
                           <-> exists i, i ∈ Issues d
                                 /\ r ∈ getRecommendationsForIssue i (DPod d)).
  { intros r. rewrite Hperm. split.
    - apply acceptedRecs_sound.
    - intros (i & Hi & Hr). by apply (acceptedRecs_candidate _ _ i). }
  assert (Hnd : NoDup (sortSlice (acceptedRecs (Issues d) (DPod d)))).
  { rewrite Hperm. apply (NoDup_of_map RTitle), acceptedRecs_NoDup. }
  assert (Hcat : forall r, r ∈ sortSlice (acceptedRecs (Issues d) (DPod d)) ->
                           r ∈ allRecommendations (DPod d)).
  { intros r (i & _ & Hr)%Hiff. by apply (getRecommendations_catalogue i). }
  split; [done|]. split; [done|]. split.
  - change 13%nat with (length (allRecommendations (DPod d))).
    apply submseteq_length, NoDup_submseteq; done.
  - apply Forall_forall. intros r Hr%Hcat. unfold allRecommendations in Hr.
    repeat (apply elem_of_cons in Hr as [->|Hr]; [simpl; lia|]).
    by apply elem_of_nil in Hr.
Qed.

(** The recommendations of the bare pod, sorted by insertion. *)
Lemma generateRecommendations_exact_witness :
  (forall r, r ∈ generateRecommendations insertionSort bareDiagnosis
             <-> exists i, i ∈ Issues bareDiagnosis
                           /\ r ∈ getRecommendationsForIssue i (DPod bareDiagnosis)) /\
  NoDup (generateRecommendations insertionSort bareDiagnosis) /\
  (length (generateRecommendations insertionSort bareDiagnosis) <= 13)%nat /\
  Forall (fun r => 1 <= Priority r <= 3)
         (generateRecommendations insertionSort bareDiagnosis).
Proof.
  apply (generateRecommendations_exact insertionSort bareDiagnosis).
  apply insertionSort_contract.
Defined.

(* ===================================================================== *)
(** * From the findings of the status analyzer to recommendations         *)
(* ===================================================================== *)

Lemma containsReason_spec (i : Issue) (reason : string) :
  containsReason i reason
  = match Details i !! "reason" with
    | Some r => String.eqb r reason
    | None => false
    end || String.eqb (Title i) reason.
Proof.
  unfold containsReason. destruct (Details i !! "reason") as [r|]; [|done].
  by destruct (String.eqb r reason).
Qed.

(** X17.  What the recommendation engine answers to the finding of the
    status analyzer about a waiting container: for CrashLoopBackOff the
    advice to check the container logs; for ImagePullBackOff and
    ErrImagePull the advice to verify the image and to check the pull
    secrets; for every other reason, CreateContainerError and
    CreateContainerConfigError included, no advice at all, although these
    two are reported as critical. *)
Theorem waiting_reason_recommendations
    (cs : ContainerStatus) (w : ContainerStateWaiting) (pod : PodInfo) :
  (WReason w = "CrashLoopBackOff" ->
   map RTitle (flat_map (fun i => getRecommendationsForIssue i pod)
                        (waitingIssues cs w))
   = ["Check container logs"]) /\
  (WReason w = "ImagePullBackOff" \/ WReason w = "ErrImagePull" ->
   map RTitle (flat_map (fun i => getRecommendationsForIssue i pod)
                        (waitingIssues cs w))
   = ["Verify image exists"; "Check image pull secrets"]) /\
  (WReason w <> "CrashLoopBackOff" -> WReason w <> "ImagePullBackOff" ->
   WReason w <> "ErrImagePull" ->
   flat_map (fun i => getRecommendationsForIssue i pod) (waitingIssues cs w) = []) /\
  (WReason w = "CreateContainerError" \/ WReason w = "CreateContainerConfigError" ->
   map Severity_of (waitingIssues cs w) = [SeverityCritical]).
Proof.
  destruct w as [reason message]. cbn [WReason].
  split; [|split; [|split]].
  - intros ->. reflexivity.
  - intros [-> | ->]; reflexivity.
  - intros H1 H2 H3. unfold waitingIssues. cbv zeta. cbn [WReason WMessage].
    apply String.eqb_neq in H1, H2, H3. rewrite H1, H2, H3. cbn [orb].
    destruct (String.eqb_spec reason "CreateContainerConfigError") as [->|H4];
      [reflexivity|].
    destruct (String.eqb_spec reason "CreateContainerError") as [->|H5];
      [reflexivity|].
    destruct (_ && _); [|reflexivity].
    cbn [flat_map]. rewrite app_nil_r.
    unfold getRecommendationsForIssue. cbv zeta. rewrite !containsReason_spec.
    cbn [Category Title Details].
    change (mapOf [("container", CSName cs); ("reason", reason)] !! "reason")
      with (Some reason).
    cbv beta iota. rewrite H1, H2, H3. reflexivity.
  - intros [-> | ->]; reflexivity.
Qed.

(** The waiting state of the crash-looping container and of a container
    whose configuration is refused. *)
Lemma waiting_reason_recommendations_witness :
  map RTitle (flat_map (fun i => getRecommendationsForIssue i (ExtractPodInfo crashOOMPod))
                       (waitingIssues crashOOMStatus
                                      (mkWaiting "CrashLoopBackOff" EmptyString)))
  = ["Check container logs"]
  /\ flat_map (fun i => getRecommendationsForIssue i (ExtractPodInfo crashOOMPod))
              (waitingIssues crashOOMStatus
                             (mkWaiting "CreateContainerConfigError" EmptyString))
     = [].
Proof.
  split.
  - apply (waiting_reason_recommendations crashOOMStatus
             (mkWaiting "CrashLoopBackOff" EmptyString)
             (ExtractPodInfo crashOOMPod)). reflexivity.
  - apply (waiting_reason_recommendations crashOOMStatus
             (mkWaiting "CreateContainerConfigError" EmptyString)
             (ExtractPodInfo crashOOMPod)); discriminate.
Defined.

(* ===================================================================== *)
(** * The containers of [ExtractPodInfo]                                  *)
(* ===================================================================== *)

Lemma statusesByName_lookup (pod : Pod) (name : string) :
  statusesByName pod !! name
  = last (filter (fun cs => CSName cs = name) (ContainerStatuses pod)).
Proof.
  unfold statusesByName.
  induction (ContainerStatuses pod) as [|cs css IH] using rev_ind; [done|].
  rewrite fold_left_app, filter_app. cbn [fold_left].
  destruct (decide (CSName cs = name)) as [Heq|Hne].
  - rewrite (filter_cons_True _ cs []) by done. rewrite filter_nil, last_snoc.
    subst name. by rewrite lookup_insert_eq.
  - rewrite (filter_cons_False _ cs []) by done.
    rewrite filter_nil, app_nil_r, lookup_insert_ne by done. exact IH.
Qed.

Lemma extractContainers_map (pod : Pod) :
  extractContainers pod
  = map (containerInfoOf (statusesByName pod)) (Containers pod).
Proof.
  unfold extractContainers.
  rewrite (fold_left_append (fun c => [containerInfoOf (statusesByName pod) c])).
  cbn [app]. induction (Containers pod) as [|c cs IH]; [done|].
  cbn [flat_map map app]. by rewrite IH.
Qed.

(** X18.  [ExtractPodInfo] lists one container info for each container
    of the pod specification, in the same order and with its name and
    image.  A container without status of its name is listed as not
    ready, with no restart and an empty state; otherwise the last status
    of that name gives readiness, restarts and state, and the state is
    running before waiting before terminated. *)
Theorem extractContainers_spec (pod : Pod) :
  map CIName (extractContainers pod) = map CName (Containers pod) /\
  map CIImage (extractContainers pod) = map Image (Containers pod) /\
  forall (k : nat) (c : Container),
    Containers pod !! k = Some c ->
    exists ci,
      extractContainers pod !! k = Some ci /\
      match last (filter (fun cs => CSName cs = CName c) (ContainerStatuses pod)) with
      | None =>
          CIReady ci = false /\ CIRestartCount ci = 0 /\ CIState ci = EmptyString
      | Some cs =>
          CIReady ci = Ready cs /\ CIRestartCount ci = RestartCount cs /\
          CIState ci
          = if notNil (Running (State cs)) then "running"
            else if notNil (Waiting (State cs)) then "waiting"
            else if notNil (Terminated (State cs)) then "terminated"
            else EmptyString
      end.
Proof.
  rewrite extractContainers_map. split; [|split].
  - rewrite map_map. apply map_ext. intros c. unfold containerInfoOf.
    destruct (statusesByName pod !! CName c) as [s|]; [|done].
    by destruct (Running (State s)), (Waiting (State s)), (Terminated (State s)).
  - rewrite map_map. apply map_ext. intros c. unfold containerInfoOf.
    destruct (statusesByName pod !! CName c) as [s|]; [|done].
    by destruct (Running (State s)), (Waiting (State s)), (Terminated (State s)).
  - intros k c Hk. exists (containerInfoOf (statusesByName pod) c). split.
    + change (map (containerInfoOf (statusesByName pod)) (Containers pod))
        with (containerInfoOf (statusesByName pod) <$> Containers pod).
      by rewrite list_lookup_fmap, Hk.
    + unfold containerInfoOf. rewrite statusesByName_lookup.
      destruct (last _) as [s|]; [|done].
      by destruct (Running (State s)), (Waiting (State s)), (Terminated (State s)).
Qed.

(** The container app of [twoStatusPod] is listed with its later
    status. *)
Lemma extractContainers_spec_witness :
  exists ci,
    extractContainers twoStatusPod !! 0%nat = Some ci /\
    match last (filter (fun cs => CSName cs = CName bareContainer)
                       (ContainerStatuses twoStatusPod)) with
    | None =>
        CIReady ci = false /\ CIRestartCount ci = 0 /\ CIState ci = EmptyString
    | Some cs =>
        CIReady ci = Ready cs /\ CIRestartCount ci = RestartCount cs /\
        CIState ci
        = if notNil (Running (State cs)) then "running"
          else if notNil (Waiting (State cs)) then "waiting"
          else if notNil (Terminated (State cs)) then "terminated"
          else EmptyString
    end.
Proof.
  apply (proj2 (proj2 (extractContainers_spec twoStatusPod)) 0%nat bareContainer).
  reflexivity.
Defined.

(* ===================================================================== *)
(** * From an analyzer to the recommendations of the diagnosis            *)
(* ===================================================================== *)


(** An issue kept by the pipeline brings each of its recommendations into
    the diagnosis. *)
Lemma recommendation_kept sortSlice (d : Diagnosis) i r :
  SliceContract sortSlice ->
  Recommendations d = sortSlice (acceptedRecs (Issues d) (DPod d)) ->
  i ∈ Issues d -> r ∈ getRecommendationsForIssue i (DPod d) ->
  r ∈ Recommendations d.
Proof.
  intros Hc -> Hi Hr. destruct (Hc (acceptedRecs (Issues d) (DPod d))) as [-> _].
  by apply (acceptedRecs_candidate _ _ i).
Qed.

Lemma IsHealthy_issue (d : Diagnosis) i : i ∈ Issues d -> IsHealthy d = false.
Proof.
  unfold IsHealthy. destruct (Issues d); [by intros ?%elem_of_nil|done].
Qed.




(** X20.  Every issue the log analyzer finds brings into the diagnosis
    the recommendation to review the full logs, with the command that
    prints the last hundred lines of the pod; the diagnosis is then not
    healthy. *)
Theorem log_issue_recommended
    (sortSlice : list Recommendation -> list Recommendation) (now : GoTime)
    (cluster : Client) (namespace name : string) (pod : Pod) (i : Issue) :
  SliceContract sortSlice ->
  GetPod cluster namespace name = Ok pod ->
  i ∈ fst (LogAnalyze NewLogAnalyzer pod cluster) ->
  exists d,
    Diagnose sortSlice now (NewPodAnalyzer cluster) namespace name = Ok d /\
    i ∈ Issues d /\ IsHealthy d = false /\
    {| Priority := 2; RTitle := "Review full logs";
       RDescription := "Check complete container logs for more context";
       Command := "kubectl logs " +:+ Name pod +:+ " -n " +:+ Namespace pod
                  +:+ " --tail=100" |}
    ∈ Recommendations d.
Proof.
  intros Hc Hpod Hi.
  destruct (Diagnose_ok sortSlice now (NewPodAnalyzer cluster) namespace name
              pod Hpod) as (d & Hd & Hinfo & Hissues & Hrecs).
  assert (Hcat : Category i = "logs").
  { pose proof (LogAnalyze_category NewLogAnalyzer pod cluster) as Hall.
    rewrite Forall_forall in Hall. by apply Hall. }
  assert (Hin : i ∈ Issues d).
  { rewrite Hissues, NewPodAnalyzer_issues, !elem_of_app.
    do 2 right. left. by rewrite keptIssues_mk. }
  exists d. split; [done|]. split; [done|]. split; [by apply (IsHealthy_issue d i)|].
  apply (recommendation_kept sortSlice d i); [done..|].
  rewrite Hinfo. unfold getRecommendationsForIssue. rewrite Hcat.
  apply list_elem_of_here.
Qed.

(** The log line of the sample output of the README. *)
Lemma log_issue_recommended_witness :
  exists d,
    Diagnose insertionSort noon (NewPodAnalyzer refusedCluster) "default" "web"
    = Ok d /\
    refusedIssue ∈ Issues d /\ IsHealthy d = false /\
    {| Priority := 2; RTitle := "Review full logs";
       RDescription := "Check complete container logs for more context";
       Command := "kubectl logs " +:+ Name barePod +:+ " -n " +:+ Namespace barePod
                  +:+ " --tail=100" |}
    ∈ Recommendations d.
Proof.
  apply (log_issue_recommended insertionSort noon refusedCluster
           "default" "web" barePod refusedIssue).
  - apply insertionSort_contract.
  - reflexivity.
  - vm_compute. left.
Defined.

(** The diagnosis of the pipeline holds the issues of the status analyzer
    and every recommendation its issues call for. *)
Lemma Diagnose_recommends sortSlice now cluster namespace name pod :
  SliceContract sortSlice ->
  GetPod cluster namespace name = Ok pod ->
  exists d,
    Diagnose sortSlice now (NewPodAnalyzer cluster) namespace name = Ok d /\
    (forall i, i ∈ fst (StatusAnalyze pod cluster) -> i ∈ Issues d) /\
    (forall i r, i ∈ Issues d ->
                 r ∈ getRecommendationsForIssue i (ExtractPodInfo pod) ->
                 r ∈ Recommendations d).
Proof.
  intros Hc Hpod.
  destruct (Diagnose_ok sortSlice now (NewPodAnalyzer cluster) namespace name
              pod Hpod) as (d & Hd & Hinfo & Hissues & Hrecs).
  exists d. split; [done|]. split.
  - intros i Hi. rewrite Hissues, NewPodAnalyzer_issues, !elem_of_app.
    left. by rewrite keptIssues_mk.
  - intros i r Hi Hr. apply (recommendation_kept sortSlice d i); [done..|].
    by rewrite Hinfo.
Qed.

Lemma HasCriticalIssues_issue (d : Diagnosis) i :
  i ∈ Issues d -> Severity_of i = SeverityCritical -> HasCriticalIssues d = true.
Proof.
  intros Hi Hs. unfold HasCriticalIssues. apply existsb_exists. exists i.
  split; [by apply list_elem_of_In|]. unfold IsCritical.
  by apply bool_decide_eq_true_2.
Qed.

(** X21.  A pod with a condition PodScheduled of status False is
    diagnosed with a critical issue, and the diagnosis recommends to
    check the node resources and to review the tolerations of the pod. *)
Theorem unschedulable_pod_recommended
    (sortSlice : list Recommendation -> list Recommendation) (now : GoTime)
    (cluster : Client) (namespace name : string) (pod : Pod) (cond : PodCondition) :
  SliceContract sortSlice ->
  GetPod cluster namespace name = Ok pod ->
  cond ∈ Conditions pod -> CType cond = PodScheduled -> CStatus cond = ConditionFalse ->
  exists d,
    Diagnose sortSlice now (NewPodAnalyzer cluster) namespace name = Ok d /\
    HasCriticalIssues d = true /\
    {| Priority := 1; RTitle := "Check node resources";
       RDescription := "Verify cluster has nodes with sufficient resources";
       Command := "kubectl describe nodes | grep -A5 'Allocated resources'" |}
    ∈ Recommendations d /\
    {| Priority := 2; RTitle := "Review pod tolerations";
       RDescription := "Check if pod has required tolerations for tainted nodes";
       Command := EmptyString |}
    ∈ Recommendations d.
Proof.
  intros Hc Hpod Hcond Ht Hs.
  destruct (Diagnose_recommends sortSlice now cluster namespace name pod Hc Hpod)
    as (d & Hd & Hstatus & Hrec).
  set (i := {| Severity_of := SeverityCritical; Category := "scheduling";
               Title := "Pod cannot be scheduled";
               Description := CMessage cond;
               Details := mapOf [("reason", CReason cond)] |}).
  assert (Hi : i ∈ Issues d).
  { apply Hstatus. unfold StatusAnalyze. cbn [fst]. rewrite !elem_of_app.
    right. right. left. unfold analyzePodConditions. apply elem_of_app. left.
    apply list_elem_of_In, in_flat_map. exists cond.
    split; [by apply list_elem_of_In|].
    unfold conditionIssues. rewrite Ht, Hs. left. reflexivity. }
  exists d. split; [done|].
  split; [by apply (HasCriticalIssues_issue d i)|].
  split; apply (Hrec i); try done.
  - apply list_elem_of_here.
  - apply list_elem_of_further, list_elem_of_here.
Qed.

(** The pending pod for which no node has memory enough. *)
Lemma unschedulable_pod_recommended_witness :
  exists d,
    Diagnose insertionSort noon (NewPodAnalyzer pendingCluster) "default" "web"
    = Ok d /\
    HasCriticalIssues d = true /\
    {| Priority := 1; RTitle := "Check node resources";
       RDescription := "Verify cluster has nodes with sufficient resources";
       Command := "kubectl describe nodes | grep -A5 'Allocated resources'" |}
    ∈ Recommendations d /\
    {| Priority := 2; RTitle := "Review pod tolerations";
       RDescription := "Check if pod has required tolerations for tainted nodes";
       Command := EmptyString |}
    ∈ Recommendations d.
Proof.
  apply (unschedulable_pod_recommended insertionSort noon pendingCluster
           "default" "web" pendingPod unschedulable).
  - apply insertionSort_contract.
  - reflexivity.
  - apply list_elem_of_here.
  - reflexivity.
  - reflexivity.
Defined.

(** X22.  A pod with a container whose last termination has the reason
    OOMKilled is diagnosed with a critical issue, and the diagnosis
    recommends to increase the memory limit. *)
Theorem oom_killed_recommended
    (sortSlice : list Recommendation -> list Recommendation) (now : GoTime)
    (cluster : Client) (namespace name : string) (pod : Pod)
    (cs : ContainerStatus) (t : ContainerStateTerminated) :
  SliceContract sortSlice ->
  GetPod cluster namespace name = Ok pod ->
  cs ∈ ContainerStatuses pod ->
  Terminated (LastTerminationState cs) = Some t -> TReason t = "OOMKilled" ->
  exists d,
    Diagnose sortSlice now (NewPodAnalyzer cluster) namespace name = Ok d /\
    HasCriticalIssues d = true /\
    {| Priority := 1; RTitle := "Increase memory limit";
       RDescription := "Container exceeded memory limit; consider increasing it";
       Command := "kubectl set resources deployment/<deployment-name> -c <container> --limits=memory=<new-limit>" |}
    ∈ Recommendations d.
Proof.
  intros Hc Hpod Hcs Hterm Hreason.
  destruct (Diagnose_recommends sortSlice now cluster namespace name pod Hc Hpod)
    as (d & Hd & Hstatus & Hrec).
  set (i := {| Severity_of := SeverityCritical; Category := "resources";
               Title := "Container " +:+ CSName cs +:+ " was OOMKilled";
               Description := "Container exceeded memory limit and was killed";
               Details := mapOf [("container", CSName cs); ("reason", "OOMKilled");
                                 ("exit_code", pretty (ExitCode t))] |}).
  assert (Hi : i ∈ Issues d).
  { apply Hstatus. unfold StatusAnalyze. cbn [fst]. rewrite !elem_of_app. left.
    apply list_elem_of_In, in_flat_map. exists cs.
    split; [by apply list_elem_of_In|]. apply list_elem_of_In.
    unfold analyzeContainerStatus. rewrite Hterm, Hreason.
    rewrite !elem_of_app. right. left. apply list_elem_of_here. }
  exists d. split; [done|].
  split; [by apply (HasCriticalIssues_issue d i)|].
  apply (Hrec i); [done|].
  unfold getRecommendationsForIssue. cbv zeta. apply elem_of_app. left.
  apply list_elem_of_here.
Qed.

(** The container that was killed for its memory and runs again. *)
Lemma oom_killed_recommended_witness :
  exists d,
    Diagnose insertionSort noon (NewPodAnalyzer oomCluster) "default" "web"
    = Ok d /\
    HasCriticalIssues d = true /\
    {| Priority := 1; RTitle := "Increase memory limit";
       RDescription := "Container exceeded memory limit; consider increasing it";
       Command := "kubectl set resources deployment/<deployment-name> -c <container> --limits=memory=<new-limit>" |}
    ∈ Recommendations d.
Proof.
  apply (oom_killed_recommended insertionSort noon oomCluster
           "default" "web" oomPod oomFirstStatus (mkTerminated 137 "OOMKilled" EmptyString)).
  - apply insertionSort_contract.
  - reflexivity.
  - apply list_elem_of_here.
  - reflexivity.
  - reflexivity.
Defined.

(* ===================================================================== *)
(** * The cursor of the terminal interface                                *)
(* ===================================================================== *)

(** The three clamping tests of [moveCursor], from the inside out. *)
Ltac clamp :=
  repeat (match goal with
          | |- context [if ?a <? ?b then _ else _] =>
              lazymatch a with
              | context [if _ then _ else _] => fail
              | _ => destruct (Z.ltb_spec a b)
              end
          | |- context [if ?a <=? ?b then _ else _] =>
              lazymatch b with
              | context [if _ then _ else _] => fail
              | _ => destruct (Z.leb_spec a b)
              end
          end; cbv beta iota);
  lia.

(** X23.  [moveCursor] changes nothing but the cursor, and nothing at
    all outside the two list views.  In a list view the cursor ends at
    zero or above and below the number of items, or at zero when the
    list is empty, whatever the step and even when the addition
    overflows; when it does not overflow, the cursor is the sum, clamped
    to the first and the last item. *)
Theorem moveCursor_in_range (m : tui.Model) (delta : Z) :
  tui.view (tui.moveCursor m delta) = tui.view m /\
  tui.namespaces (tui.moveCursor m delta) = tui.namespaces m /\
  tui.filteredPods (tui.moveCursor m delta) = tui.filteredPods m /\
  (tui.maxItems m = None -> tui.moveCursor m delta = m) /\
  (forall n, tui.maxItems m = Some n ->
     0 <= tui.cursor (tui.moveCursor m delta) /\
     (tui.cursor (tui.moveCursor m delta) < n
      \/ n = 0 /\ tui.cursor (tui.moveCursor m delta) = 0) /\
     (- 2 ^ 63 <= tui.cursor m + delta < 2 ^ 63 ->
      tui.cursor (tui.moveCursor m delta)
      = Z.max 0 (Z.min (tui.cursor m + delta) (n - 1)))).
Proof.
  unfold tui.moveCursor.
  destruct (tui.maxItems m) as [n|] eqn:Hmax; cbn [tui.view tui.namespaces
    tui.filteredPods tui.cursor]; (split; [done|split; [done|split; [done|]]]).
  - split; [discriminate|]. intros n' [= <-].
    assert (Hn : 0 <= n).
    { unfold tui.maxItems in Hmax. destruct (tui.view m); try discriminate;
        injection Hmax as <-; lia. }
    set (c := tui.wrapInt (tui.cursor m + delta)).
    assert (Hc : - 2 ^ 63 <= tui.cursor m + delta < 2 ^ 63 ->
                 c = tui.cursor m + delta).
    { intros Hr. unfold c, tui.wrapInt. rewrite Z.mod_small; lia. }
    split; [|split].
    + clamp.
    + clamp.
    + intros Hr. rewrite (Hc Hr).
      clamp.
  - split; [done|]. discriminate.
Qed.

(** Page down on the last of three namespaces: the cursor stays. *)
Lemma moveCursor_in_range_witness :
  0 <= tui.cursor (tui.moveCursor namespaceList 10) /\
  (tui.cursor (tui.moveCursor namespaceList 10) < 3
   \/ 3 = 0 /\ tui.cursor (tui.moveCursor namespaceList 10) = 0) /\
  (- 2 ^ 63 <= tui.cursor namespaceList + 10 < 2 ^ 63 ->
   tui.cursor (tui.moveCursor namespaceList 10)
   = Z.max 0 (Z.min (tui.cursor namespaceList + 10) (3 - 1))).
Proof.
  apply (proj2 (proj2 (proj2 (proj2 (moveCursor_in_range namespaceList 10))))).
  reflexivity.
Defined.
